(** * proofstore: the storage backend of [backend/core.py]

    A shallow embedding of the element, tag and link repositories and of the
    relation-semantics validator, together with the part of the SQLite engine
    the repository functions rely on (tables as row lists in rowid order, the
    constraints declared by [init_db], statements that run inside the
    connection's open transaction, [commit]).

    Python [str] values are modelled by [string]; every [ascii] stands for
    one code point below 256, so [len] is [String.length] and the engine's
    BINARY collation is [String.compare]. *)

From Stdlib Require Import String Ascii List ZArith NArith Lia Bool.
From Stdlib Require Import Sorted Permutation.
Import ListNotations.
Open Scope string_scope.
Open Scope list_scope.

(** ** Python built-ins used by the module *)

Module Py.

(** [str.isspace] on one code point below 256: TAB..CR, FS..US, SPACE,
    NEL and NBSP. *)
Definition isspace (c : ascii) : bool :=
  let n := N_of_ascii c in
  (((9 <=? n) && (n <=? 13)) || ((28 <=? n) && (n <=? 32))
   || (n =? 133) || (n =? 160))%N.

Fixpoint lstrip (s : string) : string :=
  match s with
  | EmptyString => EmptyString
  | String c s' => if isspace c then lstrip s' else s
  end.

Fixpoint rstrip (s : string) : string :=
  match s with
  | EmptyString => EmptyString
  | String c s' =>
      match rstrip s' with
      | EmptyString => if isspace c then EmptyString else String c EmptyString
      | r => String c r
      end
  end.

(** [s.strip()] *)
Definition strip (s : string) : string := rstrip (lstrip s).

(** Truth value of a [str]: the empty string is falsy. *)
Definition truthy (s : string) : bool := negb (s =? "").

(** Truth value of an [Optional[str]]: [None] and [""] are falsy. *)
Definition truthy_opt (o : option string) : bool :=
  match o with
  | None => false
  | Some s => truthy s
  end.

(** [a or b] on an optional string. *)
Definition or_else (o : option string) (d : string) : string :=
  match o with
  | Some s => if truthy s then s else d
  | None => d
  end.

Definition upper_char (c : ascii) : ascii :=
  let n := N_of_ascii c in
  if ((97 <=? n) && (n <=? 122))%N then ascii_of_N (n - 32) else c.

(** [s.upper()] on the ASCII letters.  The letters between 128 and 255
    map to non-ASCII code points or to ["SS"], so the only use made of the
    result here, the comparison with ["ASC"] and ["DESC"], is the same. *)
Fixpoint upper (s : string) : string :=
  match s with
  | EmptyString => EmptyString
  | String c s' => String (upper_char c) (upper s')
  end.

Definition lower_char (c : ascii) : ascii :=
  let n := N_of_ascii c in
  if ((65 <=? n) && (n <=? 90))%N then ascii_of_N (n + 32) else c.

(** [x in xs] on a tuple or a set of strings. *)
Definition mem (x : string) (xs : list string) : bool :=
  existsb (String.eqb x) xs.

(** [s.lower()] on the ASCII letters; as for [upper], the result is only
    compared with ASCII words. *)
Fixpoint lower (s : string) : string :=
  match s with
  | EmptyString => EmptyString
  | String c s' => String (lower_char c) (lower s')
  end.

(** [c in s] for one character. *)
Fixpoint contains (c : ascii) (s : string) : bool :=
  match s with
  | EmptyString => false
  | String a s' => Ascii.eqb a c || contains c s'
  end.

(** [s.split(c)] for a separator of one character: the pieces between
    the separators, the empty ones included. *)
Fixpoint split (c : ascii) (s : string) : list string :=
  match s with
  | EmptyString => [EmptyString]
  | String a s' =>
      if Ascii.eqb a c then EmptyString :: split c s'
      else
        match split c s' with
        | [] => [String a EmptyString]
        | piece :: pieces => String a piece :: pieces
        end
  end.

(** [sorted(xs)] on strings: ascending by code points. *)
Fixpoint sorted_insert (x : string) (l : list string) : list string :=
  match l with
  | [] => [x]
  | y :: l' => if String.leb x y then x :: l else y :: sorted_insert x l'
  end.

Definition sorted (xs : list string) : list string :=
  fold_right sorted_insert [] xs.

End Py.

(** ** Constants *)

Definition ELEMENT_TYPES : list string :=
  [ "definition"; "axiom"; "postulate"; "lemma"; "proposition"; "theorem";
    "corollary"; "proof"; "example"; "counterexample"; "remark" ].

Definition FORMATS : list string := [ "plain"; "markdown"; "html"; "latex" ].

Definition LINK_RELATIONS : list string :=
  [ "proves"; "uses"; "implies"; "equivalent_to"; "example_of";
    "counterexample_to"; "related" ].

(** Python sets of type names, kept as lists; [|] is [++]. *)
Definition STATEMENTS : list string :=
  [ "axiom"; "postulate"; "lemma"; "proposition"; "theorem"; "corollary" ].
Definition DERIVED_STATEMENTS : list string :=
  [ "lemma"; "proposition"; "theorem"; "corollary" ].
Definition STATEMENT_OR_DEF : list string := STATEMENTS ++ [ "definition" ].
Definition STATEMENT_LIKE_FOR_EQ : list string :=
  [ "definition"; "lemma"; "proposition"; "theorem"; "corollary" ].

(** The dict [REL_RULES], in the order of the source. *)
Definition REL_RULES : list (string * (list string * list string)) :=
  [ ("proves", ([ "proof" ], DERIVED_STATEMENTS));
    ("uses", (STATEMENTS ++ [ "proof" ], STATEMENT_OR_DEF));
    ("example_of", ([ "example" ], STATEMENT_LIKE_FOR_EQ));
    ("counterexample_to", ([ "counterexample" ], STATEMENT_LIKE_FOR_EQ));
    ("equivalent_to", (STATEMENT_LIKE_FOR_EQ, STATEMENT_LIKE_FOR_EQ));
    ("implies", (STATEMENTS, STATEMENTS));
    ("related", (ELEMENT_TYPES, ELEMENT_TYPES)) ].

Fixpoint dict_get {V : Type} (k : string) (d : list (string * V)) : option V :=
  match d with
  | [] => None
  | (k', v) :: d' => if k =? k' then Some v else dict_get k d'
  end.

(** ** Exceptions *)

(** The constraints declared by [init_db]; a violated one surfaces as
    [sqlite3.IntegrityError]. *)
Inductive constraint : Type :=
| PK_elements              (* elements.id *)
| CHECK_elements_type
| CHECK_elements_format
| PK_element_tags          (* element_tags.element_id, element_tags.tag *)
| FK_element_tags          (* element_id REFERENCES elements(id) *)
| PK_element_links         (* element_links.id *)
| CHECK_element_links_rel
| FK_element_links         (* src_id, dst_id REFERENCES elements(id) *)
| uq_links_src_dst_rel.    (* the unique index on (src_id, dst_id, rel) *)

(** One constructor for each [raise ValueError(...)] of the module, named
    after its message. *)
Inductive value_error : Type :=
| Invalid_type (t : string)
| Invalid_format (fmt : string)
| Invalid_rel (rel : string)
| title_is_empty
| body_is_empty
| tag_is_empty
| tag_too_long
| src_id_and_dst_id_must_differ
| src_id_not_found (src_id : string)
| dst_id_not_found (dst_id : string)
| rel_requires_src_type (rel : string) (got : string)
| rel_requires_dst_type (rel : string) (got : string)
| order_by_must_be_one_of (allowed : list string)
| order_dir_must_be_ASC_or_DESC
| limit_must_be_ge_1
| offset_must_be_ge_0
| direction_must_be_one_of.

(** The failures of a [SELECT] in the engine, surfacing as
    [sqlite3.OperationalError], named after the message. *)
Inductive operational_error : Type :=
| LIKE_or_GLOB_pattern_too_complex.

(** [OverflowError] is what binding a Python [int] that does not fit
    SQLite's 64-bit INTEGER raises. *)
Inductive exn : Type :=
| ValueError (m : value_error)
| IntegrityError (c : constraint)
| KeyError (k : string)
| OverflowError
| OperationalError (m : operational_error).

Inductive result (A : Type) : Type :=
| Ok (a : A)
| Raise (e : exn).
Arguments Ok {A} a.
Arguments Raise {A} e.

Definition result_map {A B : Type} (f : A -> B) (r : result A) : result B :=
  match r with
  | Ok a => Ok (f a)
  | Raise e => Raise e
  end.

(** ** Schema *)

Record element : Type := mk_element {
  el_id : string;
  el_type : string;
  el_format : string;
  el_title : string;
  el_body : string;
  el_created_at : string;
  el_updated_at : string
}.

Record element_tag : Type := mk_element_tag {
  et_element_id : string;
  et_tag : string;
  et_created_at : string
}.

Record element_link : Type := mk_element_link {
  ln_id : string;
  ln_src_id : string;
  ln_dst_id : string;
  ln_rel : string;
  ln_note : string;
  ln_created_at : string;
  ln_updated_at : string
}.

(** The three tables, each in rowid order. *)
Record database : Type := mk_database {
  elements : list element;
  element_tags : list element_tag;
  element_links : list element_link
}.

(** A connection: [db] is what statements on the connection read and write
    (the open transaction included), [committed] is what the last [commit]
    made durable. *)
Record connection : Type := mk_connection {
  db : database;
  committed : database
}.

(** The running process: its connection, and what the clock and the random
    source will answer, read after read. *)
Record process : Type := mk_process {
  conn : connection;
  clock : nat -> string;
  entropy : nat -> string
}.

(** ** The engine: statements over a [database]

    A statement either fails as a whole or returns its [rowcount] (or its
    rows) with the new tables; the constraints are those of [init_db], with
    foreign keys enforced ([PRAGMA foreign_keys = ON]). *)

Module Sql.

Fixpoint insert_sorted {A : Type} (le : A -> A -> bool) (x : A) (l : list A)
  : list A :=
  match l with
  | [] => [x]
  | y :: l' => if le x y then x :: l else y :: insert_sorted le x l'
  end.

(** [ORDER BY] with the comparison [le].  The engine leaves the order of
    rows that compare equal open (it is the order in which its plan visits
    them); here they stay in the order they came in, rowid order, and the
    same for a query with and without its [LIMIT] tail.  What is proved of
    a listing is its members, that it is sorted, and how its pages relate
    to it. *)
Definition order_by {A : Type} (le : A -> A -> bool) (l : list A) : list A :=
  fold_right (insert_sorted le) [] l.

(** The tail of a [SELECT]: nothing, [LIMIT n], or [LIMIT n OFFSET k]
    (the grammar has no [OFFSET] without [LIMIT]). *)
Inductive limit_clause : Type :=
| NoLimit
| Limit (n : Z)
| LimitOffset (n k : Z).

(** The first [n] rows, and the rows after the first [k]. *)
Fixpoint first_rows {A : Type} (n : Z) (rows : list A) : list A :=
  match rows with
  | [] => []
  | r :: rows' => if (0 <? n)%Z then r :: first_rows (n - 1) rows' else []
  end.

Fixpoint skip_rows {A : Type} (k : Z) (rows : list A) : list A :=
  match rows with
  | [] => []
  | _ :: rows' => if (0 <? k)%Z then skip_rows (k - 1) rows' else rows
  end.

(** A negative [LIMIT] is no limit. *)
Definition take (n : Z) {A : Type} (rows : list A) : list A :=
  if (n <? 0)%Z then rows else first_rows n rows.

Definition apply_limit {A : Type} (lc : limit_clause) (rows : list A) : list A :=
  match lc with
  | NoLimit => rows
  | Limit n => take n rows
  | LimitOffset n k => take n (skip_rows k rows)
  end.

(** A Python [int] bound to a [?] has to fit SQLite's 64-bit INTEGER. *)
Definition fits_integer (n : Z) : bool :=
  ((- 2 ^ 63 <=? n) && (n <? 2 ^ 63))%Z.

(** Binding the parameters of the tail, which happens before the
    statement runs: the [n] of [LIMIT ?] and the [k] of [OFFSET ?].  The
    [-1] of [LIMIT -1] is part of the text of the statement. *)
Definition bind_limit (lc : limit_clause) : result unit :=
  match lc with
  | NoLimit => Ok tt
  | Limit n => if fits_integer n then Ok tt else Raise OverflowError
  | LimitOffset n k =>
      if fits_integer n && fits_integer k then Ok tt else Raise OverflowError
  end.

(** [s LIKE p]: [%] matches any run, [_] any one character, ASCII letters
    match without regard to case.  The engine reads both operands as C
    strings: each ends at its first character of code 0. *)
Fixpoint c_string (s : list ascii) : list ascii :=
  match s with
  | [] => []
  | c :: s' => if Ascii.eqb c Ascii.zero then [] else c :: c_string s'
  end.

Definition like_char (a b : ascii) : bool :=
  Ascii.eqb (Py.lower_char a) (Py.lower_char b).

Fixpoint like_list (p : list ascii) : list ascii -> bool :=
  match p with
  | [] => fun s => match s with [] => true | _ => false end
  | c :: p' =>
      if Ascii.eqb c "%"%char then
        fix star (s : list ascii) : bool :=
          like_list p' s || match s with [] => false | _ :: s' => star s' end
      else if Ascii.eqb c "_"%char then
        fun s => match s with [] => false | _ :: s' => like_list p' s' end
      else
        fun s => match s with
                 | [] => false
                 | a :: s' => like_char c a && like_list p' s'
                 end
  end.

Definition like (s p : string) : bool :=
  like_list (c_string (list_ascii_of_string p)) (c_string (list_ascii_of_string s)).

(** The length of a string in bytes, as the engine holds it (UTF-8): one
    byte for a code point below 128, two for the others. *)
Fixpoint utf8_length (s : string) : Z :=
  match s with
  | EmptyString => 0
  | String c s' =>
      ((if (N_of_ascii c <? 128)%N then 1 else 2) + utf8_length s')%Z
  end.

(** [LIKE] refuses a pattern of more than [SQLITE_MAX_LIKE_PATTERN_LENGTH]
    bytes (50000 unless the library was built otherwise) each time it is
    evaluated. *)
Definition MAX_LIKE_PATTERN_LENGTH : Z := 50000.

Definition like_too_complex (p : string) : bool :=
  (MAX_LIKE_PATTERN_LENGTH <? utf8_length p)%Z.

(** *** elements *)

Definition element_exists (d : database) (id : string) : bool :=
  existsb (fun e => el_id e =? id) (elements d).

(** [SELECT * FROM elements WHERE id = ?], [fetchone()]. *)
Definition select_element (id : string) (d : database) : option element :=
  find (fun e => el_id e =? id) (elements d).

(** [INSERT INTO elements (...) VALUES (...)] *)
Definition insert_element (r : element) (d : database) : result (Z * database) :=
  if negb (Py.mem (el_type r) ELEMENT_TYPES) then
    Raise (IntegrityError CHECK_elements_type)
  else if negb (Py.mem (el_format r) FORMATS) then
    Raise (IntegrityError CHECK_elements_format)
  else if element_exists d (el_id r) then
    Raise (IntegrityError PK_elements)
  else
    Ok (1%Z, mk_database (elements d ++ [r]) (element_tags d) (element_links d)).

Definition set_element (type format title body updated_at : string) (e : element)
  : element :=
  mk_element (el_id e) type format title body (el_created_at e) updated_at.

(** [UPDATE elements SET type = ?, format = ?, title = ?, body = ?,
    updated_at = ? WHERE id = ?] *)
Definition update_element (type format title body updated_at id : string)
    (d : database) : result (Z * database) :=
  let hit := fun e => el_id e =? id in
  if negb (existsb hit (elements d)) then Ok (0%Z, d)
  else if negb (Py.mem type ELEMENT_TYPES) then
    Raise (IntegrityError CHECK_elements_type)
  else if negb (Py.mem format FORMATS) then
    Raise (IntegrityError CHECK_elements_format)
  else
    Ok (Z.of_nat (List.length (filter hit (elements d))),
        mk_database
          (map (fun e => if hit e
                         then set_element type format title body updated_at e
                         else e) (elements d))
          (element_tags d) (element_links d)).

(** [DELETE FROM elements WHERE id = ?], with the two
    [ON DELETE CASCADE] foreign keys. *)
Definition delete_element (id : string) (d : database) : result (Z * database) :=
  let hit := fun e => el_id e =? id in
  if negb (existsb hit (elements d)) then Ok (0%Z, d)
  else
    Ok (Z.of_nat (List.length (filter hit (elements d))),
        mk_database
          (filter (fun e => negb (hit e)) (elements d))
          (filter (fun r => negb (et_element_id r =? id)) (element_tags d))
          (filter (fun l => negb ((ln_src_id l =? id) || (ln_dst_id l =? id)))
             (element_links d))).

(** *** element_tags *)

Definition tag_exists (d : database) (element_id tag : string) : bool :=
  existsb (fun r => (et_element_id r =? element_id) && (et_tag r =? tag))
    (element_tags d).

(** [SELECT tag FROM element_tags WHERE element_id = ? ORDER BY tag ASC] *)
Definition select_tags (element_id : string) (d : database) : list string :=
  order_by String.leb
    (map et_tag (filter (fun r => et_element_id r =? element_id) (element_tags d))).

(** [INSERT INTO element_tags (element_id, tag, created_at) VALUES (?, ?, ?)] *)
Definition insert_element_tag (r : element_tag) (d : database)
  : result (Z * database) :=
  if tag_exists d (et_element_id r) (et_tag r) then
    Raise (IntegrityError PK_element_tags)
  else if negb (element_exists d (et_element_id r)) then
    Raise (IntegrityError FK_element_tags)
  else
    Ok (1%Z, mk_database (elements d) (element_tags d ++ [r]) (element_links d)).

(** [INSERT OR IGNORE INTO element_tags ...]: a row that would break the
    primary key is skipped; the foreign key still raises. *)
Definition insert_or_ignore_element_tag (r : element_tag) (d : database)
  : result (Z * database) :=
  if tag_exists d (et_element_id r) (et_tag r) then Ok (0%Z, d)
  else if negb (element_exists d (et_element_id r)) then
    Raise (IntegrityError FK_element_tags)
  else
    Ok (1%Z, mk_database (elements d) (element_tags d ++ [r]) (element_links d)).

(** [DELETE FROM element_tags WHERE element_id = ?] *)
Definition delete_element_tags (element_id : string) (d : database)
  : result (Z * database) :=
  let hit := fun r => et_element_id r =? element_id in
  Ok (Z.of_nat (List.length (filter hit (element_tags d))),
      mk_database (elements d)
        (filter (fun r => negb (hit r)) (element_tags d))
        (element_links d)).

(** [DELETE FROM element_tags WHERE element_id = ? AND tag = ?] *)
Definition delete_element_tag (element_id tag : string) (d : database)
  : result (Z * database) :=
  let hit := fun r => (et_element_id r =? element_id) && (et_tag r =? tag) in
  Ok (Z.of_nat (List.length (filter hit (element_tags d))),
      mk_database (elements d)
        (filter (fun r => negb (hit r)) (element_tags d))
        (element_links d)).

(** *** element_links *)

Definition same_triple (src_id dst_id rel : string) (l : element_link) : bool :=
  (ln_src_id l =? src_id) && (ln_dst_id l =? dst_id) && (ln_rel l =? rel).

Definition link_exists (d : database) (id : string) : bool :=
  existsb (fun l => ln_id l =? id) (element_links d).

(** [SELECT * FROM element_links WHERE id = ?], [fetchone()]. *)
Definition select_link (id : string) (d : database) : option element_link :=
  find (fun l => ln_id l =? id) (element_links d).

(** [INSERT INTO element_links (...) VALUES (...)] *)
Definition insert_element_link (r : element_link) (d : database)
  : result (Z * database) :=
  if negb (Py.mem (ln_rel r) LINK_RELATIONS) then
    Raise (IntegrityError CHECK_element_links_rel)
  else if existsb (same_triple (ln_src_id r) (ln_dst_id r) (ln_rel r))
            (element_links d) then
    Raise (IntegrityError uq_links_src_dst_rel)
  else if link_exists d (ln_id r) then
    Raise (IntegrityError PK_element_links)
  else if negb (element_exists d (ln_src_id r) && element_exists d (ln_dst_id r)) then
    Raise (IntegrityError FK_element_links)
  else
    Ok (1%Z, mk_database (elements d) (element_tags d) (element_links d ++ [r])).

Definition set_link (rel note updated_at : string) (l : element_link)
  : element_link :=
  mk_element_link (ln_id l) (ln_src_id l) (ln_dst_id l) rel note
    (ln_created_at l) updated_at.

(** [UPDATE element_links SET rel = ?, note = ?, updated_at = ?
    WHERE id = ?]: the unique index rejects the statement when a row it
    rewrites would meet another row on (src_id, dst_id, rel). *)
Definition update_element_link (rel note updated_at id : string) (d : database)
  : result (Z * database) :=
  let hit := fun l => ln_id l =? id in
  let clash := fun l =>
    hit l &&
    existsb (fun l' => negb (hit l') && same_triple (ln_src_id l) (ln_dst_id l) rel l')
      (element_links d) in
  if negb (existsb hit (element_links d)) then Ok (0%Z, d)
  else if negb (Py.mem rel LINK_RELATIONS) then
    Raise (IntegrityError CHECK_element_links_rel)
  else if existsb clash (element_links d) then
    Raise (IntegrityError uq_links_src_dst_rel)
  else
    Ok (Z.of_nat (List.length (filter hit (element_links d))),
        mk_database (elements d) (element_tags d)
          (map (fun l => if hit l then set_link rel note updated_at l else l)
             (element_links d))).

(** [DELETE FROM element_links WHERE id = ?] *)
Definition delete_element_link (id : string) (d : database)
  : result (Z * database) :=
  let hit := fun l => ln_id l =? id in
  Ok (Z.of_nat (List.length (filter hit (element_links d))),
      mk_database (elements d) (element_tags d)
        (filter (fun l => negb (hit l)) (element_links d))).

(** *** the listing queries *)

(** An optional [column = ?] condition. *)
Definition where_eq {A : Type} (col : A -> string) (v : option string) (r : A)
  : bool :=
  match v with
  | None => true
  | Some x => col r =? x
  end.

Definition direction {A : Type} (order_dir_u : string) (le : A -> A -> bool)
  : A -> A -> bool :=
  if order_dir_u =? "DESC" then fun a b => le b a else le.

Definition element_column (name : string) : element -> string :=
  if name =? "created_at" then el_created_at
  else if name =? "title" then el_title
  else if name =? "type" then el_type
  else if name =? "format" then el_format
  else el_updated_at.

(** [SELECT e.* FROM elements e [JOIN element_tags et ON et.element_id =
    e.id] [WHERE ...] ORDER BY e.<column> <dir> [LIMIT ...]].  The
    conditions are tried in the order of the [WHERE] clause, so [LIKE] is
    evaluated on the rows that meet the conditions before it; with a
    pattern that [LIKE] refuses, the first such row fails the statement. *)
Definition select_elements (tag type format like_pat : option string)
    (column order_dir_u : string) (lc : limit_clause) (d : database)
  : result (list element) :=
  let joined :=
    match tag with
    | None => elements d
    | Some t =>
        flat_map
          (fun e =>
             map (fun _ => e)
               (filter (fun r => (et_element_id r =? el_id e) && (et_tag r =? t))
                  (element_tags d)))
          (elements d)
    end in
  let before_like := fun e =>
    where_eq el_type type e && where_eq el_format format e in
  let cond := fun e =>
    before_like e &&
    match like_pat with
    | None => true
    | Some p => like (el_title e) p || like (el_body e) p
    end in
  let refused :=
    match like_pat with
    | None => false
    | Some p => like_too_complex p && existsb before_like joined
    end in
  if refused then Raise (OperationalError LIKE_or_GLOB_pattern_too_complex)
  else
    Ok (apply_limit lc
          (order_by
             (direction order_dir_u
                (fun a b =>
                   String.leb (element_column column a) (element_column column b)))
             (filter cond joined))).

Definition link_column (name : string) : element_link -> string :=
  if name =? "created_at" then ln_created_at
  else if name =? "rel" then ln_rel
  else ln_updated_at.

(** [SELECT * FROM element_links [WHERE ...] ORDER BY <column> <dir>
    [LIMIT ...]]; [cond] is the conjunction of the conditions. *)
Definition select_links (cond : element_link -> bool)
    (column order_dir_u : string) (lc : limit_clause) (d : database)
  : list element_link :=
  apply_limit lc
    (order_by
       (direction order_dir_u
          (fun a b => String.leb (link_column column a) (link_column column b)))
       (filter cond (element_links d))).

End Sql.

(** ** Calls

    A repository call is a function of the process state that returns a
    value or raises, together with the state as the call left it: an
    exception does not undo the statements that ran before it. *)

Definition M (A : Type) : Type := process -> result A * process.

Definition ret {A : Type} (a : A) : M A := fun p => (Ok a, p).

Definition raise {A : Type} (e : exn) : M A := fun p => (Raise e, p).

Definition bind {A B : Type} (m : M A) (k : A -> M B) : M B :=
  fun p =>
    match m p with
    | (Ok a, p') => k a p'
    | (Raise e, p') => (Raise e, p')
    end.

Declare Scope py_scope.
Delimit Scope py_scope with py.
Notation "x <- m ;; k" := (bind m (fun x => k))
  (at level 100, m at next level, right associativity) : py_scope.
Notation "m ;;; k" := (bind m (fun _ => k))
  (at level 100, right associativity) : py_scope.
Open Scope py_scope.

(** A pure computation that may raise. *)
Definition lift {A : Type} (r : result A) : M A := fun p => (r, p).

Definition with_conn (p : process) (c : connection) : process :=
  mk_process c (clock p) (entropy p).

(** [conn.execute(<SELECT ...>)] *)
Definition query {A : Type} (q : database -> A) : M A :=
  fun p => (Ok (q (db (conn p))), p).

(** [conn.execute(<SELECT ...>).fetchall()] for a statement that can fail. *)
Definition fetch {A : Type} (q : database -> result A) : M A :=
  fun p => (q (db (conn p)), p).

(** [conn.execute(<INSERT/UPDATE/DELETE ...>)]: a failing statement leaves
    the tables as they were and the transaction open. *)
Definition execute (stmt : database -> result (Z * database)) : M Z :=
  fun p =>
    match stmt (db (conn p)) with
    | Ok (n, d) => (Ok n, with_conn p (mk_connection d (committed (conn p))))
    | Raise e => (Raise e, p)
    end.

(** [conn.commit()] *)
Definition commit : M unit :=
  fun p => (Ok tt, with_conn p (mk_connection (db (conn p)) (db (conn p)))).

(** [for x in xs: body(x)] *)
Fixpoint for_each {A : Type} (xs : list A) (body : A -> M unit) : M unit :=
  match xs with
  | [] => ret tt
  | x :: xs' => body x ;;; for_each xs' body
  end.

(** [for x in xs: acc += body(x)], from [acc]. *)
Fixpoint for_sum {A : Type} (xs : list A) (body : A -> M Z) (acc : Z) : M Z :=
  match xs with
  | [] => ret acc
  | x :: xs' => n <- body x ;; for_sum xs' body (acc + n)%Z
  end.

(** ** Utility functions *)

(** [now_utc_iso()]: one reading of the clock. *)
Definition now_utc_iso : M string :=
  fun p => (Ok (clock p 0), mk_process (conn p) (fun n => clock p (S n)) (entropy p)).

(** [secure_uuid4_str()]: one draw from the random source. *)
Definition secure_uuid4_str : M string :=
  fun p => (Ok (entropy p 0), mk_process (conn p) (clock p) (fun n => entropy p (S n))).

(** [connect] to a new file, then [init_db]: the three tables, empty.  On a
    file that has them, [init_db] only commits. *)
Definition empty_database : database := mk_database [] [] [].
Definition connect : connection := mk_connection empty_database empty_database.
Definition init_db : M unit := commit.

(** ** Validation helpers *)

Definition validate_type (t : string) : result string :=
  if negb (Py.mem t ELEMENT_TYPES) then Raise (ValueError (Invalid_type t)) else Ok t.

Definition validate_format (fmt : string) : result string :=
  if negb (Py.mem fmt FORMATS) then Raise (ValueError (Invalid_format fmt)) else Ok fmt.

Definition validate_rel (rel : string) : result string :=
  if negb (Py.mem rel LINK_RELATIONS) then Raise (ValueError (Invalid_rel rel)) else Ok rel.

Definition _fetch_type (element_id : string) : M (option string) :=
  query (fun d => option_map el_type (Sql.select_element element_id d)).

Definition validate_link_semantics (src_id dst_id rel : string) : M unit :=
  rel <- lift (validate_rel rel) ;;
  if src_id =? dst_id then raise (ValueError src_id_and_dst_id_must_differ)
  else
    src_type <- _fetch_type src_id ;;
    dst_type <- _fetch_type dst_id ;;
    if negb (Py.truthy_opt src_type) then
      raise (ValueError (src_id_not_found src_id))
    else if negb (Py.truthy_opt dst_type) then
      raise (ValueError (dst_id_not_found dst_id))
    else
      let src_type := Py.or_else src_type "" in
      let dst_type := Py.or_else dst_type "" in
      match dict_get rel REL_RULES with
      | None => raise (KeyError rel)
      | Some (allowed_src, allowed_dst) =>
          if negb (Py.mem src_type allowed_src) then
            raise (ValueError (rel_requires_src_type rel src_type))
          else if negb (Py.mem dst_type allowed_dst) then
            raise (ValueError (rel_requires_dst_type rel dst_type))
          else ret tt
      end.

(** ** Tag management *)

Definition _normalize_tag (tag : string) : result string :=
  let t := Py.strip tag in
  if negb (Py.truthy t) then Raise (ValueError tag_is_empty)
  else if (128 <? String.length t)%nat then Raise (ValueError tag_too_long)
  else Ok t.

(** [[_normalize_tag(t) for t in tags]] *)
Fixpoint normalize_each (tags : list string) : result (list string) :=
  match tags with
  | [] => Ok []
  | t :: tags' =>
      match _normalize_tag t with
      | Raise e => Raise e
      | Ok n =>
          match normalize_each tags' with
          | Raise e => Raise e
          | Ok ns => Ok (n :: ns)
          end
      end
  end.

(** The loop of [_normalize_tags]: the tags of [norm] that are not in
    [seen], each at its first occurrence. *)
Fixpoint first_seen (norm seen : list string) : list string :=
  match norm with
  | [] => []
  | t :: norm' =>
      if negb (Py.mem t seen) then t :: first_seen norm' (t :: seen)
      else first_seen norm' seen
  end.

Definition _normalize_tags (tags : list string) : result (list string) :=
  match normalize_each tags with
  | Raise e => Raise e
  | Ok norm => Ok (first_seen norm [])
  end.

Definition list_tags (element_id : string) : M (list string) :=
  query (Sql.select_tags element_id).

Definition add_tags (element_id : string) (tags : list string) : M Z :=
  norm <- lift (_normalize_tags tags) ;;
  ts <- now_utc_iso ;;
  added <- for_sum norm
             (fun t => execute (Sql.insert_or_ignore_element_tag
                                  (mk_element_tag element_id t ts))) 0%Z ;;
  commit ;;;
  ret added.

Definition remove_tags (element_id : string) (tags : list string) : M Z :=
  norm <- lift (_normalize_tags tags) ;;
  removed <- for_sum norm
               (fun t => execute (Sql.delete_element_tag element_id t)) 0%Z ;;
  commit ;;;
  ret removed.

Definition clear_tags (element_id : string) : M Z :=
  n <- execute (Sql.delete_element_tags element_id) ;;
  commit ;;;
  ret n.

Definition set_tags (element_id : string) (tags : list string) : M unit :=
  norm <- lift (_normalize_tags tags) ;;
  ts <- now_utc_iso ;;
  execute (Sql.delete_element_tags element_id) ;;;
  for_each norm
    (fun t => execute (Sql.insert_element_tag (mk_element_tag element_id t ts)) ;;;
              ret tt) ;;;
  commit.

(** ** Element CRUD *)

(** The dict a listing or [get_element] returns: the columns of the row
    and, when asked for, the key ["tags"]. *)
Record element_dict : Type := mk_element_dict {
  row : element;
  tags : option (list string)
}.

Definition default_format : string := "plain".

Definition create_element (type title body format : string)
    (tags : option (list string)) (id : option string) : M string :=
  lift (validate_type type) ;;;
  lift (validate_format format) ;;;
  if negb (Py.truthy (Py.strip title)) then raise (ValueError title_is_empty)
  else if negb (Py.truthy (Py.strip body)) then raise (ValueError body_is_empty)
  else
    element_id <- (if Py.truthy_opt id then ret (Py.or_else id "")
                   else secure_uuid4_str) ;;
    ts <- now_utc_iso ;;
    execute (Sql.insert_element (mk_element element_id type format title body ts ts)) ;;;
    match tags with
    | Some tags => set_tags element_id tags
    | None => ret tt
    end ;;;
    commit ;;;
    ret element_id.

Definition get_element (element_id : string) (include_tags : bool)
  : M (option element_dict) :=
  row <- query (Sql.select_element element_id) ;;
  match row with
  | None => ret None
  | Some row =>
      if include_tags then
        ts <- list_tags element_id ;;
        ret (Some (mk_element_dict row (Some ts)))
      else ret (Some (mk_element_dict row None))
  end.

(** The [LIMIT]/[OFFSET] tail that [list_elements] and [list_links] build,
    by the same lines in both.  Its integers are parameters of the
    statement: they are bound when it is executed ([Sql.bind_limit]). *)
Definition pagination (limit offset : option Z) : result Sql.limit_clause :=
  match limit with
  | Some n =>
      if (n <? 1)%Z then Raise (ValueError limit_must_be_ge_1)
      else
        match offset with
        | Some k =>
            if (k <? 0)%Z then Raise (ValueError offset_must_be_ge_0)
            else Ok (Sql.LimitOffset n k)
        | None => Ok (Sql.Limit n)
        end
  | None =>
      match offset with
      | Some k =>
          if (k <? 0)%Z then Raise (ValueError offset_must_be_ge_0)
          else Ok (Sql.LimitOffset (-1) k)
      | None => Ok Sql.NoLimit
      end
  end.

(** [x if x else None] for a filter that is skipped when falsy. *)
Definition if_truthy (o : option string) : option string :=
  if Py.truthy_opt o then o else None.

Definition with_tags (include_tags : bool) (rows : list element) : M (list element_dict) :=
  if include_tags then
    (fix each (rows : list element) : M (list element_dict) :=
       match rows with
       | [] => ret []
       | r :: rows' =>
           ts <- list_tags (el_id r) ;;
           ds <- each rows' ;;
           ret (mk_element_dict r (Some ts) :: ds)
       end) rows
  else ret (map (fun r => mk_element_dict r None) rows).

Definition list_elements (type q tag format : option string)
    (limit offset : option Z) (order_by order_dir : string) (include_tags : bool)
  : M (list element_dict) :=
  match type with Some t => lift (validate_type t) | None => ret "" end ;;;
  match format with Some f => lift (validate_format f) | None => ret "" end ;;;
  let order_by_allowed := [ "updated_at"; "created_at"; "title"; "type"; "format" ] in
  if negb (Py.mem order_by order_by_allowed) then
    raise (ValueError (order_by_must_be_one_of (Py.sorted order_by_allowed)))
  else
    let order_dir_u := Py.upper order_dir in
    if negb (Py.mem order_dir_u [ "ASC"; "DESC" ]) then
      raise (ValueError order_dir_must_be_ASC_or_DESC)
    else
      tag_param <- match tag with
                   | Some t => n <- lift (_normalize_tag t) ;; ret (Some n)
                   | None => ret None
                   end ;;
      let like_pat := option_map (fun q => String.append "%" (String.append q "%"))
                        (if_truthy q) in
      lc <- lift (pagination limit offset) ;;
      lift (Sql.bind_limit lc) ;;;
      rows <- fetch (Sql.select_elements tag_param (if_truthy type) (if_truthy format)
                       like_pat order_by order_dir_u lc) ;;
      with_tags include_tags rows.

Definition update_element (element_id : string) (type title body format : option string)
    (tags : option (list string)) : M bool :=
  existing <- query (Sql.select_element element_id) ;;
  match existing with
  | None => ret false
  | Some existing =>
      new_type <- match type with
                  | Some t => lift (validate_type t)
                  | None => ret (el_type existing)
                  end ;;
      let new_title := match title with Some t => t | None => el_title existing end in
      let new_body := match body with Some b => b | None => el_body existing end in
      new_format <- match format with
                    | Some f => lift (validate_format f)
                    | None => ret (el_format existing)
                    end ;;
      if negb (Py.truthy (Py.strip new_title)) then raise (ValueError title_is_empty)
      else if negb (Py.truthy (Py.strip new_body)) then raise (ValueError body_is_empty)
      else
        ts <- now_utc_iso ;;
        execute (Sql.update_element new_type new_format new_title new_body ts
                   element_id) ;;;
        match tags with
        | Some tags => set_tags element_id tags
        | None => ret tt
        end ;;;
        commit ;;;
        ret true
  end.

Definition delete_element (element_id : string) : M bool :=
  n <- execute (Sql.delete_element element_id) ;;
  commit ;;;
  ret (0 <? n)%Z.

(** ** Link management *)

Definition create_link (src_id dst_id rel note : string) (id : option string)
  : M string :=
  lift (validate_rel rel) ;;;
  validate_link_semantics src_id dst_id rel ;;;
  link_id <- (if Py.truthy_opt id then ret (Py.or_else id "")
              else secure_uuid4_str) ;;
  ts <- now_utc_iso ;;
  execute (Sql.insert_element_link
             (mk_element_link link_id src_id dst_id rel (Py.or_else (Some note) "")
                ts ts)) ;;;
  commit ;;;
  ret link_id.

Definition get_link (link_id : string) : M (option element_link) :=
  query (Sql.select_link link_id).

Definition list_links (src_id dst_id rel : option string)
    (limit offset : option Z) (order_by order_dir : string)
  : M (list element_link) :=
  let order_by_allowed := [ "updated_at"; "created_at"; "rel" ] in
  if negb (Py.mem order_by order_by_allowed) then
    raise (ValueError (order_by_must_be_one_of (Py.sorted order_by_allowed)))
  else
    let order_dir_u := Py.upper order_dir in
    if negb (Py.mem order_dir_u [ "ASC"; "DESC" ]) then
      raise (ValueError order_dir_must_be_ASC_or_DESC)
    else
      match if_truthy rel with
      | Some r => lift (validate_rel r)
      | None => ret ""
      end ;;;
      let cond := fun l =>
        Sql.where_eq ln_src_id (if_truthy src_id) l &&
        Sql.where_eq ln_dst_id (if_truthy dst_id) l &&
        Sql.where_eq ln_rel (if_truthy rel) l in
      lc <- lift (pagination limit offset) ;;
      lift (Sql.bind_limit lc) ;;;
      query (Sql.select_links cond order_by order_dir_u lc).

Definition update_link (link_id : string) (rel note : option string) : M bool :=
  existing <- query (Sql.select_link link_id) ;;
  match existing with
  | None => ret false
  | Some existing =>
      new_rel <- match rel with
                 | Some r => lift (validate_rel r)
                 | None => ret (ln_rel existing)
                 end ;;
      let new_note :=
        Py.or_else (match note with
                    | Some n => Some n
                    | None => Some (ln_note existing)
                    end) "" in
      match rel with
      | Some _ =>
          validate_link_semantics (ln_src_id existing) (ln_dst_id existing) new_rel
      | None => ret tt
      end ;;;
      ts <- now_utc_iso ;;
      execute (Sql.update_element_link new_rel new_note ts link_id) ;;;
      commit ;;;
      ret true
  end.

Definition delete_link (link_id : string) : M bool :=
  n <- execute (Sql.delete_element_link link_id) ;;
  commit ;;;
  ret (0 <? n)%Z.

(** ** Histories of calls *)

(** One mutating call of the repository with its arguments, or a further
    [init_db]. *)
Inductive call : Type :=
| Create_element (type title body format : string) (tags : option (list string))
    (id : option string)
| Update_element (element_id : string) (type title body format : option string)
    (tags : option (list string))
| Delete_element (element_id : string)
| Add_tags (element_id : string) (tags : list string)
| Remove_tags (element_id : string) (tags : list string)
| Clear_tags (element_id : string)
| Set_tags (element_id : string) (tags : list string)
| Create_link (src_id dst_id rel note : string) (id : option string)
| Update_link (link_id : string) (rel note : option string)
| Delete_link (link_id : string)
| Init_db.

(** Make the call and drop what it returns; the state is the one the call
    left, whether it returned or raised. *)
Definition run (c : call) : M unit :=
  match c with
  | Create_element type title body format tags id =>
      create_element type title body format tags id ;;; ret tt
  | Update_element element_id type title body format tags =>
      update_element element_id type title body format tags ;;; ret tt
  | Delete_element element_id => delete_element element_id ;;; ret tt
  | Add_tags element_id tags => add_tags element_id tags ;;; ret tt
  | Remove_tags element_id tags => remove_tags element_id tags ;;; ret tt
  | Clear_tags element_id => clear_tags element_id ;;; ret tt
  | Set_tags element_id tags => set_tags element_id tags
  | Create_link src_id dst_id rel note id =>
      create_link src_id dst_id rel note id ;;; ret tt
  | Update_link link_id rel note => update_link link_id rel note ;;; ret tt
  | Delete_link link_id => delete_link link_id ;;; ret tt
  | Init_db => init_db
  end.

(** The states a process can be in: a new store, then any calls. *)
Inductive reachable : process -> Prop :=
| reachable_connect : forall clock entropy,
    reachable (mk_process connect clock entropy)
| reachable_run : forall p c, reachable p -> reachable (snd (run c p)).

(** ** Invariants of the store *)

Definition nonblank (s : string) : Prop := Py.truthy (Py.strip s) = true.

Definition element_ok (e : element) : Prop :=
  Py.mem (el_type e) ELEMENT_TYPES = true /\
  Py.mem (el_format e) FORMATS = true /\
  nonblank (el_title e) /\
  nonblank (el_body e).

Definition triple (l : element_link) : string * string * string :=
  (ln_src_id l, ln_dst_id l, ln_rel l).

Definition link_ok (l : element_link) : Prop :=
  Py.mem (ln_rel l) LINK_RELATIONS = true.

Record db_ok (d : database) : Prop := mk_db_ok {
  ok_elements_pk : NoDup (map el_id (elements d));
  ok_elements : Forall element_ok (elements d);
  ok_links_pk : NoDup (map ln_id (element_links d));
  ok_links : Forall link_ok (element_links d);
  ok_links_uq : NoDup (map triple (element_links d))
}.

(** A call keeps [I] on the tables the connection sees, however it ends. *)
Definition preserves {A : Type} (I : database -> Prop) (m : M A) : Prop :=
  forall p, I (db (conn p)) -> I (db (conn (snd (m p)))).

(** ** The vocabulary of the specification *)

(** The names the specification gives to the failures of the repository. *)
Inductive error_name : Type :=
| InvalidEnumValue
| EmptyField
| EmptyTag
| TagTooLong
| SelfLink
| EndpointNotFound
| IncompatibleRelation
| DuplicateLink
| ConstraintViolation
| InvalidArgument
| OtherError.

Definition error_name_of (e : exn) : error_name :=
  match e with
  | ValueError (Invalid_type _) => InvalidEnumValue
  | ValueError (Invalid_format _) => InvalidEnumValue
  | ValueError (Invalid_rel _) => InvalidEnumValue
  | ValueError title_is_empty => EmptyField
  | ValueError body_is_empty => EmptyField
  | ValueError tag_is_empty => EmptyTag
  | ValueError tag_too_long => TagTooLong
  | ValueError src_id_and_dst_id_must_differ => SelfLink
  | ValueError (src_id_not_found _) => EndpointNotFound
  | ValueError (dst_id_not_found _) => EndpointNotFound
  | ValueError (rel_requires_src_type _ _) => IncompatibleRelation
  | ValueError (rel_requires_dst_type _ _) => IncompatibleRelation
  | ValueError _ => InvalidArgument
  | IntegrityError uq_links_src_dst_rel => DuplicateLink
  | IntegrityError _ => ConstraintViolation
  | KeyError _ => OtherError
  | OverflowError => OtherError
  | OperationalError _ => OtherError
  end.

(** The relation-semantics table as the specification prints it: relation,
    allowed source types, allowed destination types. *)
Definition spec_any_element_type : list string :=
  [ "definition"; "axiom"; "postulate"; "lemma"; "proposition"; "theorem";
    "corollary"; "proof"; "example"; "counterexample"; "remark" ].

Definition spec_relation_table : list (string * (list string * list string)) :=
  [ ("proves",
     ([ "proof" ], [ "lemma"; "proposition"; "theorem"; "corollary" ]));
    ("uses",
     ([ "axiom"; "postulate"; "lemma"; "proposition"; "theorem"; "corollary"; "proof" ],
      [ "axiom"; "postulate"; "lemma"; "proposition"; "theorem"; "corollary";
        "definition" ]));
    ("implies",
     ([ "axiom"; "postulate"; "lemma"; "proposition"; "theorem"; "corollary" ],
      [ "axiom"; "postulate"; "lemma"; "proposition"; "theorem"; "corollary" ]));
    ("equivalent_to",
     ([ "definition"; "lemma"; "proposition"; "theorem"; "corollary" ],
      [ "definition"; "lemma"; "proposition"; "theorem"; "corollary" ]));
    ("example_of",
     ([ "example" ], [ "definition"; "lemma"; "proposition"; "theorem"; "corollary" ]));
    ("counterexample_to",
     ([ "counterexample" ],
      [ "definition"; "lemma"; "proposition"; "theorem"; "corollary" ]));
    ("related", (spec_any_element_type, spec_any_element_type)) ].

(** A pair of types the table allows for [rel]. *)
Definition spec_allows (rel src_type dst_type : string) : Prop :=
  exists srcs dsts,
    dict_get rel spec_relation_table = Some (srcs, dsts) /\
    In src_type srcs /\ In dst_type dsts.

(** A tag [_normalize_tag] accepts: something is left after trimming, and
    it has at most 128 characters. *)
Definition tag_ok (t : string) : Prop :=
  Py.truthy (Py.strip t) = true /\ (String.length (Py.strip t) <= 128)%nat.

(** ** What a call writes *)

(** The id a creating call uses: [id or secure_uuid4_str()]. *)
Definition chosen_id (id : option string) (p : process) : string :=
  if Py.truthy_opt id then Py.or_else id "" else entropy p 0.

(** The row [create_element] inserts. *)
Definition new_element (type title body format : string) (id : option string)
    (p : process) : element :=
  mk_element (chosen_id id p) type format title body (clock p 0) (clock p 0).

(** The row [create_link] inserts. *)
Definition new_link (src_id dst_id rel note : string) (id : option string)
    (p : process) : element_link :=
  mk_element_link (chosen_id id p) src_id dst_id rel note (clock p 0) (clock p 0).

(** The note [update_link] writes. *)
Definition kept_note (note : option string) (l : element_link) : string :=
  match note with
  | Some n => n
  | None => ln_note l
  end.

(** [x if x is not None else old] *)
Definition supplied (x : option string) (old : string) : string :=
  match x with
  | Some v => v
  | None => old
  end.

(** The tables after [set_tags] stored the normalized list [norm] at the
    time [ts]. *)
Definition tags_replaced (element_id ts : string) (norm : list string)
    (d : database) : database :=
  mk_database (elements d)
    (filter (fun r => negb (et_element_id r =? element_id)) (element_tags d)
     ++ map (fun t => mk_element_tag element_id t ts) norm)
    (element_links d).

(** Strictly ascending in the order of [ORDER BY tag ASC]. *)
Definition ascending (l : list string) : Prop :=
  Sorted (fun a b => String.ltb a b = true) l.

(** ** Tables for the examples

    A theorem ["t"] and a proof ["p"]; then the link ["L"] from the proof
    to the theorem. *)
Definition ticks (n : nat) : string :=
  String (ascii_of_nat (48 + n)) EmptyString.
Definition draws (n : nat) : string :=
  String "u"%char (String (ascii_of_nat (48 + n)) EmptyString).
Definition new_process : process := mk_process connect ticks draws.

Definition two_elements : process :=
  snd (run (Create_element "proof" "P" "argument" default_format None (Some "p"))
         (snd (run (Create_element "theorem" "T" "statement" default_format None
                      (Some "t"))
                 new_process))).

Definition example_process : process :=
  snd (run (Create_link "p" "t" "proves" "" (Some "L")) two_elements).

(** The same after the proof ["p"] was retyped as a remark: the link ["L"]
    is still "proves", which its endpoints no longer allow. *)
Definition retyped_process : process :=
  snd (run (Update_element "p" (Some "remark") None None None None) example_process).

(** ** The listings by tag and by element *)

(** The [LIMIT] tail of [list_elements_by_tag] and
    [list_links_for_element]. *)
Definition limit_tail (limit : option Z) : result Sql.limit_clause :=
  match limit with
  | Some n =>
      if (n <? 1)%Z then Raise (ValueError limit_must_be_ge_1)
      else Ok (Sql.Limit n)
  | None => Ok Sql.NoLimit
  end.

Definition list_elements_by_tag (tag : string) (limit : option Z)
  : M (list element_dict) :=
  t <- lift (_normalize_tag tag) ;;
  lc <- lift (limit_tail limit) ;;
  lift (Sql.bind_limit lc) ;;;
  rows <- fetch (Sql.select_elements (Some t) None None None "updated_at" "DESC" lc) ;;
  ret (map (fun r => mk_element_dict r None) rows).

Definition list_links_for_element (element_id direction : string)
    (rel : option string) (limit : option Z) : M (list element_link) :=
  let direction := Py.lower (Py.or_else (Some direction) "both") in
  if negb (Py.mem direction [ "out"; "in"; "both" ]) then
    raise (ValueError direction_must_be_one_of)
  else
    match rel with
    | Some r => lift (validate_rel r)
    | None => ret ""
    end ;;;
    let side := fun l =>
      if direction =? "out" then ln_src_id l =? element_id
      else if direction =? "in" then ln_dst_id l =? element_id
      else (ln_src_id l =? element_id) || (ln_dst_id l =? element_id) in
    let cond := fun l => side l && Sql.where_eq ln_rel (if_truthy rel) l in
    lc <- lift (limit_tail limit) ;;
    lift (Sql.bind_limit lc) ;;;
    query (Sql.select_links cond "updated_at" "DESC" lc).

(** ** The command line: [cli.py] *)

(** [_split_csv_or_repeat]: [values] is what argparse collected, [None]
    when the option was not given. *)
Definition _split_csv_or_repeat (values : option (list string)) : list string :=
  match values with
  | None => []
  | Some values =>
      flat_map
        (fun v =>
           let parts :=
             if Py.contains ","%char v
             then map Py.strip (Py.split ","%char v)
             else [ Py.strip v ] in
           filter Py.truthy parts)
        values
  end.

(** ** References between the tables *)

Definition tag_key (r : element_tag) : string * string :=
  (et_element_id r, et_tag r).

(** A tag row as the repository writes it: its element is there and the tag
    is one [_normalize_tag] returns unchanged. *)
Definition tag_row_ok (d : database) (r : element_tag) : Prop :=
  Sql.element_exists d (et_element_id r) = true /\
  _normalize_tag (et_tag r) = Ok (et_tag r).

(** A link row as the repository writes it: both ends are there and they
    differ. *)
Definition link_row_ok (d : database) (l : element_link) : Prop :=
  Sql.element_exists d (ln_src_id l) = true /\
  Sql.element_exists d (ln_dst_id l) = true /\
  ln_src_id l <> ln_dst_id l.

Record refs_ok (d : database) : Prop := mk_refs_ok {
  ok_tag_rows : Forall (tag_row_ok d) (element_tags d);
  ok_tags_pk : NoDup (map tag_key (element_tags d));
  ok_link_rows : Forall (link_row_ok d) (element_links d)
}.

(** A call that returns normally with a result [ok] accepts has committed:
    nothing it or an earlier call wrote is left pending. *)
Definition commits_when {A : Type} (ok : A -> bool) (m : M A) : Prop :=
  forall p a p',
    m p = (Ok a, p') -> ok a = true -> committed (conn p') = db (conn p').

(** The tags of an element in the table, in rowid order. *)
Definition tags_of (element_id : string) (d : database) : list string :=
  map et_tag (filter (fun r => et_element_id r =? element_id) (element_tags d)).

(** ** Vocabulary of the further properties *)

Definition no_leading_space (s : string) : Prop :=
  match s with
  | EmptyString => True
  | String c _ => Py.isspace c = false
  end.

(** The example tables with the tags ["a"] and ["b"] on the theorem ["t"]
    and the tag ["b"] on the proof ["p"]. *)
Definition tagged_process : process :=
  snd (run (Add_tags "p" [ "b" ])
         (snd (run (Set_tags "t" [ "b"; " a " ]) example_process))).

(** The rows [remove_tags] deletes for the normalized list [norm]. *)
Definition removed_row (element_id : string) (norm : list string) (r : element_tag)
  : bool :=
  (et_element_id r =? element_id) && Py.mem (et_tag r) norm.

(** The window [limit]/[offset] cut out of a full listing. *)
Definition page {A : Type} (limit offset : option Z) (rows : list A) : list A :=
  let rest :=
    match offset with
    | Some k => skipn (Z.to_nat k) rows
    | None => rows
    end in
  match limit with
  | Some n => firstn (Z.to_nat n) rest
  | None => rest
  end.

(** The order of a listing: [a] may come right before [b]. *)
Definition listed_before {A : Type} (column : A -> string) (order_dir : string)
    (a b : A) : Prop :=
  if Py.upper order_dir =? "DESC"
  then String.leb (column b) (column a) = true
  else String.leb (column a) (column b) = true.

(** An element that meets the filters of [list_elements]; a tag filter asks
    for the normalized tag among the tags the element lists. *)
Definition element_matches (d : database) (type q tag format : option string)
    (e : element) : Prop :=
  (forall t, type = Some t -> el_type e = t) /\
  (forall f, format = Some f -> el_format e = f) /\
  (forall s, q = Some s -> s <> "" ->
     Sql.like (el_title e) (String.append "%" (String.append s "%")) = true \/
     Sql.like (el_body e) (String.append "%" (String.append s "%")) = true) /\
  (forall t, tag = Some t -> In (Py.strip t) (Sql.select_tags (el_id e) d)).

(** A link that meets the filters of [list_links]; an empty string is no
    filter. *)
Definition link_matches (src_id dst_id rel : option string) (l : element_link)
  : Prop :=
  (forall s, src_id = Some s -> s <> "" -> ln_src_id l = s) /\
  (forall s, dst_id = Some s -> s <> "" -> ln_dst_id l = s) /\
  (forall s, rel = Some s -> s <> "" -> ln_rel l = s).

(** A call that only reads: it leaves the process as it found it. *)
Definition readonly {A : Type} (m : M A) : Prop := forall p, snd (m p) = p.

(** What a call on the tags of one element has to leave alone: the
    elements, the links, and the tags of the element [other]. *)
Definition tag_frame (E : list element) (L : list element_link) (other : string)
    (T : list string) (d : database) : Prop :=
  elements d = E /\ element_links d = L /\ tags_of other d = T.

(** What a call on one element has to leave alone: the links, and the row
    and the tags of the element [other]. *)
Definition element_frame (L : list element_link) (other : string)
    (e : option element) (T : list string) (d : database) : Prop :=
  element_links d = L /\ Sql.select_element other d = e /\ tags_of other d = T.

(** What a call on one link has to leave alone: the elements, the tags,
    and the link [other]. *)
Definition link_frame (E : list element) (T : list element_tag) (other : string)
    (l : option element_link) (d : database) : Prop :=
  elements d = E /\ element_tags d = T /\ Sql.select_link other d = l.

(** * Properties *)

(** ** Membership, sequencing *)

Lemma mem_In x xs : Py.mem x xs = true <-> In x xs.
Proof.
  unfold Py.mem. rewrite existsb_exists. split.
  - intros [y [Hy He]]. apply String.eqb_eq in He. now subst.
  - intros H. exists x. split; [assumption | apply String.eqb_refl].
Qed.

Lemma mem_false_not_In x xs : Py.mem x xs = false <-> ~ In x xs.
Proof.
  rewrite <- mem_In. destruct (Py.mem x xs); split; congruence.
Qed.

Lemma bind_ok {A B : Type} (m : M A) (k : A -> M B) p a p' :
  m p = (Ok a, p') -> bind m k p = k a p'.
Proof. intros H. unfold bind. now rewrite H. Qed.

Lemma bind_raise {A B : Type} (m : M A) (k : A -> M B) p e p' :
  m p = (Raise e, p') -> bind m k p = (Raise e, p').
Proof. intros H. unfold bind. now rewrite H. Qed.

Lemma with_conn_same p : with_conn p (conn p) = p.
Proof. now destruct p. Qed.

(** ** Self links *)

Lemma validate_rel_ok rel :
  Py.mem rel LINK_RELATIONS = true -> validate_rel rel = Ok rel.
Proof. intros H. unfold validate_rel. now rewrite H. Qed.

Lemma validate_rel_raise rel :
  Py.mem rel LINK_RELATIONS = false ->
  validate_rel rel = Raise (ValueError (Invalid_rel rel)).
Proof. intros H. unfold validate_rel. now rewrite H. Qed.

Lemma validate_link_semantics_self p a rel :
  Py.mem rel LINK_RELATIONS = true ->
  validate_link_semantics a a rel p =
  (Raise (ValueError src_id_and_dst_id_must_differ), p).
Proof.
  intros H. unfold validate_link_semantics, bind, lift.
  rewrite (validate_rel_ok _ H), String.eqb_refl. reflexivity.
Qed.

(** C3, as the code has it.  [create_link] with [src_id = dst_id] never
    reaches the store: when [rel] is one of the seven relations it raises
    "src_id and dst_id must differ" (SelfLink), whether or not the id names
    an element; when [rel] is not, the relation check that comes first
    raises "Invalid rel" (InvalidEnumValue) instead.  The state is the one
    before the call. *)
Theorem create_link_self_link (p : process) (a rel note : string) (id : option string) :
  create_link a a rel note id p =
  (Raise (ValueError (if Py.mem rel LINK_RELATIONS
                      then src_id_and_dst_id_must_differ
                      else Invalid_rel rel)), p).
Proof.
  unfold create_link. destruct (Py.mem rel LINK_RELATIONS) eqn:Hrel.
  - rewrite (bind_ok _ _ p rel p).
    + apply bind_raise. now apply validate_link_semantics_self.
    + unfold lift. now rewrite validate_rel_ok.
  - apply bind_raise. unfold lift. now rewrite validate_rel_raise.
Qed.

(** C3 as stated fails: with a relation outside the seven kinds the self
    link is answered by "Invalid rel", not by the self-link error. *)
Lemma self_link_with_invalid_rel :
  fst (create_link "a" "a" "follows" "" None new_process)
    = Raise (ValueError (Invalid_rel "follows")) /\
  fst (create_link "a" "a" "follows" "" None new_process)
    <> Raise (ValueError src_id_and_dst_id_must_differ) /\
  error_name_of (ValueError (Invalid_rel "follows")) <> SelfLink.
Proof.
  repeat split; vm_compute; discriminate.
Qed.

(** ** Updates of an absent row *)

Lemma find_absent {A : Type} (key : A -> string) (id : string) (rows : list A) :
  ~ In id (map key rows) -> find (fun r => key r =? id) rows = None.
Proof.
  induction rows as [|r rows IH]; simpl; intros H; [reflexivity|].
  destruct (key r =? id) eqn:E.
  - apply String.eqb_eq in E. tauto.
  - apply IH. tauto.
Qed.

(** C9.  [update_element] and [update_link] look the row up before they
    look at any argument: on an id that is not in the table they return
    [False] and leave the state alone, whatever the type, title, body,
    format, tags, rel or note passed, valid or not. *)
Theorem update_absent_returns_false (p : process) (id : string) :
  (~ In id (map el_id (elements (db (conn p)))) ->
   forall type title body format tags,
     update_element id type title body format tags p = (Ok false, p)) /\
  (~ In id (map ln_id (element_links (db (conn p)))) ->
   forall rel note, update_link id rel note p = (Ok false, p)).
Proof.
  split; intros Habs; intros.
  - unfold update_element, bind, query, Sql.select_element.
    now rewrite (find_absent el_id id _ Habs).
  - unfold update_link, bind, query, Sql.select_link.
    now rewrite (find_absent ln_id id _ Habs).
Qed.

Lemma update_absent_returns_false_witness :
  update_element "x" (Some "sonnet") (Some " ") None (Some "pdf") (Some [""])
    example_process = (Ok false, example_process) /\
  update_link "x" (Some "follows") None example_process = (Ok false, example_process).
Proof.
  split; apply (update_absent_returns_false example_process "x");
    vm_compute; intuition discriminate.
Defined.

(** ** Offset without limit *)

Lemma pagination_offset_only k :
  (0 <= k)%Z -> pagination None (Some k) = Ok (Sql.LimitOffset (-1) k).
Proof.
  intros H. unfold pagination.
  destruct (k <? 0)%Z eqn:E; [apply Z.ltb_lt in E; lia | reflexivity].
Qed.

Lemma first_rows_firstn {A : Type} n (rows : list A) :
  Sql.first_rows n rows = firstn (Z.to_nat n) rows.
Proof.
  revert n. induction rows as [|r rows IH]; intros n; cbn [Sql.first_rows].
  - now rewrite firstn_nil.
  - destruct (0 <? n)%Z eqn:E.
    + apply Z.ltb_lt in E.
      replace (Z.to_nat n) with (S (Z.to_nat (n - 1))) by lia.
      cbn [firstn]. now rewrite IH.
    + apply Z.ltb_ge in E. now replace (Z.to_nat n) with O by lia.
Qed.

Lemma skip_rows_skipn {A : Type} k (rows : list A) :
  Sql.skip_rows k rows = skipn (Z.to_nat k) rows.
Proof.
  revert k. induction rows as [|r rows IH]; intros k; cbn [Sql.skip_rows].
  - now rewrite skipn_nil.
  - destruct (0 <? k)%Z eqn:E.
    + apply Z.ltb_lt in E.
      replace (Z.to_nat k) with (S (Z.to_nat (k - 1))) by lia.
      cbn [skipn]. now rewrite IH.
    + apply Z.ltb_ge in E. now replace (Z.to_nat k) with O by lia.
Qed.

Lemma apply_limit_offset_only {A : Type} k (rows : list A) :
  Sql.apply_limit (Sql.LimitOffset (-1) k) rows = skipn (Z.to_nat k) rows.
Proof. cbn [Sql.apply_limit]. unfold Sql.take. cbn. apply skip_rows_skipn. Qed.

Lemma with_tags_eq include_tags rows p :
  with_tags include_tags rows p =
  (Ok (map (fun r =>
              mk_element_dict r
                (if include_tags
                 then Some (Sql.select_tags (el_id r) (db (conn p)))
                 else None)) rows), p).
Proof.
  unfold with_tags. destruct include_tags; [|reflexivity].
  induction rows as [|r rows IH]; [reflexivity|].
  simpl. unfold bind at 1. unfold list_tags at 1, query at 1.
  unfold bind at 1. rewrite IH. reflexivity.
Qed.

Lemma skipn_map_comm {A B : Type} (f : A -> B) n (l : list A) :
  skipn n (map f l) = map f (skipn n l).
Proof.
  revert l. induction n as [|n IH]; intros [|x l]; simpl; auto.
Qed.

Lemma bind_limit_offset_only k :
  (0 <= k < 2 ^ 63)%Z -> Sql.bind_limit (Sql.LimitOffset (-1) k) = Ok tt.
Proof.
  intros H. unfold Sql.bind_limit, Sql.fits_integer.
  assert (H1 : (- 2 ^ 63 <=? -1)%Z = true) by reflexivity.
  assert (H2 : (-1 <? 2 ^ 63)%Z = true) by reflexivity.
  assert (H3 : (- 2 ^ 63 <=? k)%Z = true) by (apply Z.leb_le; lia).
  assert (H4 : (k <? 2 ^ 63)%Z = true) by (apply Z.ltb_lt; lia).
  now rewrite H1, H2, H3, H4.
Qed.

Lemma bind_limit_offset_overflow k :
  (2 ^ 63 <= k)%Z -> Sql.bind_limit (Sql.LimitOffset (-1) k) = Raise OverflowError.
Proof.
  intros H. unfold Sql.bind_limit, Sql.fits_integer.
  assert (H4 : (k <? 2 ^ 63)%Z = false) by (apply Z.ltb_ge; lia).
  now rewrite H4, !andb_false_r.
Qed.

(** What the tail of the statement does to its rows. *)
Lemma select_elements_limit tag type format like_pat column dir lc d :
  Sql.select_elements tag type format like_pat column dir lc d =
  result_map (Sql.apply_limit lc)
    (Sql.select_elements tag type format like_pat column dir Sql.NoLimit d).
Proof.
  unfold Sql.select_elements. cbv zeta.
  match goal with |- context [if ?b then Raise _ else _] => destruct b end;
    reflexivity.
Qed.

Lemma select_links_limit cond column dir lc d :
  Sql.select_links cond column dir lc d =
  Sql.apply_limit lc (Sql.select_links cond column dir Sql.NoLimit d).
Proof. reflexivity. Qed.

(** C10.  With [limit] absent and an [offset] [k] from 0 to below 2^63,
    [list_elements] and [list_links] answer as they do without pagination,
    less the first [k] rows: the statement carries [LIMIT -1 OFFSET k], and
    a call that raises without pagination raises the same with the offset.
    An offset of 2^63 or more does not fit the engine's INTEGER: a call
    that returns without pagination then raises [OverflowError]. *)
Theorem listing_offset_without_limit (p : process) (k : Z) :
  (0 <= k)%Z ->
  ((k < 2 ^ 63)%Z ->
   (forall type q tag format order_by order_dir include_tags,
      list_elements type q tag format None (Some k) order_by order_dir include_tags p
      = (result_map (skipn (Z.to_nat k))
           (fst (list_elements type q tag format None None order_by order_dir
                   include_tags p)), p)) /\
   (forall src_id dst_id rel order_by order_dir,
      list_links src_id dst_id rel None (Some k) order_by order_dir p
      = (result_map (skipn (Z.to_nat k))
           (fst (list_links src_id dst_id rel None None order_by order_dir p)), p))) /\
  ((2 ^ 63 <= k)%Z ->
   (forall type q tag format order_by order_dir include_tags rows,
      fst (list_elements type q tag format None None order_by order_dir
             include_tags p) = Ok rows ->
      list_elements type q tag format None (Some k) order_by order_dir include_tags p
      = (Raise OverflowError, p)) /\
   (forall src_id dst_id rel order_by order_dir rows,
      fst (list_links src_id dst_id rel None None order_by order_dir p) = Ok rows ->
      list_links src_id dst_id rel None (Some k) order_by order_dir p
      = (Raise OverflowError, p))).
Proof.
  intros Hk. split; intros Hb.
  - assert (Hbind := bind_limit_offset_only k (conj Hk Hb)).
    split; intros.
    + unfold list_elements. rewrite (pagination_offset_only k Hk).
      unfold pagination, bind, lift, ret, raise, fetch. cbv zeta.
      destruct type as [t|]; [destruct (validate_type t)|]; cbv beta iota;
        try reflexivity;
        (destruct format as [f|]; [destruct (validate_format f)|]; cbv beta iota;
         try reflexivity);
        (destruct (negb (Py.mem order_by _)); [reflexivity|]);
        (destruct (negb (Py.mem (Py.upper order_dir) _)); [reflexivity|]);
        (destruct tag as [tg|]; [destruct (_normalize_tag tg)|]; cbv beta iota;
         try reflexivity);
        rewrite Hbind; cbn [Sql.bind_limit]; cbv beta iota;
        rewrite (select_elements_limit _ _ _ _ _ _ (Sql.LimitOffset (-1) k));
        destruct (Sql.select_elements _ _ _ _ _ _ Sql.NoLimit _);
        cbn [result_map fst]; try reflexivity;
        rewrite !with_tags_eq; cbn [fst result_map];
        rewrite apply_limit_offset_only; now rewrite skipn_map_comm.
    + unfold list_links. rewrite (pagination_offset_only k Hk).
      unfold pagination, bind, lift, ret, raise, query. cbv zeta.
      rewrite Hbind. cbn [Sql.bind_limit].
      destruct (negb (Py.mem order_by _)); [reflexivity|].
      destruct (negb (Py.mem (Py.upper order_dir) _)); [reflexivity|].
      destruct (if_truthy rel) as [r|]; [destruct (validate_rel r)|];
        cbv beta iota; try reflexivity; cbn [fst result_map];
        rewrite (select_links_limit _ _ _ (Sql.LimitOffset (-1) k));
        now rewrite apply_limit_offset_only.
  - assert (Hbind := bind_limit_offset_overflow k Hb).
    split; intros until rows.
    + unfold list_elements. rewrite (pagination_offset_only k Hk).
      unfold pagination, bind, lift, ret, raise, fetch. cbv zeta.
      destruct type as [t|]; [destruct (validate_type t)|]; cbv beta iota;
        try discriminate;
        (destruct format as [f|]; [destruct (validate_format f)|]; cbv beta iota;
         try discriminate);
        (destruct (negb (Py.mem order_by _)); [discriminate|]);
        (destruct (negb (Py.mem (Py.upper order_dir) _)); [discriminate|]);
        (destruct tag as [tg|]; [destruct (_normalize_tag tg)|]; cbv beta iota;
         try discriminate);
        rewrite Hbind; reflexivity.
    + unfold list_links. rewrite (pagination_offset_only k Hk).
      unfold pagination, bind, lift, ret, raise, query. cbv zeta.
      rewrite Hbind. cbn [Sql.bind_limit].
      destruct (negb (Py.mem order_by _)); [discriminate|].
      destruct (negb (Py.mem (Py.upper order_dir) _)); [discriminate|].
      destruct (if_truthy rel) as [r|]; [destruct (validate_rel r)|];
        cbv beta iota; try discriminate; reflexivity.
Qed.

Lemma listing_offset_without_limit_witness :
  list_elements None None None None None (Some 1%Z) "created_at" "asc" true
    example_process
  = (result_map (skipn 1)
       (fst (list_elements None None None None None None "created_at" "asc" true
               example_process)), example_process) /\
  list_links None None None None (Some 1%Z) "rel" "desc" example_process
  = (result_map (skipn 1)
       (fst (list_links None None None None None "rel" "desc" example_process)),
     example_process).
Proof.
  assert (H : (0 <= 1)%Z) by lia.
  assert (H' : (1 < 2 ^ 63)%Z) by reflexivity.
  destruct (listing_offset_without_limit example_process 1%Z H) as [Hin _].
  destruct (Hin H') as [He Hl].
  split; [apply He | apply Hl].
Defined.

(** C10 as stated fails at the offset 2^63: on the example store both
    listings return without pagination and raise [OverflowError] with the
    offset, so neither returns the unpaginated rows less the first 2^63. *)
Lemma offset_beyond_integer_raises :
  fst (list_elements None None None None None (Some (2 ^ 63)%Z) "updated_at" "DESC"
         false example_process) = Raise OverflowError /\
  fst (list_elements None None None None None (Some (2 ^ 63)%Z) "updated_at" "DESC"
         false example_process)
  <> result_map (skipn (Z.to_nat (2 ^ 63)))
       (fst (list_elements None None None None None None "updated_at" "DESC" false
               example_process)) /\
  fst (list_links None None None None (Some (2 ^ 63)%Z) "updated_at" "DESC"
         example_process) = Raise OverflowError /\
  fst (list_links None None None None (Some (2 ^ 63)%Z) "updated_at" "DESC"
         example_process)
  <> result_map (skipn (Z.to_nat (2 ^ 63)))
       (fst (list_links None None None None None "updated_at" "DESC" example_process)).
Proof.
  assert (He : fst (list_elements None None None None None (Some (2 ^ 63)%Z)
                      "updated_at" "DESC" false example_process)
               = Raise OverflowError) by (vm_compute; reflexivity).
  assert (Hl : fst (list_links None None None None (Some (2 ^ 63)%Z) "updated_at"
                      "DESC" example_process) = Raise OverflowError)
    by (vm_compute; reflexivity).
  assert (Hue : exists rows,
            fst (list_elements None None None None None None "updated_at" "DESC"
                   false example_process) = Ok rows)
    by (eexists; vm_compute; reflexivity).
  assert (Hul : exists rows,
            fst (list_links None None None None None "updated_at" "DESC"
                   example_process) = Ok rows)
    by (eexists; vm_compute; reflexivity).
  destruct Hue as [re Hue]. destruct Hul as [rl Hul].
  rewrite He, Hl, Hue, Hul. cbn [result_map].
  repeat split; discriminate.
Qed.

(** ** The relation-semantics table *)

Lemma find_existsb {A : Type} (f : A -> bool) (rows : list A) r :
  find f rows = Some r -> existsb f rows = true.
Proof.
  intros H. apply find_some in H. apply existsb_exists. now exists r.
Qed.

Lemma select_element_exists d id e :
  Sql.select_element id d = Some e -> Sql.element_exists d id = true.
Proof. apply find_existsb. Qed.

Lemma select_element_In d id e :
  Sql.select_element id d = Some e -> In e (elements d) /\ el_id e = id.
Proof.
  intros H. apply find_some in H. now rewrite String.eqb_eq in H.
Qed.

Lemma db_ok_element d e : db_ok d -> In e (elements d) -> element_ok e.
Proof.
  intros Hok Hin. pose proof (ok_elements d Hok) as H.
  rewrite Forall_forall in H. now apply H.
Qed.

Lemma mem_truthy t xs :
  ~ In "" xs -> Py.mem t xs = true -> Py.truthy t = true.
Proof.
  intros Hne Hm. apply mem_In in Hm. unfold Py.truthy.
  destruct (t =? "") eqn:E; [|reflexivity].
  apply String.eqb_eq in E. subst. contradiction.
Qed.

Lemma element_type_truthy t : Py.mem t ELEMENT_TYPES = true -> Py.truthy t = true.
Proof.
  apply mem_truthy. simpl. intuition discriminate.
Qed.

(** The dict of the source and the table of the specification give every
    relation the same two sets. *)
Lemma REL_RULES_is_spec_table rel :
  Py.mem rel LINK_RELATIONS = true ->
  dict_get rel REL_RULES = dict_get rel spec_relation_table /\
  dict_get rel REL_RULES <> None.
Proof.
  intros H. apply mem_In in H. simpl in H.
  repeat (destruct H as [<- | H]; [split; [reflexivity | discriminate] |]).
  contradiction.
Qed.

(** What [validate_link_semantics] answers for a valid relation and two
    distinct elements of the store. *)
Lemma validate_link_semantics_found p src_id dst_id rel s d allowed_src allowed_dst :
  Py.mem rel LINK_RELATIONS = true ->
  src_id <> dst_id ->
  Sql.select_element src_id (db (conn p)) = Some s ->
  Sql.select_element dst_id (db (conn p)) = Some d ->
  Py.truthy (el_type s) = true ->
  Py.truthy (el_type d) = true ->
  dict_get rel REL_RULES = Some (allowed_src, allowed_dst) ->
  validate_link_semantics src_id dst_id rel p =
  (if negb (Py.mem (el_type s) allowed_src) then
     Raise (ValueError (rel_requires_src_type rel (el_type s)))
   else if negb (Py.mem (el_type d) allowed_dst) then
     Raise (ValueError (rel_requires_dst_type rel (el_type d)))
   else Ok tt, p).
Proof.
  intros Hrel Hne Hs Hd Hts Htd Hrules.
  unfold validate_link_semantics, bind, lift, _fetch_type, query, raise, ret.
  rewrite (validate_rel_ok _ Hrel).
  apply String.eqb_neq in Hne. rewrite Hne, Hs, Hd.
  cbn [option_map Py.truthy_opt Py.or_else fst snd].
  rewrite Hts, Htd, Hrules. cbn [negb].
  destruct (Py.mem (el_type s) allowed_src); simpl; [|reflexivity].
  destruct (Py.mem (el_type d) allowed_dst); reflexivity.
Qed.

Lemma create_link_after_validation p src_id dst_id rel note id :
  Py.mem rel LINK_RELATIONS = true ->
  validate_link_semantics src_id dst_id rel p = (Ok tt, p) ->
  fst (create_link src_id dst_id rel note id p) =
  result_map (fun _ => chosen_id id p)
    (Sql.insert_element_link (new_link src_id dst_id rel note id p) (db (conn p))) /\
  db (conn (snd (create_link src_id dst_id rel note id p))) =
  match Sql.insert_element_link (new_link src_id dst_id rel note id p) (db (conn p)) with
  | Ok (_, d) => d
  | Raise _ => db (conn p)
  end /\
  (forall e,
     Sql.insert_element_link (new_link src_id dst_id rel note id p) (db (conn p))
     = Raise e ->
     conn (snd (create_link src_id dst_id rel note id p)) = conn p).
Proof.
  intros Hrel Hval. unfold create_link.
  rewrite (bind_ok _ _ p rel p) by (unfold lift; now rewrite validate_rel_ok).
  rewrite (bind_ok _ _ p tt p Hval).
  unfold new_link, chosen_id, bind, ret, secure_uuid4_str, now_utc_iso, execute, commit.
  assert (Hnote : Py.or_else (Some note) "" = note).
  { unfold Py.or_else, Py.truthy. destruct (note =? "") eqn:E; [|reflexivity].
    apply String.eqb_eq in E. now subst. }
  rewrite Hnote.
  destruct (Py.truthy_opt id); cbn [conn clock entropy db];
    match goal with
    | |- context [Sql.insert_element_link ?r ?d] =>
        destruct (Sql.insert_element_link r d) as [[n d']|e]
    end; cbn; repeat split; intros; congruence.
Qed.

Lemma validate_link_semantics_decides p src_id dst_id rel s d :
  db_ok (db (conn p)) ->
  Py.mem rel LINK_RELATIONS = true ->
  src_id <> dst_id ->
  Sql.select_element src_id (db (conn p)) = Some s ->
  Sql.select_element dst_id (db (conn p)) = Some d ->
  (validate_link_semantics src_id dst_id rel p = (Ok tt, p) /\
   spec_allows rel (el_type s) (el_type d)) \/
  (exists e,
     validate_link_semantics src_id dst_id rel p = (Raise e, p) /\
     error_name_of e = IncompatibleRelation /\
     ~ spec_allows rel (el_type s) (el_type d)).
Proof.
  intros Hok Hrel Hne Hs Hd.
  destruct (REL_RULES_is_spec_table rel Hrel) as [Htab Hsome].
  destruct (dict_get rel REL_RULES) as [[allowed_src allowed_dst]|] eqn:Hrules;
    [clear Hsome | congruence].
  assert (Hts : Py.truthy (el_type s) = true).
  { apply element_type_truthy.
    apply (db_ok_element _ s Hok). now apply (select_element_In _ src_id). }
  assert (Htd : Py.truthy (el_type d) = true).
  { apply element_type_truthy.
    apply (db_ok_element _ d Hok). now apply (select_element_In _ dst_id). }
  rewrite (validate_link_semantics_found p src_id dst_id rel s d _ _
             Hrel Hne Hs Hd Hts Htd Hrules).
  destruct (Py.mem (el_type s) allowed_src) eqn:Ms; cbn [negb].
  - destruct (Py.mem (el_type d) allowed_dst) eqn:Md; cbn [negb].
    + left. split; [reflexivity|].
      exists allowed_src, allowed_dst. rewrite <- Htab.
      repeat split; [now apply mem_In | now apply mem_In].
    + right. eexists. repeat split.
      intros (srcs & dsts & Hget & _ & Hin). rewrite <- Htab in Hget.
      inversion Hget; subst. apply mem_In in Hin. congruence.
  - right. eexists. repeat split.
    intros (srcs & dsts & Hget & Hin & _). rewrite <- Htab in Hget.
    inversion Hget; subst. apply mem_In in Hin. congruence.
Qed.

Lemma create_link_validation_raise p src_id dst_id rel note id e :
  Py.mem rel LINK_RELATIONS = true ->
  validate_link_semantics src_id dst_id rel p = (Raise e, p) ->
  create_link src_id dst_id rel note id p = (Raise e, p).
Proof.
  intros Hrel Hval. unfold create_link.
  rewrite (bind_ok _ _ p rel p) by (unfold lift; now rewrite validate_rel_ok).
  now apply bind_raise.
Qed.

Lemma insert_element_link_ok r d :
  Py.mem (ln_rel r) LINK_RELATIONS = true ->
  existsb (Sql.same_triple (ln_src_id r) (ln_dst_id r) (ln_rel r)) (element_links d)
    = false ->
  Sql.link_exists d (ln_id r) = false ->
  Sql.element_exists d (ln_src_id r) = true ->
  Sql.element_exists d (ln_dst_id r) = true ->
  Sql.insert_element_link r d =
  Ok (1%Z, mk_database (elements d) (element_tags d) (element_links d ++ [r])).
Proof.
  intros H1 H2 H3 H4 H5. unfold Sql.insert_element_link.
  now rewrite H1, H2, H3, H4, H5.
Qed.

(** C2.  For a valid relation and two distinct elements of the store,
    [validate_link_semantics] accepts exactly the pairs of types that the
    table of the specification allows for the relation, and fails with the
    "requires src/dst type" error (IncompatibleRelation) on the others;
    [create_link] fails the same way on those, and on the allowed pairs it
    inserts the link, as long as the store has no link with this triple
    or this id yet.  In particular a proof and a theorem can be linked by
    "proves" from the proof to the theorem, and the reversed call fails
    with IncompatibleRelation on the source side. *)
Theorem validate_link_semantics_by_table
    (p : process) (src_id dst_id rel : string) (s d : element) :
  db_ok (db (conn p)) ->
  Py.mem rel LINK_RELATIONS = true ->
  src_id <> dst_id ->
  Sql.select_element src_id (db (conn p)) = Some s ->
  Sql.select_element dst_id (db (conn p)) = Some d ->
  (validate_link_semantics src_id dst_id rel p = (Ok tt, p)
   <-> spec_allows rel (el_type s) (el_type d)) /\
  (~ spec_allows rel (el_type s) (el_type d) ->
   exists e,
     error_name_of e = IncompatibleRelation /\
     validate_link_semantics src_id dst_id rel p = (Raise e, p) /\
     forall note id, create_link src_id dst_id rel note id p = (Raise e, p)) /\
  (spec_allows rel (el_type s) (el_type d) ->
   forall note id,
     existsb (Sql.same_triple src_id dst_id rel) (element_links (db (conn p))) = false ->
     Sql.link_exists (db (conn p)) (chosen_id id p) = false ->
     fst (create_link src_id dst_id rel note id p) = Ok (chosen_id id p) /\
     element_links (db (conn (snd (create_link src_id dst_id rel note id p)))) =
     element_links (db (conn p)) ++ [new_link src_id dst_id rel note id p]) /\
  (el_type s = "proof" -> el_type d = "theorem" ->
   spec_allows "proves" (el_type s) (el_type d) /\
   forall note id,
     create_link dst_id src_id "proves" note id p =
     (Raise (ValueError (rel_requires_src_type "proves" "theorem")), p)).
Proof.
  intros Hok Hrel Hne Hs Hd.
  pose proof (validate_link_semantics_decides p src_id dst_id rel s d
                Hok Hrel Hne Hs Hd) as Hdec.
  repeat split.
  - intros Hval. destruct Hdec as [[_ Ha] | (e & He & _)]; [assumption | congruence].
  - intros Ha. destruct Hdec as [[Hval _] | (e & _ & _ & Hn)];
      [assumption | contradiction].
  - intros Hn. destruct Hdec as [[_ Ha] | (e & He & Hname & _)]; [contradiction|].
    exists e. repeat split; try assumption.
    intros note id. now apply create_link_validation_raise.
  - destruct Hdec as [[Hval _] | (e & _ & _ & Hn)]; [|contradiction].
    destruct (create_link_after_validation p src_id dst_id rel note id Hrel Hval)
      as [Hfst _].
    rewrite Hfst, insert_element_link_ok; try assumption; try reflexivity.
    + now apply (select_element_exists _ _ s).
    + now apply (select_element_exists _ _ d).
  - destruct Hdec as [[Hval _] | (e & _ & _ & Hn)]; [|contradiction].
    destruct (create_link_after_validation p src_id dst_id rel note id Hrel Hval)
      as (_ & Hdb & _).
    rewrite Hdb, insert_element_link_ok; try assumption; try reflexivity.
    + now apply (select_element_exists _ _ s).
    + now apply (select_element_exists _ _ d).
  - rewrite H, H0. exists [ "proof" ], [ "lemma"; "proposition"; "theorem"; "corollary" ].
    repeat split; simpl; auto.
  - intros note id. apply create_link_validation_raise; [reflexivity|].
    assert (Hne' : dst_id <> src_id) by congruence.
    rewrite (validate_link_semantics_found p dst_id src_id "proves" d s
               [ "proof" ] DERIVED_STATEMENTS); try assumption; try reflexivity.
    + now rewrite H0.
    + now rewrite H0.
    + now rewrite H.
Qed.

(** ** The store invariants hold in every reachable state *)

Section Preservation.

Variable I : database -> Prop.

Lemma preserves_ret {A : Type} (a : A) : preserves I (ret a).
Proof. intros p H. exact H. Qed.

Lemma preserves_raise {A : Type} (e : exn) : preserves I (@raise A e).
Proof. intros p H. exact H. Qed.

Lemma preserves_lift {A : Type} (r : result A) : preserves I (lift r).
Proof. intros p H. exact H. Qed.

Lemma preserves_query {A : Type} (q : database -> A) : preserves I (query q).
Proof. intros p H. exact H. Qed.

Lemma preserves_commit : preserves I commit.
Proof. intros p H. exact H. Qed.

Lemma preserves_now_utc_iso : preserves I now_utc_iso.
Proof. intros p H. exact H. Qed.

Lemma preserves_secure_uuid4_str : preserves I secure_uuid4_str.
Proof. intros p H. exact H. Qed.

Lemma preserves_bind {A B : Type} (m : M A) (k : A -> M B) :
  preserves I m -> (forall a, preserves I (k a)) -> preserves I (bind m k).
Proof.
  intros Hm Hk p H. unfold bind. specialize (Hm p H).
  destruct (m p) as [[a|e] p']; simpl in *.
  - now apply Hk.
  - exact Hm.
Qed.

Lemma preserves_execute stmt :
  (forall d n d', I d -> stmt d = Ok (n, d') -> I d') -> preserves I (execute stmt).
Proof.
  intros Hs p H. unfold execute.
  destruct (stmt (db (conn p))) as [[n d']|e] eqn:E; simpl.
  - now apply (Hs _ n d' H).
  - exact H.
Qed.

Lemma preserves_for_each {A : Type} (xs : list A) (body : A -> M unit) :
  (forall x, preserves I (body x)) -> preserves I (for_each xs body).
Proof.
  intros Hb. induction xs as [|x xs IH]; simpl.
  - apply preserves_ret.
  - apply preserves_bind; [apply Hb | intros _; exact IH].
Qed.

Lemma preserves_for_sum {A : Type} (xs : list A) (body : A -> M Z) acc :
  (forall x, preserves I (body x)) -> preserves I (for_sum xs body acc).
Proof.
  intros Hb. revert acc. induction xs as [|x xs IH]; intros acc; simpl.
  - apply preserves_ret.
  - apply preserves_bind; [apply Hb | intros n; apply IH].
Qed.

End Preservation.

Lemma db_ok_same d d' :
  elements d' = elements d -> element_links d' = element_links d ->
  db_ok d -> db_ok d'.
Proof.
  intros He Hl [H1 H2 H3 H4 H5].
  constructor; rewrite ?He, ?Hl; assumption.
Qed.

Lemma NoDup_map_filter {A B : Type} (f : A -> B) (g : A -> bool) (l : list A) :
  NoDup (map f l) -> NoDup (map f (filter g l)).
Proof.
  induction l as [|a l IH]; simpl; intros H; [constructor|].
  inversion H as [|? ? Hn Hd]; subst.
  destruct (g a); simpl; [constructor|]; auto.
  intros Hin. apply Hn. apply in_map_iff in Hin as (x & Hx & Hin).
  apply filter_In in Hin as [Hin _]. apply in_map_iff. now exists x.
Qed.

Lemma NoDup_map_snoc {A B : Type} (f : A -> B) (l : list A) (x : A) :
  NoDup (map f l) -> ~ In (f x) (map f l) -> NoDup (map f (l ++ [x])).
Proof.
  intros Hd Hn. rewrite map_app. simpl.
  apply (Permutation_NoDup (l := f x :: map f l)).
  - apply Permutation_cons_append.
  - now constructor.
Qed.

Lemma Forall_filter {A : Type} (P : A -> Prop) (g : A -> bool) (l : list A) :
  Forall P l -> Forall P (filter g l).
Proof.
  rewrite !Forall_forall. intros H x Hx. apply filter_In in Hx. now apply H.
Qed.

Lemma existsb_key_false {A : Type} (key : A -> string) (id : string) (l : list A) :
  existsb (fun r => key r =? id) l = false -> ~ In id (map key l).
Proof.
  intros H Hin. apply in_map_iff in Hin as (x & Hx & Hin).
  assert (existsb (fun r => key r =? id) l = true); [|congruence].
  apply existsb_exists. exists x. split; [assumption|].
  now apply String.eqb_eq.
Qed.

Lemma insert_element_db_ok r d n d' :
  nonblank (el_title r) -> nonblank (el_body r) ->
  db_ok d -> Sql.insert_element r d = Ok (n, d') -> db_ok d'.
Proof.
  intros Ht Hb [H1 H2 H3 H4 H5]. unfold Sql.insert_element.
  destruct (Py.mem (el_type r) ELEMENT_TYPES) eqn:E1; [|discriminate].
  destruct (Py.mem (el_format r) FORMATS) eqn:E2; [|discriminate].
  destruct (Sql.element_exists d (el_id r)) eqn:E3; [discriminate|].
  simpl. intros H. inversion H; subst. constructor; simpl; try assumption.
  - apply NoDup_map_snoc; [assumption|]. now apply existsb_key_false.
  - apply Forall_app. split; [assumption|]. repeat constructor; assumption.
Qed.

Lemma update_element_db_ok type format title body ts id d n d' :
  nonblank title -> nonblank body ->
  db_ok d -> Sql.update_element type format title body ts id d = Ok (n, d') ->
  db_ok d'.
Proof.
  intros Ht Hb [H1 H2 H3 H4 H5]. unfold Sql.update_element.
  destruct (existsb _ (elements d)); cbn [negb].
  2:{ intros H. inversion H; subst. now constructor. }
  destruct (Py.mem type ELEMENT_TYPES) eqn:E1; [|discriminate].
  destruct (Py.mem format FORMATS) eqn:E2; [|discriminate].
  simpl. intros H. inversion H; subst. constructor; simpl; try assumption.
  - rewrite map_map.
    erewrite map_ext; [exact H1|].
    intros e. now destruct (el_id e =? id).
  - rewrite Forall_forall in *. intros e He.
    apply in_map_iff in He as (e0 & <- & Hin).
    destruct (el_id e0 =? id); [|now apply H2].
    repeat split; assumption.
Qed.

Lemma delete_element_db_ok id d n d' :
  db_ok d -> Sql.delete_element id d = Ok (n, d') -> db_ok d'.
Proof.
  intros [H1 H2 H3 H4 H5]. unfold Sql.delete_element.
  destruct (existsb _ (elements d)); cbn [negb]; intros H; inversion H; subst.
  - constructor; simpl;
      auto using NoDup_map_filter, Forall_filter.
  - now constructor.
Qed.

Lemma insert_element_link_db_ok r d n d' :
  db_ok d -> Sql.insert_element_link r d = Ok (n, d') -> db_ok d'.
Proof.
  intros [H1 H2 H3 H4 H5]. unfold Sql.insert_element_link.
  destruct (Py.mem (ln_rel r) LINK_RELATIONS) eqn:E1; [|discriminate].
  destruct (existsb _ (element_links d)) eqn:E2; [discriminate|].
  destruct (Sql.link_exists d (ln_id r)) eqn:E3; [discriminate|].
  destruct (_ && _); [|discriminate].
  simpl. intros H. inversion H; subst. constructor; simpl; try assumption.
  - apply NoDup_map_snoc; [assumption|]. now apply existsb_key_false.
  - apply Forall_app. split; [assumption|]. repeat constructor; assumption.
  - apply NoDup_map_snoc; [assumption|].
    intros Hin. apply in_map_iff in Hin as (l & Hl & Hin).
    assert (existsb (Sql.same_triple (ln_src_id r) (ln_dst_id r) (ln_rel r))
              (element_links d) = true); [|congruence].
    apply existsb_exists. exists l. split; [assumption|].
    unfold triple in Hl. inversion Hl. unfold Sql.same_triple.
    now rewrite !String.eqb_refl.
Qed.

Lemma delete_element_link_db_ok id d n d' :
  db_ok d -> Sql.delete_element_link id d = Ok (n, d') -> db_ok d'.
Proof.
  intros [H1 H2 H3 H4 H5]. unfold Sql.delete_element_link.
  intros H; inversion H; subst.
  constructor; simpl;
    auto using NoDup_map_filter, Forall_filter.
Qed.

Lemma existsb_false_In {A : Type} (f : A -> bool) (l : list A) x :
  existsb f l = false -> In x l -> f x = false.
Proof.
  intros H Hin. destruct (f x) eqn:E; [|reflexivity].
  rewrite <- H. symmetry. apply existsb_exists. now exists x.
Qed.

Lemma update_rows_triples rel note ts id (links : list element_link) :
  NoDup (map ln_id links) ->
  NoDup (map triple links) ->
  (forall l l', In l links -> In l' links -> ln_id l = id -> ln_id l' <> id ->
                triple l' <> (ln_src_id l, ln_dst_id l, rel)) ->
  NoDup (map triple
           (map (fun l => if ln_id l =? id then Sql.set_link rel note ts l else l)
              links)).
Proof.
  induction links as [|a rest IH]; simpl; intros Hid Htr Hclash; [constructor|].
  inversion Hid as [|? ? Hida Hidr]; subst.
  inversion Htr as [|? ? Htra Htrr]; subst.
  constructor.
  - intros Hin. rewrite map_map in Hin.
    apply in_map_iff in Hin as (x & Hx & Hin).
    destruct (ln_id a =? id) eqn:Ea; destruct (ln_id x =? id) eqn:Ex;
      rewrite ?String.eqb_eq, ?String.eqb_neq in *.
    + apply Hida. rewrite Ea, <- Ex. apply in_map_iff. now exists x.
    + apply (Hclash a x); simpl; auto.
    + apply (Hclash x a); simpl; auto.
    + apply Htra. rewrite <- Hx. apply in_map_iff. now exists x.
  - apply IH; auto.
Qed.

Lemma update_element_link_db_ok rel note ts id d n d' :
  db_ok d -> Sql.update_element_link rel note ts id d = Ok (n, d') -> db_ok d'.
Proof.
  intros [H1 H2 H3 H4 H5]. unfold Sql.update_element_link.
  destruct (existsb _ (element_links d)); cbn [negb].
  2:{ intros H. inversion H; subst. now constructor. }
  destruct (Py.mem rel LINK_RELATIONS) eqn:E1; [|discriminate].
  match goal with |- context [existsb ?f ?l] => destruct (existsb f l) eqn:E2 end;
    [discriminate|].
  simpl. intros H. inversion H; subst. constructor; simpl; try assumption.
  - rewrite map_map.
    erewrite map_ext; [exact H3|].
    intros l. now destruct (ln_id l =? id).
  - rewrite Forall_forall in *. intros l Hl.
    apply in_map_iff in Hl as (l0 & <- & Hin).
    destruct (ln_id l0 =? id); [exact E1 | now apply H4].
  - apply update_rows_triples; try assumption.
    intros l l' Hl Hl' Hhit Hmiss Heq.
    pose proof (existsb_false_In _ _ l E2 Hl) as Hc. cbv beta in Hc.
    apply String.eqb_eq in Hhit as Hhit'. rewrite Hhit' in Hc. cbn [andb] in Hc.
    pose proof (existsb_false_In _ _ l' Hc Hl') as Hc'. cbv beta in Hc'.
    apply String.eqb_neq in Hmiss. rewrite Hmiss in Hc'. cbn [negb andb] in Hc'.
    unfold triple in Heq. inversion Heq as [[Es Ed Er]].
    unfold Sql.same_triple in Hc'. now rewrite Es, Ed, Er, !String.eqb_refl in Hc'.
Qed.

Lemma insert_element_tag_frame r d n d' :
  Sql.insert_element_tag r d = Ok (n, d') ->
  elements d' = elements d /\ element_links d' = element_links d.
Proof.
  unfold Sql.insert_element_tag.
  destruct (Sql.tag_exists _ _ _); [discriminate|].
  destruct (negb _); [discriminate|].
  intros H. inversion H; subst. now split.
Qed.

Lemma insert_or_ignore_element_tag_frame r d n d' :
  Sql.insert_or_ignore_element_tag r d = Ok (n, d') ->
  elements d' = elements d /\ element_links d' = element_links d.
Proof.
  unfold Sql.insert_or_ignore_element_tag.
  destruct (Sql.tag_exists _ _ _); [intros H; inversion H; subst; now split|].
  destruct (negb _); [discriminate|].
  intros H. inversion H; subst. now split.
Qed.

Lemma delete_element_tags_frame id d n d' :
  Sql.delete_element_tags id d = Ok (n, d') ->
  elements d' = elements d /\ element_links d' = element_links d.
Proof. unfold Sql.delete_element_tags. intros H. inversion H; subst. now split. Qed.

Lemma delete_element_tag_frame id t d n d' :
  Sql.delete_element_tag id t d = Ok (n, d') ->
  elements d' = elements d /\ element_links d' = element_links d.
Proof. unfold Sql.delete_element_tag. intros H. inversion H; subst. now split. Qed.

Ltac frame_ok lem :=
  apply preserves_execute;
  let d := fresh "d" in let n := fresh "n" in let d' := fresh "d'" in
  let Hok := fresh "Hok" in let Hs := fresh "Hs" in
  intros d n d' Hok Hs; apply lem in Hs; destruct Hs;
  now apply (db_ok_same d d').

Ltac pres :=
  repeat match goal with
    | |- preserves _ (bind _ _) => apply preserves_bind; [|intros ?]
    | |- preserves _ (ret _) => apply preserves_ret
    | |- preserves _ (raise _) => apply preserves_raise
    | |- preserves _ (lift _) => apply preserves_lift
    | |- preserves _ (query _) => apply preserves_query
    | |- preserves _ commit => apply preserves_commit
    | |- preserves _ now_utc_iso => apply preserves_now_utc_iso
    | |- preserves _ secure_uuid4_str => apply preserves_secure_uuid4_str
    end.

Lemma set_tags_db_ok element_id tags : preserves db_ok (set_tags element_id tags).
Proof.
  unfold set_tags. pres.
  - frame_ok delete_element_tags_frame.
  - apply preserves_for_each. intros t. pres. frame_ok insert_element_tag_frame.
Qed.

Lemma add_tags_db_ok element_id tags : preserves db_ok (add_tags element_id tags).
Proof.
  unfold add_tags. pres.
  apply preserves_for_sum. intros t. frame_ok insert_or_ignore_element_tag_frame.
Qed.

Lemma remove_tags_db_ok element_id tags : preserves db_ok (remove_tags element_id tags).
Proof.
  unfold remove_tags. pres.
  apply preserves_for_sum. intros t. frame_ok delete_element_tag_frame.
Qed.

Lemma clear_tags_db_ok element_id : preserves db_ok (clear_tags element_id).
Proof. unfold clear_tags. pres. frame_ok delete_element_tags_frame. Qed.

Lemma create_element_db_ok type title body format tags id :
  preserves db_ok (create_element type title body format tags id).
Proof.
  unfold create_element. pres.
  destruct (negb (Py.truthy (Py.strip title))) eqn:Et; pres.
  destruct (negb (Py.truthy (Py.strip body))) eqn:Eb; pres.
  - destruct (Py.truthy_opt id); pres.
  - apply preserves_execute. intros d n d' Hok Hs.
    apply (insert_element_db_ok _ d n d') in Hs; try assumption; simpl;
      unfold nonblank; now apply negb_false_iff.
  - destruct tags; pres. apply set_tags_db_ok.
Qed.

Lemma update_element_db_ok' element_id type title body format tags :
  preserves db_ok (update_element element_id type title body format tags).
Proof.
  unfold update_element. pres.
  destruct a as [existing|]; pres.
  - destruct type; pres.
  - destruct format; pres.
  - match goal with |- context [negb (Py.truthy (Py.strip ?t))] =>
      destruct (negb (Py.truthy (Py.strip t))) eqn:Et end; pres.
    match goal with |- context [if negb (Py.truthy (Py.strip ?t)) then _ else _] =>
      destruct (negb (Py.truthy (Py.strip t))) eqn:Eb end; pres.
    + apply preserves_execute. intros d n d' Hok Hs.
      apply (update_element_db_ok _ _ _ _ _ _ d n d') in Hs; try assumption;
        unfold nonblank; now apply negb_false_iff.
    + destruct tags; pres. apply set_tags_db_ok.
Qed.

Lemma delete_element_db_ok' element_id : preserves db_ok (delete_element element_id).
Proof.
  unfold delete_element. pres.
  apply preserves_execute. intros d n d'. apply delete_element_db_ok.
Qed.

Lemma validate_link_semantics_db_ok src_id dst_id rel :
  preserves db_ok (validate_link_semantics src_id dst_id rel).
Proof.
  unfold validate_link_semantics, _fetch_type. pres.
  destruct (src_id =? dst_id); pres.
  destruct (negb (Py.truthy_opt a0)); pres.
  destruct (negb (Py.truthy_opt a1)); pres.
  destruct (dict_get a REL_RULES) as [[allowed_src allowed_dst]|]; pres.
  destruct (negb (Py.mem _ allowed_src)); pres.
  destruct (negb (Py.mem _ allowed_dst)); pres.
Qed.

Lemma create_link_db_ok src_id dst_id rel note id :
  preserves db_ok (create_link src_id dst_id rel note id).
Proof.
  unfold create_link. pres.
  - apply validate_link_semantics_db_ok.
  - destruct (Py.truthy_opt id); pres.
  - apply preserves_execute. intros d n d'. apply insert_element_link_db_ok.
Qed.

Lemma update_link_db_ok link_id rel note :
  preserves db_ok (update_link link_id rel note).
Proof.
  unfold update_link. pres.
  destruct a as [existing|]; pres.
  - destruct rel; pres.
  - destruct rel; pres. apply validate_link_semantics_db_ok.
  - apply preserves_execute. intros d n d'. apply update_element_link_db_ok.
Qed.

Lemma delete_link_db_ok link_id : preserves db_ok (delete_link link_id).
Proof.
  unfold delete_link. pres.
  apply preserves_execute. intros d n d'. apply delete_element_link_db_ok.
Qed.

Lemma run_db_ok c : preserves db_ok (run c).
Proof.
  destruct c; unfold run; pres;
    auto using create_element_db_ok, update_element_db_ok', delete_element_db_ok',
      add_tags_db_ok, remove_tags_db_ok, clear_tags_db_ok, set_tags_db_ok,
      create_link_db_ok, update_link_db_ok, delete_link_db_ok.
  unfold init_db. apply preserves_commit.
Qed.

Lemma empty_database_ok : db_ok empty_database.
Proof. constructor; simpl; constructor. Qed.

(** Every state a process can reach satisfies the invariants. *)
Lemma reachable_db_ok p : reachable p -> db_ok (db (conn p)).
Proof.
  induction 1 as [clock entropy | p c _ IH].
  - apply empty_database_ok.
  - now apply run_db_ok.
Qed.

(** ** One link for each (src_id, dst_id, rel) *)

Lemma validate_link_semantics_state src_id dst_id rel p :
  snd (validate_link_semantics src_id dst_id rel p) = p.
Proof.
  unfold validate_link_semantics, bind, lift, _fetch_type, query, raise, ret.
  destruct (validate_rel rel) as [r|e]; [|reflexivity].
  destruct (src_id =? dst_id); [reflexivity|].
  destruct (negb (Py.truthy_opt _)); [reflexivity|].
  destruct (negb (Py.truthy_opt _)); [reflexivity|].
  destruct (dict_get r REL_RULES) as [[allowed_src allowed_dst]|]; [|reflexivity].
  destruct (negb (Py.mem _ allowed_src)); [reflexivity|].
  destruct (negb (Py.mem _ allowed_dst)); reflexivity.
Qed.

(** The validator reads the [elements] table and nothing else. *)
Lemma validate_link_semantics_elements src_id dst_id rel p p' :
  elements (db (conn p)) = elements (db (conn p')) ->
  fst (validate_link_semantics src_id dst_id rel p) =
  fst (validate_link_semantics src_id dst_id rel p').
Proof.
  intros He.
  unfold validate_link_semantics, bind, lift, _fetch_type, query, raise, ret,
    Sql.select_element.
  destruct (validate_rel rel) as [r|e]; [|reflexivity].
  destruct (src_id =? dst_id); [reflexivity|].
  cbv beta iota. rewrite He.
  destruct (negb (Py.truthy_opt _)); [reflexivity|].
  destruct (negb (Py.truthy_opt _)); [reflexivity|].
  destruct (dict_get r REL_RULES) as [[allowed_src allowed_dst]|]; [|reflexivity].
  destruct (negb (Py.mem _ allowed_src)); [reflexivity|].
  destruct (negb (Py.mem _ allowed_dst)); reflexivity.
Qed.

Lemma validate_link_semantics_eq src_id dst_id rel p :
  validate_link_semantics src_id dst_id rel p =
  (fst (validate_link_semantics src_id dst_id rel p), p).
Proof.
  rewrite <- (validate_link_semantics_state src_id dst_id rel p) at 3.
  now destruct (validate_link_semantics src_id dst_id rel p).
Qed.

Lemma create_link_ok_inv src_id dst_id rel note id p link_id :
  fst (create_link src_id dst_id rel note id p) = Ok link_id ->
  Py.mem rel LINK_RELATIONS = true /\
  validate_link_semantics src_id dst_id rel p = (Ok tt, p).
Proof.
  unfold create_link. unfold bind at 1, lift at 1, validate_rel.
  destruct (Py.mem rel LINK_RELATIONS); cbn [negb]; [|discriminate].
  unfold bind at 1. rewrite validate_link_semantics_eq.
  destruct (fst (validate_link_semantics src_id dst_id rel p)) as [[]|e];
    [|discriminate].
  intros _. now split.
Qed.

Lemma find_snoc {A : Type} (f : A -> bool) (l : list A) (x : A) :
  existsb f l = false -> f x = true -> find f (l ++ [x]) = Some x.
Proof.
  induction l as [|a l IH]; simpl; intros Hl Hx.
  - now rewrite Hx.
  - apply orb_false_iff in Hl as [Ha Hl]. rewrite Ha. now apply IH.
Qed.

(** A successful [create_link] appended exactly the row it was asked for. *)
Lemma create_link_ok_state src_id dst_id rel note id p link_id p1 :
  create_link src_id dst_id rel note id p = (Ok link_id, p1) ->
  link_id = chosen_id id p /\
  elements (db (conn p1)) = elements (db (conn p)) /\
  element_tags (db (conn p1)) = element_tags (db (conn p)) /\
  element_links (db (conn p1)) =
    element_links (db (conn p)) ++ [new_link src_id dst_id rel note id p] /\
  Sql.link_exists (db (conn p)) (chosen_id id p) = false /\
  committed (conn p1) = db (conn p1).
Proof.
  intros Hc.
  assert (Hfst : fst (create_link src_id dst_id rel note id p) = Ok link_id)
    by now rewrite Hc.
  destruct (create_link_ok_inv _ _ _ _ _ _ _ Hfst) as [Hrel Hval].
  revert Hc. unfold create_link.
  rewrite (bind_ok _ _ p rel p) by (unfold lift; now rewrite validate_rel_ok).
  rewrite (bind_ok _ _ p tt p Hval).
  unfold new_link, chosen_id, bind, ret, secure_uuid4_str, now_utc_iso, execute, commit.
  assert (Hnote : Py.or_else (Some note) "" = note).
  { unfold Py.or_else, Py.truthy. destruct (note =? "") eqn:E; [|reflexivity].
    apply String.eqb_eq in E. now subst. }
  rewrite Hnote.
  destruct (Py.truthy_opt id); cbn [conn clock entropy db];
    unfold Sql.insert_element_link; cbn [ln_rel ln_src_id ln_dst_id ln_id];
    rewrite Hrel; cbn [negb];
    (destruct (existsb _ (element_links (db (conn p)))); [discriminate|]);
    (destruct (Sql.link_exists _ _) eqn:El; [discriminate|]);
    (destruct (negb _); [discriminate|]);
    intros H; inversion H; subst; cbn; now repeat split.
Qed.

(** C6.  In every reachable state no two links share (src_id, dst_id, rel).
    After a [create_link] that succeeded, a second [create_link] with the
    same src_id, dst_id and rel (any note, any id) is stopped by the unique
    index: it raises the [IntegrityError] of [uq_links_src_dst_rel]
    (DuplicateLink), the connection is as the first call left it, and the
    first link is still the row [get_link] returns. *)
Theorem duplicate_link_rejected :
  (forall p, reachable p -> NoDup (map triple (element_links (db (conn p))))) /\
  (forall p src_id dst_id rel note id link_id p1,
     create_link src_id dst_id rel note id p = (Ok link_id, p1) ->
     fst (get_link link_id p1) = Ok (Some (new_link src_id dst_id rel note id p)) /\
     forall note' id',
       let second := create_link src_id dst_id rel note' id' p1 in
       fst second = Raise (IntegrityError uq_links_src_dst_rel) /\
       error_name_of (IntegrityError uq_links_src_dst_rel) = DuplicateLink /\
       conn (snd second) = conn p1 /\
       fst (get_link link_id (snd second)) =
       Ok (Some (new_link src_id dst_id rel note id p))).
Proof.
  split.
  - intros p Hp. apply ok_links_uq. now apply reachable_db_ok.
  - intros p src_id dst_id rel note id link_id p1 Hc.
    assert (Hfst : fst (create_link src_id dst_id rel note id p) = Ok link_id)
      by now rewrite Hc.
    destruct (create_link_ok_inv _ _ _ _ _ _ _ Hfst) as [Hrel Hval].
    destruct (create_link_ok_state _ _ _ _ _ _ _ _ Hc)
      as (Hid & Hel & _ & Hlinks & Hfresh & _).
    assert (Hget : forall q, conn q = conn p1 ->
              fst (get_link link_id q) =
              Ok (Some (new_link src_id dst_id rel note id p))).
    { intros q Hq. unfold get_link, query, Sql.select_link. cbn [fst].
      rewrite Hq, Hlinks, Hid.
      rewrite find_snoc; [reflexivity | exact Hfresh |].
      unfold new_link. cbn [ln_id]. apply String.eqb_refl. }
    split; [now apply Hget|].
    intros note' id' second.
    assert (Hval1 : validate_link_semantics src_id dst_id rel p1 = (Ok tt, p1)).
    { rewrite validate_link_semantics_eq.
      rewrite (validate_link_semantics_elements _ _ _ p1 p Hel).
      now rewrite Hval. }
    pose proof (create_link_after_validation p1 src_id dst_id rel note' id'
                  Hrel Hval1) as (Hr & _ & Hst).
    assert (Hins : Sql.insert_element_link
                     (new_link src_id dst_id rel note' id' p1) (db (conn p1))
                   = Raise (IntegrityError uq_links_src_dst_rel)).
    { unfold Sql.insert_element_link, new_link.
      cbn [ln_rel ln_src_id ln_dst_id ln_id]. rewrite Hrel. cbn [negb].
      rewrite Hlinks, existsb_app. cbn [existsb].
      unfold Sql.same_triple at 2. cbn [ln_rel ln_src_id ln_dst_id].
      rewrite !String.eqb_refl. cbn [andb orb].
      now rewrite orb_true_r. }
    rewrite Hins in Hr. cbn [result_map] in Hr.
    specialize (Hst _ Hins).
    repeat split; try assumption. now apply Hget.
Qed.

(** ** Updating a link *)

Lemma NoDup_map_eq {A B : Type} (f : A -> B) (l : list A) a b :
  NoDup (map f l) -> In a l -> In b l -> f a = f b -> a = b.
Proof.
  induction l as [|x l IH]; simpl; intros Hd Ha Hb Hf; [contradiction|].
  inversion Hd as [|? ? Hn Hd']; subst.
  destruct Ha as [<-|Ha], Hb as [<-|Hb]; auto.
  - exfalso. apply Hn. rewrite Hf. now apply in_map.
  - exfalso. apply Hn. rewrite <- Hf. now apply in_map.
Qed.

Lemma select_link_In d id l :
  Sql.select_link id d = Some l -> In l (element_links d) /\ ln_id l = id.
Proof.
  intros H. apply find_some in H. now rewrite String.eqb_eq in H.
Qed.

Lemma find_map_rows {A : Type} (key : A -> string) (upd : A -> A) id (rows : list A) :
  (forall r, key (upd r) = key r) ->
  find (fun r => key r =? id) (map (fun r => if key r =? id then upd r else r) rows)
  = option_map upd (find (fun r => key r =? id) rows).
Proof.
  intros Hk. induction rows as [|r rows IH]; simpl; [reflexivity|].
  destruct (key r =? id) eqn:E.
  - now rewrite Hk, E.
  - now rewrite E.
Qed.

(** Keeping the relation of a row never meets the unique index. *)
Lemma update_element_link_same_rel d id l note ts :
  db_ok d ->
  Sql.select_link id d = Some l ->
  Sql.update_element_link (ln_rel l) note ts id d =
  Ok (Z.of_nat (List.length (filter (fun l => ln_id l =? id) (element_links d))),
      mk_database (elements d) (element_tags d)
        (map (fun l0 => if ln_id l0 =? id then Sql.set_link (ln_rel l) note ts l0 else l0)
           (element_links d))).
Proof.
  intros Hok Hsel. unfold Sql.update_element_link.
  rewrite (find_existsb _ _ _ Hsel). cbn [negb].
  destruct (select_link_In _ _ _ Hsel) as [Hin Hid].
  pose proof (ok_links d Hok) as Hl. rewrite Forall_forall in Hl.
  rewrite (Hl l Hin). cbn [negb].
  match goal with |- context [existsb ?f ?rows] =>
    destruct (existsb f rows) eqn:E end; [|reflexivity].
  exfalso. apply existsb_exists in E as (l0 & Hin0 & Hc).
  apply andb_true_iff in Hc as [Hhit Hc]. apply String.eqb_eq in Hhit.
  apply existsb_exists in Hc as (l' & Hin' & Hc).
  apply andb_true_iff in Hc as [Hmiss Hsame].
  assert (l0 = l).
  { apply (NoDup_map_eq ln_id (element_links d)); auto using ok_links_pk. congruence. }
  subst l0.
  assert (l' = l).
  { apply (NoDup_map_eq triple (element_links d)); auto using ok_links_uq.
    unfold Sql.same_triple in Hsame.
    apply andb_true_iff in Hsame as [Hsame H3].
    apply andb_true_iff in Hsame as [H1 H2].
    apply String.eqb_eq in H1, H2, H3. unfold triple. congruence. }
  subst l'. rewrite Hid, String.eqb_refl in Hmiss. discriminate.
Qed.

Lemma new_note_eq note l :
  Py.or_else (match note with
              | Some n => Some n
              | None => Some (ln_note l)
              end) "" = kept_note note l.
Proof.
  unfold kept_note, Py.or_else, Py.truthy.
  destruct note as [n|].
  - destruct (n =? "") eqn:E; [|reflexivity]. apply String.eqb_eq in E. now subst.
  - destruct (ln_note l =? "") eqn:E; [|reflexivity].
    apply String.eqb_eq in E. now rewrite E.
Qed.

(** C8, as the code has it.  For a link of the store:
    - without [rel], [update_link] never consults the validator: it
      returns [True] and the row keeps its relation and endpoints, takes
      the note (when one is given) and the time of the call;
    - with [rel], valid among the seven, the validator is run on the
      link's own endpoints and the given relation, also when that relation
      is the one the link already has: an error of the validator is the
      error of [update_link], and the state is untouched; when the
      validator accepts, the call ends as its [UPDATE] statement does. *)
Theorem update_link_revalidation (p : process) (link_id : string) (l : element_link) :
  db_ok (db (conn p)) ->
  Sql.select_link link_id (db (conn p)) = Some l ->
  (forall note,
     let r := update_link link_id None note p in
     fst r = Ok true /\
     fst (get_link link_id (snd r)) =
     Ok (Some (Sql.set_link (ln_rel l) (kept_note note l) (clock p 0) l))) /\
  (forall rel note e,
     Py.mem rel LINK_RELATIONS = true ->
     fst (validate_link_semantics (ln_src_id l) (ln_dst_id l) rel p) = Raise e ->
     update_link link_id (Some rel) note p = (Raise e, p)) /\
  (forall rel note,
     Py.mem rel LINK_RELATIONS = false ->
     update_link link_id (Some rel) note p = (Raise (ValueError (Invalid_rel rel)), p)) /\
  (forall rel note,
     validate_link_semantics (ln_src_id l) (ln_dst_id l) rel p = (Ok tt, p) ->
     fst (update_link link_id (Some rel) note p) =
     result_map (fun _ => true)
       (Sql.update_element_link rel (kept_note note l) (clock p 0) link_id
          (db (conn p)))).
Proof.
  intros Hok Hsel. split; [|split; [|split]].
  - intros note r.
    assert (Hr : r = (Ok true,
                      with_conn
                        (mk_process (conn p) (fun n => clock p (S n)) (entropy p))
                        (let d := mk_database (elements (db (conn p)))
                                    (element_tags (db (conn p)))
                                    (map (fun l0 =>
                                            if ln_id l0 =? link_id
                                            then Sql.set_link (ln_rel l)
                                                   (kept_note note l) (clock p 0) l0
                                            else l0)
                                       (element_links (db (conn p)))) in
                         mk_connection d d))).
    { unfold r, update_link, bind, query, ret, now_utc_iso, execute, commit.
      rewrite Hsel. cbn [conn db]. rewrite new_note_eq.
      now rewrite (update_element_link_same_rel _ _ _ _ _ Hok Hsel). }
    rewrite Hr. split; [reflexivity|].
    unfold get_link, query, Sql.select_link.
    cbn [fst snd conn db element_links with_conn].
    rewrite (find_map_rows ln_id) by reflexivity.
    unfold Sql.select_link in Hsel. now rewrite Hsel.
  - intros rel note e Hrel Hval.
    unfold update_link. unfold bind at 1, query at 1. rewrite Hsel.
    rewrite (bind_ok _ _ p rel p) by (unfold lift; now rewrite validate_rel_ok).
    apply bind_raise. rewrite validate_link_semantics_eq. now rewrite Hval.
  - intros rel note Hrel.
    unfold update_link. unfold bind at 1, query at 1. rewrite Hsel.
    apply bind_raise. unfold lift. now rewrite validate_rel_raise.
  - intros rel note Hval.
    assert (Hrel : Py.mem rel LINK_RELATIONS = true).
    { destruct (Py.mem rel LINK_RELATIONS) eqn:E; [reflexivity|].
      unfold validate_link_semantics in Hval.
      rewrite (bind_raise _ _ p (ValueError (Invalid_rel rel)) p) in Hval
        by (unfold lift; now rewrite validate_rel_raise).
      discriminate. }
    unfold update_link. unfold bind at 1, query at 1. rewrite Hsel.
    rewrite (bind_ok _ _ p rel p) by (unfold lift; now rewrite validate_rel_ok).
    rewrite (bind_ok _ _ p tt p Hval).
    erewrite bind_ok by reflexivity.
    rewrite new_note_eq.
    unfold bind, execute, commit, ret. cbn [conn db].
    destruct (Sql.update_element_link _ _ _ _ _) as [[n d]|e]; reflexivity.
Qed.

(** ** Tags: normalization, replacement, listing *)

Section OrderBy.

Context {A : Type} (le : A -> A -> bool).
Hypothesis le_total : forall a b, le a b = true \/ le b a = true.

Lemma insert_sorted_perm x l : Permutation (Sql.insert_sorted le x l) (x :: l).
Proof.
  induction l as [|y l IH]; simpl; [reflexivity|].
  destruct (le x y); [reflexivity|].
  rewrite IH. apply perm_swap.
Qed.

Lemma order_by_perm l : Permutation (Sql.order_by le l) l.
Proof.
  induction l as [|x l IH]; simpl; [constructor|].
  rewrite insert_sorted_perm. now constructor.
Qed.

Lemma insert_sorted_sorted x l :
  Sorted (fun a b => le a b = true) l ->
  Sorted (fun a b => le a b = true) (Sql.insert_sorted le x l).
Proof.
  induction 1 as [|y l Hs IH Hhd]; simpl; [repeat constructor|].
  destruct (le x y) eqn:E.
  - repeat constructor; assumption.
  - constructor; [exact IH|].
    destruct (le_total x y) as [Hxy|Hyx]; [congruence|].
    destruct Hhd as [|z l Hyz]; simpl.
    + now constructor.
    + destruct (le x z); now constructor.
Qed.

Lemma order_by_sorted l : Sorted (fun a b => le a b = true) (Sql.order_by le l).
Proof.
  induction l as [|x l IH]; simpl; [constructor|].
  now apply insert_sorted_sorted.
Qed.

End OrderBy.

Lemma leb_ne_ltb a b : String.leb a b = true -> a <> b -> String.ltb a b = true.
Proof.
  unfold String.leb, String.ltb. intros Hle Hne.
  destruct (String.compare a b) eqn:E; try reflexivity; try discriminate.
  apply String.compare_eq_iff in E. contradiction.
Qed.

Lemma sorted_nodup_ascending l :
  Sorted (fun a b => String.leb a b = true) l -> NoDup l -> ascending l.
Proof.
  unfold ascending.
  induction 1 as [|a l Hs IH Hhd]; intros Hnd; constructor.
  - apply IH. now inversion Hnd.
  - inversion Hnd as [|? ? Hn _]; subst.
    destruct Hhd as [|b l Hab]; constructor.
    apply leb_ne_ltb; [assumption|].
    intros ->. apply Hn. now left.
Qed.

Lemma first_seen_In norm seen t :
  In t (first_seen norm seen) <-> In t norm /\ ~ In t seen.
Proof.
  revert seen. induction norm as [|x norm IH]; intros seen; simpl; [tauto|].
  destruct (Py.mem x seen) eqn:E; cbn [negb].
  - rewrite IH. apply mem_In in E. split.
    + tauto.
    + intros [[<-|H] Hn]; tauto.
  - apply mem_false_not_In in E. simpl. rewrite IH. simpl. split.
    + intros [<-|[H Hn]]; tauto.
    + intros [[<-|H] Hn]; [tauto|].
      destruct (string_dec x t); tauto.
Qed.

Lemma first_seen_NoDup norm seen : NoDup (first_seen norm seen).
Proof.
  revert seen. induction norm as [|x norm IH]; intros seen; simpl; [constructor|].
  destruct (Py.mem x seen); cbn [negb]; [apply IH|].
  constructor; [|apply IH].
  rewrite first_seen_In. simpl. tauto.
Qed.

Lemma normalize_each_ok tags :
  Forall tag_ok tags -> normalize_each tags = Ok (map Py.strip tags).
Proof.
  induction 1 as [|t tags [Ht Hlen] _ IH]; simpl; [reflexivity|].
  unfold _normalize_tag. rewrite Ht. cbn [negb].
  destruct (128 <? String.length (Py.strip t))%nat eqn:E.
  - apply Nat.ltb_lt in E. lia.
  - now rewrite IH.
Qed.

Lemma _normalize_tags_ok tags :
  Forall tag_ok tags ->
  _normalize_tags tags = Ok (first_seen (map Py.strip tags) []).
Proof.
  intros H. unfold _normalize_tags. now rewrite normalize_each_ok.
Qed.

(** A tag list that [_normalize_tags] rejects: the two errors. *)
Lemma _normalize_tags_raise tags e :
  _normalize_tags tags = Raise e ->
  e = ValueError tag_is_empty \/ e = ValueError tag_too_long.
Proof.
  unfold _normalize_tags.
  assert (H : forall e, normalize_each tags = Raise e ->
                        e = ValueError tag_is_empty \/ e = ValueError tag_too_long).
  { induction tags as [|t tags IH]; simpl; intros e0; [discriminate|].
    unfold _normalize_tag at 1.
    destruct (negb (Py.truthy (Py.strip t))); [intros H; inversion H; auto|].
    destruct (128 <? _)%nat; [intros H; inversion H; auto|].
    destruct (normalize_each tags); [discriminate|].
    intros H. inversion H; subst. now apply IH. }
  destruct (normalize_each tags); [discriminate|].
  intros H0. inversion H0; subst. now apply H.
Qed.

Lemma tag_exists_snoc d r element_id t :
  Sql.tag_exists
    (mk_database (elements d) (element_tags d ++ [r]) (element_links d)) element_id t
  = Sql.tag_exists d element_id t
    || ((et_element_id r =? element_id) && (et_tag r =? t)).
Proof.
  unfold Sql.tag_exists. cbn [element_tags]. rewrite existsb_app. simpl.
  now rewrite orb_false_r.
Qed.

(** The [INSERT] loop of [set_tags] on distinct tags none of which the
    element has. *)
Lemma insert_loop_ok element_id ts norm : forall p,
  Sql.element_exists (db (conn p)) element_id = true ->
  NoDup norm ->
  (forall t, In t norm -> Sql.tag_exists (db (conn p)) element_id t = false) ->
  for_each norm
    (fun t => execute (Sql.insert_element_tag (mk_element_tag element_id t ts)) ;;;
              ret tt) p
  = (Ok tt,
     with_conn p
       (mk_connection
          (mk_database (elements (db (conn p)))
             (element_tags (db (conn p))
              ++ map (fun t => mk_element_tag element_id t ts) norm)
             (element_links (db (conn p))))
          (committed (conn p)))).
Proof.
  induction norm as [|t norm IH]; intros p Hex Hnd Hfresh.
  - simpl. unfold ret. rewrite app_nil_r.
    destruct p as [[[e t l] c] k r]. reflexivity.
  - cbn [for_each]. unfold bind at 1. unfold bind at 1, execute at 1.
    unfold Sql.insert_element_tag. cbn [et_element_id et_tag].
    rewrite (Hfresh t) by now left. rewrite Hex. cbn [negb ret].
    inversion Hnd as [|? ? Hn Hnd']; subst.
    rewrite IH; clear IH; cbn [conn db with_conn elements element_tags element_links
                                committed clock entropy]; try assumption.
    + unfold with_conn. cbn. now rewrite <- app_assoc.
    + intros t' Ht'. rewrite tag_exists_snoc. cbn [et_element_id et_tag].
      rewrite (Hfresh t') by now right.
      destruct (t =? t') eqn:E; [|now rewrite andb_false_r].
      apply String.eqb_eq in E. subst. contradiction.
Qed.

Lemma tag_exists_after_delete d element_id t :
  Sql.tag_exists
    (mk_database (elements d)
       (filter (fun r => negb (et_element_id r =? element_id)) (element_tags d))
       (element_links d)) element_id t = false.
Proof.
  unfold Sql.tag_exists. cbn [element_tags].
  destruct (existsb _ _) eqn:E; [|reflexivity].
  apply existsb_exists in E as (r & Hin & Hr).
  apply filter_In in Hin as [_ Hne].
  apply andb_true_iff in Hr as [Hr _]. rewrite Hr in Hne. discriminate.
Qed.

(** What [set_tags] does on an element of the store when the tag list
    normalizes to [norm]. *)
Lemma set_tags_ok element_id tags norm p :
  Sql.element_exists (db (conn p)) element_id = true ->
  _normalize_tags tags = Ok norm ->
  NoDup norm ->
  set_tags element_id tags p =
  (Ok tt,
   mk_process
     (let d := tags_replaced element_id (clock p 0) norm (db (conn p)) in
      mk_connection d d)
     (fun n => clock p (S n)) (entropy p)).
Proof.
  intros Hex Hnorm Hnd. unfold set_tags.
  rewrite (bind_ok _ _ p norm p) by (unfold lift; now rewrite Hnorm).
  erewrite bind_ok by reflexivity.
  erewrite bind_ok by reflexivity.
  erewrite bind_ok.
  2:{ apply insert_loop_ok; cbn [conn db with_conn elements element_tags
                                 element_links]; auto.
      intros t _. apply tag_exists_after_delete. }
  reflexivity.
Qed.

Lemma select_tags_replaced element_id ts norm d :
  Sql.select_tags element_id (tags_replaced element_id ts norm d)
  = Sql.order_by String.leb norm.
Proof.
  unfold Sql.select_tags, tags_replaced. cbn [element_tags]. f_equal.
  rewrite filter_app, map_app.
  assert (H1 : filter (fun r => et_element_id r =? element_id)
                 (filter (fun r => negb (et_element_id r =? element_id))
                    (element_tags d)) = []).
  { induction (element_tags d) as [|r rows IH]; simpl; [reflexivity|].
    destruct (et_element_id r =? element_id) eqn:E; simpl; [exact IH|].
    now rewrite E. }
  rewrite H1. simpl.
  induction norm as [|t norm IH]; simpl; [reflexivity|].
  rewrite String.eqb_refl. simpl. now rewrite IH.
Qed.

Lemma select_tags_other element_id other ts norm d :
  other <> element_id ->
  Sql.select_tags other (tags_replaced element_id ts norm d)
  = Sql.select_tags other d.
Proof.
  intros Hne. unfold Sql.select_tags, tags_replaced. cbn [element_tags]. f_equal.
  rewrite filter_app, map_app.
  assert (H2 : filter (fun r => et_element_id r =? other)
                 (map (fun t => mk_element_tag element_id t ts) norm) = []).
  { induction norm as [|t norm IH]; simpl; [reflexivity|].
    apply not_eq_sym in Hne. apply String.eqb_neq in Hne. now rewrite Hne. }
  rewrite H2, app_nil_r. f_equal.
  induction (element_tags d) as [|r rows IH]; simpl; [reflexivity|].
  destruct (et_element_id r =? element_id) eqn:E; simpl.
  - apply String.eqb_eq in E. rewrite E.
    apply not_eq_sym in Hne. apply String.eqb_neq in Hne. now rewrite Hne.
  - destruct (et_element_id r =? other); now rewrite IH.
Qed.

(** C4.  On an element of the store and a list of tags each of which
    [_normalize_tag] accepts, [set_tags] returns, and [list_tags] then
    gives the trimmed tags, each once, in strictly ascending order. *)
Theorem set_tags_then_list_tags (p : process) (element_id : string)
    (tags : list string) :
  Sql.element_exists (db (conn p)) element_id = true ->
  Forall tag_ok tags ->
  fst (set_tags element_id tags p) = Ok tt /\
  exists l,
    fst (list_tags element_id (snd (set_tags element_id tags p))) = Ok l /\
    ascending l /\
    NoDup l /\
    (forall t, In t l <-> exists u, In u tags /\ t = Py.strip u).
Proof.
  intros Hex Hok.
  rewrite (set_tags_ok element_id tags _ p Hex (_normalize_tags_ok tags Hok)
             (first_seen_NoDup _ _)).
  split; [reflexivity|].
  exists (Sql.order_by String.leb (first_seen (map Py.strip tags) [])).
  unfold list_tags, query. cbn [fst snd conn db].
  rewrite select_tags_replaced.
  pose proof (order_by_perm String.leb (first_seen (map Py.strip tags) [])) as Hperm.
  assert (Hnd : NoDup (Sql.order_by String.leb (first_seen (map Py.strip tags) []))).
  { apply (Permutation_NoDup (Permutation_sym Hperm)). apply first_seen_NoDup. }
  repeat split.
  - apply sorted_nodup_ascending; [|exact Hnd].
    apply order_by_sorted. apply String.leb_total.
  - exact Hnd.
  - intros Hin. apply (Permutation_in _ Hperm) in Hin.
    apply first_seen_In in Hin as [Hin _].
    apply in_map_iff in Hin as (u & Hu & Hin). now exists u.
  - intros (u & Hin & ->). apply (Permutation_in _ (Permutation_sym Hperm)).
    apply first_seen_In. split; [now apply in_map | simpl; tauto].
Qed.

(** The round trip of the specification: [" c "] is trimmed, the second
    ["a"] is dropped, the answer is sorted. *)
Example set_tags_abc :
  fst ((set_tags "t" [ "a"; "b"; "a"; " c " ] ;;; list_tags "t") example_process)
  = Ok [ "a"; "b"; "c" ].
Proof. vm_compute. reflexivity. Qed.

Lemma set_tags_then_list_tags_witness :
  fst (set_tags "t" [ "b"; " a "; "b" ] example_process) = Ok tt /\
  exists l,
    fst (list_tags "t" (snd (set_tags "t" [ "b"; " a "; "b" ] example_process)))
      = Ok l /\
    ascending l /\
    NoDup l /\
    (forall t, In t l <-> exists u, In u [ "b"; " a "; "b" ] /\ t = Py.strip u).
Proof.
  apply (set_tags_then_list_tags example_process "t" [ "b"; " a "; "b" ]).
  - vm_compute. reflexivity.
  - repeat constructor; vm_compute; lia.
Defined.

(** ** Creating an element, then reading it *)

Lemma insert_element_ok r d :
  Py.mem (el_type r) ELEMENT_TYPES = true ->
  Py.mem (el_format r) FORMATS = true ->
  Sql.element_exists d (el_id r) = false ->
  Sql.insert_element r d =
  Ok (1%Z, mk_database (elements d ++ [r]) (element_tags d) (element_links d)).
Proof.
  intros H1 H2 H3. unfold Sql.insert_element. now rewrite H1, H2, H3.
Qed.

Lemma element_exists_snoc d r :
  Sql.element_exists
    (mk_database (elements d ++ [r]) (element_tags d) (element_links d)) (el_id r)
  = true.
Proof.
  unfold Sql.element_exists. cbn [elements]. rewrite existsb_app. simpl.
  now rewrite String.eqb_refl, orb_true_r.
Qed.

Lemma tags_valid_normalize (tags : option (list string)) :
  (forall ts, tags = Some ts -> Forall tag_ok ts) ->
  forall ts, tags = Some ts ->
    _normalize_tags ts = Ok (first_seen (map Py.strip ts) []).
Proof. intros H ts Hts. apply _normalize_tags_ok. now apply H. Qed.

(** The state [create_element] leaves when every check passes. *)
Lemma create_element_ok p type title body format tags id :
  Py.mem type ELEMENT_TYPES = true ->
  Py.mem format FORMATS = true ->
  nonblank title ->
  nonblank body ->
  (forall ts, tags = Some ts -> Forall tag_ok ts) ->
  Sql.element_exists (db (conn p)) (chosen_id id p) = false ->
  let r := create_element type title body format tags id p in
  fst r = Ok (chosen_id id p) /\
  elements (db (conn (snd r))) =
    elements (db (conn p)) ++ [new_element type title body format id p] /\
  element_links (db (conn (snd r))) = element_links (db (conn p)) /\
  committed (conn (snd r)) = db (conn (snd r)) /\
  Sql.select_tags (chosen_id id p) (db (conn (snd r))) =
    match tags with
    | Some ts => Sql.order_by String.leb (first_seen (map Py.strip ts) [])
    | None => Sql.select_tags (chosen_id id p) (db (conn p))
    end.
Proof.
  intros Htype Hformat Htitle Hbody Htags Hfresh r. subst r.
  unfold create_element.
  rewrite (bind_ok _ _ p type p)
    by (unfold lift, validate_type; now rewrite Htype).
  rewrite (bind_ok _ _ p format p)
    by (unfold lift, validate_format; now rewrite Hformat).
  unfold nonblank in Htitle, Hbody. rewrite Htitle, Hbody. cbn [negb].
  unfold new_element. revert Hfresh. unfold chosen_id.
  destruct (Py.truthy_opt id); intros Hfresh.
  - erewrite bind_ok by reflexivity.
    erewrite bind_ok by reflexivity.
    erewrite bind_ok.
    2:{ unfold execute. cbn [conn db]. rewrite insert_element_ok by assumption.
        reflexivity. }
    destruct tags as [ts|].
    + erewrite bind_ok.
      2:{ apply set_tags_ok;
            [ apply element_exists_snoc with (r := mk_element _ _ _ _ _ _ _)
            | now apply (tags_valid_normalize (Some ts))
            | apply first_seen_NoDup ]. }
      cbn [fst snd conn db]. repeat split; try reflexivity.
      apply select_tags_replaced.
    + cbn [fst snd conn db]. repeat split; reflexivity.
  - erewrite bind_ok by reflexivity.
    erewrite bind_ok by reflexivity.
    erewrite bind_ok.
    2:{ unfold execute. cbn [conn db]. rewrite insert_element_ok by assumption.
        reflexivity. }
    destruct tags as [ts|].
    + erewrite bind_ok.
      2:{ apply set_tags_ok;
            [ apply element_exists_snoc with (r := mk_element _ _ _ _ _ _ _)
            | now apply (tags_valid_normalize (Some ts))
            | apply first_seen_NoDup ]. }
      cbn [fst snd conn db]. repeat split; try reflexivity.
      apply select_tags_replaced.
    + cbn [fst snd conn db]. repeat split; reflexivity.
Qed.

(** C5.  For a type among the eleven, a format among the four, a title
    and a body with a character that is not white space (and, when tags
    are passed, tags that normalize; the id not yet in the table),
    [create_element] returns the id, and [get_element] on that id returns
    a row with the type, title, body and format supplied, whose created_at
    and updated_at are both the time of the call. *)
Theorem create_then_get (p : process) (type title body format : string)
    (tags : option (list string)) (id : option string) :
  Py.mem type ELEMENT_TYPES = true ->
  Py.mem format FORMATS = true ->
  nonblank title ->
  nonblank body ->
  (forall ts, tags = Some ts -> Forall tag_ok ts) ->
  Sql.element_exists (db (conn p)) (chosen_id id p) = false ->
  let r := create_element type title body format tags id p in
  fst r = Ok (chosen_id id p) /\
  exists d,
    fst (get_element (chosen_id id p) true (snd r)) = Ok (Some d) /\
    el_id (row d) = chosen_id id p /\
    el_type (row d) = type /\
    el_title (row d) = title /\
    el_body (row d) = body /\
    el_format (row d) = format /\
    el_created_at (row d) = el_updated_at (row d) /\
    el_created_at (row d) = clock p 0.
Proof.
  intros Htype Hformat Htitle Hbody Htags Hfresh r.
  destruct (create_element_ok p type title body format tags id
              Htype Hformat Htitle Hbody Htags Hfresh)
    as (Hfst & Hel & _ & _ & _).
  fold r in Hfst, Hel. split; [exact Hfst|].
  exists (mk_element_dict (new_element type title body format id p)
            (Some (Sql.select_tags (chosen_id id p) (db (conn (snd r)))))).
  split; [|repeat split].
  unfold get_element, bind, query, list_tags, ret, Sql.select_element.
  rewrite Hel, find_snoc; [reflexivity | exact Hfresh |].
  unfold new_element. cbn [el_id]. apply String.eqb_refl.
Qed.

Lemma create_then_get_witness :
  let r := create_element "lemma" "Zorn" " every chain ... " "latex"
             (Some [ "order"; " choice " ]) None example_process in
  fst r = Ok "u0" /\
  exists d,
    fst (get_element "u0" true (snd r)) = Ok (Some d) /\
    el_id (row d) = "u0" /\
    el_type (row d) = "lemma" /\
    el_title (row d) = "Zorn" /\
    el_body (row d) = " every chain ... " /\
    el_format (row d) = "latex" /\
    el_created_at (row d) = el_updated_at (row d) /\
    el_created_at (row d) = clock example_process 0.
Proof.
  apply (create_then_get example_process "lemma" "Zorn" " every chain ... " "latex"
           (Some [ "order"; " choice " ]) None); try (vm_compute; reflexivity).
  intros ts Hts. inversion Hts; subst.
  repeat constructor; vm_compute; lia.
Defined.

(** ** Partial updates of an element *)

Lemma element_exists_updated d upd id id' tags links :
  (forall e, el_id (upd e) = el_id e) ->
  Sql.element_exists
    (mk_database (map (fun e => if el_id e =? id then upd e else e) (elements d))
       tags links) id'
  = Sql.element_exists d id'.
Proof.
  intros Hk. unfold Sql.element_exists. cbn [elements].
  induction (elements d) as [|e rows IH]; simpl; [reflexivity|].
  rewrite IH. destruct (el_id e =? id); now rewrite ?Hk.
Qed.

Lemma update_element_stmt_ok type format title body ts id d e :
  Sql.select_element id d = Some e ->
  Py.mem type ELEMENT_TYPES = true ->
  Py.mem format FORMATS = true ->
  Sql.update_element type format title body ts id d =
  Ok (Z.of_nat (List.length (filter (fun e => el_id e =? id) (elements d))),
      mk_database
        (map (fun e => if el_id e =? id
                       then Sql.set_element type format title body ts e
                       else e) (elements d))
        (element_tags d) (element_links d)).
Proof.
  intros Hsel Ht Hf. unfold Sql.update_element.
  rewrite (find_existsb _ _ _ Hsel), Ht, Hf. reflexivity.
Qed.

(** The state [update_element] leaves when every check passes. *)
Lemma update_element_ok p element_id e type title body format tags :
  Sql.select_element element_id (db (conn p)) = Some e ->
  Py.mem (supplied type (el_type e)) ELEMENT_TYPES = true ->
  Py.mem (supplied format (el_format e)) FORMATS = true ->
  nonblank (supplied title (el_title e)) ->
  nonblank (supplied body (el_body e)) ->
  (forall ts, tags = Some ts -> Forall tag_ok ts) ->
  let r := update_element element_id type title body format tags p in
  fst r = Ok true /\
  Sql.select_element element_id (db (conn (snd r))) =
    Some (Sql.set_element (supplied type (el_type e)) (supplied format (el_format e))
            (supplied title (el_title e)) (supplied body (el_body e))
            (clock p 0) e) /\
  Sql.select_tags element_id (db (conn (snd r))) =
    match tags with
    | Some ts => Sql.order_by String.leb (first_seen (map Py.strip ts) [])
    | None => Sql.select_tags element_id (db (conn p))
    end.
Proof.
  intros Hsel Htype Hformat Htitle Hbody Htags r. subst r.
  unfold update_element.
  rewrite (bind_ok _ _ p (Some e) p) by (unfold query; now rewrite Hsel).
  rewrite (bind_ok _ _ p (supplied type (el_type e)) p).
  2:{ destruct type as [t|]; [|reflexivity].
      unfold lift, validate_type. cbn [supplied] in Htype. now rewrite Htype. }
  rewrite (bind_ok _ _ p (supplied format (el_format e)) p).
  2:{ destruct format as [f|]; [|reflexivity].
      unfold lift, validate_format. cbn [supplied] in Hformat. now rewrite Hformat. }
  fold (supplied title (el_title e)). fold (supplied body (el_body e)).
  unfold nonblank in Htitle, Hbody. rewrite Htitle, Hbody. cbn [negb].
  erewrite bind_ok by reflexivity.
  erewrite bind_ok.
  2:{ unfold execute. cbn [conn db].
      rewrite (update_element_stmt_ok _ _ _ _ _ _ _ e) by assumption.
      reflexivity. }
  assert (Hfind : forall tg lk,
            Sql.select_element element_id
              (mk_database
                 (map (fun e0 => if el_id e0 =? element_id
                                 then Sql.set_element (supplied type (el_type e))
                                        (supplied format (el_format e))
                                        (supplied title (el_title e))
                                        (supplied body (el_body e)) (clock p 0) e0
                                 else e0) (elements (db (conn p)))) tg lk)
            = Some (Sql.set_element (supplied type (el_type e))
                      (supplied format (el_format e))
                      (supplied title (el_title e)) (supplied body (el_body e))
                      (clock p 0) e)).
  { intros tg lk. unfold Sql.select_element. cbn [elements].
    rewrite (find_map_rows el_id) by reflexivity.
    unfold Sql.select_element in Hsel. now rewrite Hsel. }
  destruct tags as [ts|].
  - erewrite bind_ok.
    2:{ apply set_tags_ok;
          [ cbn [conn db with_conn];
            rewrite element_exists_updated by reflexivity;
            now apply (select_element_exists _ _ e)
          | now apply (tags_valid_normalize (Some ts))
          | apply first_seen_NoDup ]. }
    cbn [fst snd conn db with_conn bind commit ret]. repeat split.
    + apply Hfind.
    + apply select_tags_replaced.
  - cbn [fst snd conn db with_conn bind commit ret]. repeat split.
    apply Hfind.
Qed.

Lemma get_element_found element_id q r :
  Sql.select_element element_id (db (conn q)) = Some r ->
  fst (get_element element_id true q) =
  Ok (Some (mk_element_dict r (Some (Sql.select_tags element_id (db (conn q)))))).
Proof.
  intros H. unfold get_element, bind, query, list_tags, ret. now rewrite H.
Qed.

(** C7.  On an element of a store that satisfies the invariants:
    [update_element] with no field returns [True] and leaves type, format,
    title, body, created_at and the tags as they were, while updated_at
    becomes the time of the call; and in any update that passes the checks
    each of type, format, title, body that is not supplied keeps its value,
    the tags are kept when [tags] is not supplied, id and created_at are
    kept, updated_at is the time of the call. *)
Theorem update_element_keeps_unsupplied (p : process) (element_id : string)
    (e : element) :
  db_ok (db (conn p)) ->
  Sql.select_element element_id (db (conn p)) = Some e ->
  (let r := update_element element_id None None None None None p in
   fst r = Ok true /\
   fst (get_element element_id true (snd r)) =
   Ok (Some (mk_element_dict
               (mk_element (el_id e) (el_type e) (el_format e) (el_title e)
                  (el_body e) (el_created_at e) (clock p 0))
               (Some (Sql.select_tags element_id (db (conn p))))))) /\
  (forall type title body format new_tags,
     Py.mem (supplied type (el_type e)) ELEMENT_TYPES = true ->
     Py.mem (supplied format (el_format e)) FORMATS = true ->
     nonblank (supplied title (el_title e)) ->
     nonblank (supplied body (el_body e)) ->
     (forall ts, new_tags = Some ts -> Forall tag_ok ts) ->
     let r := update_element element_id type title body format new_tags p in
     fst r = Ok true /\
     exists d,
       fst (get_element element_id true (snd r)) = Ok (Some d) /\
       el_id (row d) = el_id e /\
       el_created_at (row d) = el_created_at e /\
       el_updated_at (row d) = clock p 0 /\
       el_type (row d) = supplied type (el_type e) /\
       el_format (row d) = supplied format (el_format e) /\
       el_title (row d) = supplied title (el_title e) /\
       el_body (row d) = supplied body (el_body e) /\
       (new_tags = None ->
        tags d = Some (Sql.select_tags element_id (db (conn p))))).
Proof.
  intros Hok Hsel.
  destruct (select_element_In _ _ _ Hsel) as [Hin _].
  destruct (db_ok_element _ _ Hok Hin) as (Ht & Hf & Hti & Hbo).
  split.
  - intros r.
    destruct (update_element_ok p element_id e None None None None None Hsel
                Ht Hf Hti Hbo) as (Hfst & Hrow & Htags); [discriminate|].
    fold r in Hfst, Hrow, Htags. split; [exact Hfst|].
    rewrite (get_element_found _ _ _ Hrow), Htags. reflexivity.
  - intros type title body format new_tags Htype Hformat Htitle Hbody Hnew r.
    destruct (update_element_ok p element_id e type title body format new_tags
                Hsel Htype Hformat Htitle Hbody Hnew) as (Hfst & Hrow & Htags).
    fold r in Hfst, Hrow, Htags. split; [exact Hfst|].
    eexists. split; [apply (get_element_found _ _ _ Hrow)|].
    cbn [row tags]. repeat split.
    intros ->. now rewrite Htags.
Qed.

Lemma update_element_keeps_unsupplied_witness :
  (fst (update_element "t" None None None None None example_process) = Ok true /\
   fst (get_element "t" true
          (snd (update_element "t" None None None None None example_process)))
   = Ok (Some (mk_element_dict
                 (mk_element "t" "theorem" "plain" "T" "statement" "0" "3")
                 (Some [])))) /\
  (fst (update_element "t" (Some "lemma") None None None None example_process)
   = Ok true /\
   exists d,
     fst (get_element "t" true
            (snd (update_element "t" (Some "lemma") None None None None
                    example_process))) = Ok (Some d) /\
     el_id (row d) = "t" /\
     el_created_at (row d) = "0" /\
     el_updated_at (row d) = "3" /\
     el_type (row d) = "lemma" /\
     el_format (row d) = "plain" /\
     el_title (row d) = "T" /\
     el_body (row d) = "statement" /\
     (@None (list string) = None -> tags d = Some [])).
Proof.
  assert (Hok : db_ok (db (conn example_process))).
  { constructor; vm_compute; repeat constructor; simpl; intuition discriminate. }
  assert (Hsel : Sql.select_element "t" (db (conn example_process))
                 = Some (mk_element "t" "theorem" "plain" "T" "statement" "0" "0"))
    by (vm_compute; reflexivity).
  destruct (update_element_keeps_unsupplied example_process "t" _ Hok Hsel)
    as [Hnone Hsome].
  split; [exact Hnone|].
  apply (Hsome (Some "lemma") None None None None);
    try (vm_compute; reflexivity).
  discriminate.
Defined.

(** ** Validation before mutation *)

(** The tag calls normalize before their first statement: a rejected tag
    list leaves the state as it was. *)
Lemma tag_calls_fail_fast element_id tags e p :
  _normalize_tags tags = Raise e ->
  set_tags element_id tags p = (Raise e, p) /\
  add_tags element_id tags p = (Raise e, p) /\
  remove_tags element_id tags p = (Raise e, p).
Proof.
  intros H. unfold set_tags, add_tags, remove_tags.
  repeat split; apply bind_raise; unfold lift; now rewrite H.
Qed.

(** So do [create_element] and [update_element] for the type, the format,
    the title and the body. *)
Lemma create_element_field_errors type title body format tags id p :
  Py.mem type ELEMENT_TYPES = false \/ Py.mem format FORMATS = false \/
  Py.truthy (Py.strip title) = false \/ Py.truthy (Py.strip body) = false ->
  exists e, create_element type title body format tags id p = (Raise e, p).
Proof.
  intros H. unfold create_element, bind, lift, validate_type, validate_format, raise.
  destruct (Py.mem type ELEMENT_TYPES); cbn [negb]; [|eauto].
  destruct (Py.mem format FORMATS); cbn [negb]; [|eauto].
  destruct (Py.truthy (Py.strip title)); cbn [negb]; [|eauto].
  destruct (Py.truthy (Py.strip body)); cbn [negb]; [|eauto].
  intuition discriminate.
Qed.

(** With valid fields and a rejected tag list, [create_element] has run its
    [INSERT] by the time [set_tags] raises: the row is in the tables the
    connection sees. *)
Lemma create_element_rejected_tags p type title body format ts id e :
  Py.mem type ELEMENT_TYPES = true ->
  Py.mem format FORMATS = true ->
  nonblank title ->
  nonblank body ->
  Sql.element_exists (db (conn p)) (chosen_id id p) = false ->
  _normalize_tags ts = Raise e ->
  let r := create_element type title body format (Some ts) id p in
  fst r = Raise e /\
  elements (db (conn (snd r))) =
    elements (db (conn p)) ++ [new_element type title body format id p] /\
  committed (conn (snd r)) = committed (conn p).
Proof.
  intros Htype Hformat Htitle Hbody Hfresh Hnorm r. subst r.
  unfold create_element.
  rewrite (bind_ok _ _ p type p)
    by (unfold lift, validate_type; now rewrite Htype).
  rewrite (bind_ok _ _ p format p)
    by (unfold lift, validate_format; now rewrite Hformat).
  unfold nonblank in Htitle, Hbody. rewrite Htitle, Hbody. cbn [negb].
  unfold new_element. revert Hfresh. unfold chosen_id.
  destruct (Py.truthy_opt id); intros Hfresh;
    (erewrite bind_ok by reflexivity);
    (erewrite bind_ok by reflexivity);
    (erewrite bind_ok;
     [| unfold execute; cbn [conn db];
        rewrite insert_element_ok by assumption; reflexivity ]);
    (erewrite bind_raise;
     [| apply (proj1 (tag_calls_fail_fast _ _ _ _ Hnorm)) ]);
    repeat split.
Qed.

(** C1 at a failing input.  [create_element] on a new store with a valid
    theorem and the tag list [[" "]] raises "tag is empty", and the element
    row is there all the same: [get_element] on the same connection returns
    it, and the [commit] of the next call that succeeds makes it durable.
    [update_element] with a new title and the same tag list raises too, with
    the title already changed. *)
Theorem create_element_rejected_tags_leaves_row :
  let r := create_element "theorem" "T" "statement" "plain" (Some [ " " ])
             (Some "x") new_process in
  fst r = Raise (ValueError tag_is_empty) /\
  elements (db (conn new_process)) = [] /\
  fst (get_element "x" true (snd r)) =
    Ok (Some (mk_element_dict
                (mk_element "x" "theorem" "plain" "T" "statement" "0" "0")
                (Some []))) /\
  elements (committed (conn (snd r))) = [] /\
  (let r' := create_element "proof" "P" "argument" "plain" None (Some "y") (snd r) in
   fst r' = Ok "y" /\
   map el_id (elements (committed (conn (snd r')))) = [ "x"; "y" ]) /\
  (let u := update_element "t" None (Some "T2") None None (Some [ " " ])
              example_process in
   fst u = Raise (ValueError tag_is_empty) /\
   option_map el_title (Sql.select_element "t" (db (conn example_process)))
     = Some "T" /\
   option_map el_title (Sql.select_element "t" (db (conn (snd u)))) = Some "T2").
Proof. vm_compute. repeat split. Qed.

(** ** The statements above at the example tables *)

Lemma two_elements_ok : db_ok (db (conn two_elements)).
Proof.
  constructor; vm_compute; repeat constructor; simpl; intuition discriminate.
Defined.

Lemma example_process_ok : db_ok (db (conn example_process)).
Proof.
  constructor; vm_compute; repeat constructor; simpl; intuition discriminate.
Defined.

Lemma example_process_reachable : reachable example_process.
Proof. repeat apply reachable_run. apply reachable_connect. Defined.

Lemma validate_link_semantics_by_table_witness :
  validate_link_semantics "p" "t" "proves" two_elements = (Ok tt, two_elements) /\
  fst (create_link "p" "t" "proves" "" None two_elements) = Ok "u0" /\
  create_link "t" "p" "proves" "" None two_elements =
  (Raise (ValueError (rel_requires_src_type "proves" "theorem")), two_elements).
Proof.
  assert (Hrel : Py.mem "proves" LINK_RELATIONS = true) by reflexivity.
  assert (Hne : "p" <> "t") by discriminate.
  assert (Hs : Sql.select_element "p" (db (conn two_elements))
               = Some (mk_element "p" "proof" "plain" "P" "argument" "1" "1"))
    by (vm_compute; reflexivity).
  assert (Hd : Sql.select_element "t" (db (conn two_elements))
               = Some (mk_element "t" "theorem" "plain" "T" "statement" "0" "0"))
    by (vm_compute; reflexivity).
  destruct (validate_link_semantics_by_table two_elements "p" "t" "proves" _ _
              two_elements_ok Hrel Hne Hs Hd) as (Hiff & _ & Hgood & Hproves).
  destruct (Hproves eq_refl eq_refl) as [Hallow Hrev].
  split; [now apply Hiff|].
  split; [|apply Hrev].
  apply (Hgood Hallow "" None); vm_compute; reflexivity.
Defined.

Lemma duplicate_link_rejected_witness :
  NoDup (map triple (element_links (db (conn example_process)))) /\
  fst (get_link "L" example_process) =
    Ok (Some (mk_element_link "L" "p" "t" "proves" "" "2" "2")) /\
  fst (create_link "p" "t" "proves" "again" None example_process) =
    Raise (IntegrityError uq_links_src_dst_rel) /\
  conn (snd (create_link "p" "t" "proves" "again" None example_process)) =
    conn example_process.
Proof.
  destruct duplicate_link_rejected as [Hinv Hdup].
  split; [apply Hinv, example_process_reachable|].
  assert (Hc : create_link "p" "t" "proves" "" (Some "L") two_elements
               = (Ok "L", example_process)) by (vm_compute; reflexivity).
  destruct (Hdup _ _ _ _ _ _ _ _ Hc) as [Hget Hsecond].
  split; [exact Hget|].
  destruct (Hsecond "again" None) as (Hfst & _ & Hconn & _).
  split; assumption.
Defined.

Lemma update_link_revalidation_witness :
  fst (update_link "L" None (Some "by induction") example_process) = Ok true /\
  fst (get_link "L"
         (snd (update_link "L" None (Some "by induction") example_process))) =
    Ok (Some (mk_element_link "L" "p" "t" "proves" "by induction" "2" "3")) /\
  update_link "L" (Some "implies") None example_process =
    (Raise (ValueError (rel_requires_src_type "implies" "proof")), example_process).
Proof.
  assert (Hsel : Sql.select_link "L" (db (conn example_process))
                 = Some (mk_element_link "L" "p" "t" "proves" "" "2" "2"))
    by (vm_compute; reflexivity).
  destruct (update_link_revalidation example_process "L" _ example_process_ok Hsel)
    as (Hnote & Hrel & _ & _).
  destruct (Hnote (Some "by induction")) as [H1 H2].
  split; [exact H1|]. split; [exact H2|].
  apply Hrel; vm_compute; reflexivity.
Defined.

(** C8 as stated fails: on the link ["L"], whose relation is "proves" and
    whose source has become a remark, passing [rel="proves"] changes
    nothing in the relation and still runs the validator, which raises;
    the same update without [rel] goes through. *)
Lemma update_link_same_rel_revalidates :
  option_map ln_rel (Sql.select_link "L" (db (conn retyped_process))) = Some "proves" /\
  fst (update_link "L" (Some "proves") (Some "n") retyped_process) =
    Raise (ValueError (rel_requires_src_type "proves" "remark")) /\
  fst (update_link "L" None (Some "n") retyped_process) = Ok true.
Proof. vm_compute. repeat split. Qed.

(** ** Trimming and the canonical form of a tag *)

Lemma rstrip_idempotent s : Py.rstrip (Py.rstrip s) = Py.rstrip s.
Proof.
  induction s as [|c s IH]; [reflexivity|].
  cbn [Py.rstrip]. destruct (Py.rstrip s) as [|a r] eqn:E.
  - destruct (Py.isspace c) eqn:Ec; [reflexivity|].
    cbn [Py.rstrip]. now rewrite Ec.
  - cbn [Py.rstrip]. cbn [Py.rstrip] in IH. now rewrite IH.
Qed.

Lemma lstrip_no_leading_space s : no_leading_space (Py.lstrip s).
Proof.
  induction s as [|c s IH]; simpl; [exact I|].
  destruct (Py.isspace c) eqn:E; [exact IH | exact E].
Qed.

Lemma lstrip_fixed s : no_leading_space s -> Py.lstrip s = s.
Proof. destruct s as [|c s]; simpl; [reflexivity|]. now intros ->. Qed.

Lemma rstrip_no_leading_space s :
  no_leading_space s -> no_leading_space (Py.rstrip s).
Proof.
  destruct s as [|c s]; simpl; [trivial|]. intros Hc.
  destruct (Py.rstrip s); [now rewrite Hc | exact Hc].
Qed.

Lemma strip_idempotent s : Py.strip (Py.strip s) = Py.strip s.
Proof.
  unfold Py.strip.
  rewrite (lstrip_fixed (Py.rstrip (Py.lstrip s))).
  - apply rstrip_idempotent.
  - apply rstrip_no_leading_space, lstrip_no_leading_space.
Qed.

Lemma truthy_not_empty s : Py.truthy s = true <-> s <> "".
Proof.
  unfold Py.truthy. destruct (s =? "") eqn:E.
  - apply String.eqb_eq in E. split; [discriminate | contradiction].
  - apply String.eqb_neq in E. split; auto.
Qed.

Lemma _normalize_tag_inv tag n :
  _normalize_tag tag = Ok n ->
  n = Py.strip tag /\ n <> "" /\ (String.length n <= 128)%nat.
Proof.
  unfold _normalize_tag.
  destruct (Py.truthy (Py.strip tag)) eqn:Et; cbn [negb]; [|discriminate].
  destruct (128 <? String.length (Py.strip tag))%nat eqn:El; [discriminate|].
  intros H. inversion H; subst. repeat split.
  - now apply truthy_not_empty.
  - apply Nat.ltb_ge in El. exact El.
Qed.

Lemma _normalize_tag_fixed tag n :
  _normalize_tag tag = Ok n -> _normalize_tag n = Ok n.
Proof.
  intros H. destruct (_normalize_tag_inv _ _ H) as (-> & Hne & Hlen).
  unfold _normalize_tag. rewrite strip_idempotent.
  apply truthy_not_empty in Hne. rewrite Hne. cbn [negb].
  destruct (128 <? String.length (Py.strip tag))%nat eqn:El; [|reflexivity].
  apply Nat.ltb_lt in El. lia.
Qed.

(** X1.  What [_normalize_tag] returns is canonical: it has no white space
    at either end, is not empty, has at most 128 characters, and
    [_normalize_tag] returns it unchanged. *)
Theorem _normalize_tag_canonical (tag n : string) :
  _normalize_tag tag = Ok n ->
  Py.strip n = n /\ n <> "" /\ (String.length n <= 128)%nat /\
  _normalize_tag n = Ok n.
Proof.
  intros H. pose proof (_normalize_tag_fixed _ _ H) as Hfix.
  destruct (_normalize_tag_inv _ _ H) as (-> & Hne & Hlen).
  repeat split; try assumption. apply strip_idempotent.
Qed.

Lemma _normalize_tag_canonical_witness :
  Py.strip "number theory" = "number theory" /\ "number theory" <> "" /\
  (String.length "number theory" <= 128)%nat /\
  _normalize_tag "number theory" = Ok "number theory".
Proof.
  apply (_normalize_tag_canonical "  number theory  " "number theory").
  vm_compute. reflexivity.
Defined.

Lemma normalize_each_inv tags norm :
  normalize_each tags = Ok norm ->
  Forall2 (fun t n => _normalize_tag t = Ok n) tags norm.
Proof.
  revert norm. induction tags as [|t tags IH]; simpl; intros norm H.
  - inversion H. constructor.
  - destruct (_normalize_tag t) as [n|] eqn:E; [|discriminate].
    destruct (normalize_each tags) as [ns|]; [|discriminate].
    inversion H; subst. constructor; auto.
Qed.

Lemma normalize_each_fixed norm :
  Forall (fun n => _normalize_tag n = Ok n) norm -> normalize_each norm = Ok norm.
Proof.
  induction 1 as [|n norm Hn _ IH]; simpl; [reflexivity|].
  now rewrite Hn, IH.
Qed.

Lemma first_seen_fixed norm : forall seen,
  NoDup norm -> (forall t, In t norm -> ~ In t seen) ->
  first_seen norm seen = norm.
Proof.
  induction norm as [|t norm IH]; intros seen Hnd Hdis; simpl; [reflexivity|].
  inversion Hnd as [|? ? Hn Hnd']; subst.
  assert (Hm : Py.mem t seen = false).
  { apply mem_false_not_In. apply Hdis. now left. }
  rewrite Hm. cbn [negb]. f_equal. apply IH; [assumption|].
  intros u Hu [<-|Hin]; [contradiction|].
  apply (Hdis u); [now right | assumption].
Qed.

(** X2.  When [_normalize_tags] returns, its result has no duplicates, its
    members are exactly the normalized forms of the input tags, it is the
    list of those forms itself when they are all different, and it is a
    fixed point: normalizing it again returns it unchanged. *)
Theorem _normalize_tags_result (tags out : list string) :
  _normalize_tags tags = Ok out ->
  NoDup out /\
  (forall n, In n out <-> exists t, In t tags /\ _normalize_tag t = Ok n) /\
  (NoDup (map Py.strip tags) -> out = map Py.strip tags) /\
  _normalize_tags out = Ok out.
Proof.
  unfold _normalize_tags at 1.
  destruct (normalize_each tags) as [norm|] eqn:E; [|discriminate].
  intros H. inversion H; subst. clear H.
  pose proof (normalize_each_inv _ _ E) as HF.
  assert (Hnorm : norm = map Py.strip tags).
  { clear E. induction HF as [|t n tags norm Ht _ IH]; simpl; [reflexivity|].
    destruct (_normalize_tag_inv _ _ Ht) as (-> & _). now rewrite IH. }
  assert (Hmem : forall n, In n norm <-> exists t, In t tags /\ _normalize_tag t = Ok n).
  { clear E Hnorm. induction HF as [|t n tags norm Ht _ IH]; simpl.
    - intros n. split; [contradiction | now intros (t & [] & _)].
    - intros m. rewrite IH. split.
      + intros [<-|(u & Hu & Hm)]; [exists t; auto | exists u; auto].
      + intros (u & [<-|Hu] & Hm); [left; congruence | right; now exists u]. }
  repeat split.
  - apply first_seen_NoDup.
  - intros Hin. apply first_seen_In in Hin as [Hin _]. now apply Hmem.
  - intros Hex. apply first_seen_In. split; [now apply Hmem | simpl; tauto].
  - intros Hnd. rewrite <- Hnorm. apply first_seen_fixed; [now rewrite Hnorm|].
    intros t _ [].
  - unfold _normalize_tags. rewrite normalize_each_fixed.
    + f_equal. apply first_seen_fixed; [apply first_seen_NoDup | intros t _ []].
    + apply Forall_forall. intros n Hin.
      apply first_seen_In in Hin as [Hin _]. apply Hmem in Hin as (t & _ & Ht).
      now apply (_normalize_tag_fixed t n).
Qed.

Lemma _normalize_tags_result_witness :
  NoDup [ "a"; "b"; "c" ] /\
  (forall n, In n [ "a"; "b"; "c" ] <->
             exists t, In t [ "a"; "b"; "a"; " c " ] /\ _normalize_tag t = Ok n) /\
  (NoDup (map Py.strip [ "a"; "b"; "a"; " c " ]) ->
   [ "a"; "b"; "c" ] = map Py.strip [ "a"; "b"; "a"; " c " ]) /\
  _normalize_tags [ "a"; "b"; "c" ] = Ok [ "a"; "b"; "c" ].
Proof.
  apply (_normalize_tags_result [ "a"; "b"; "a"; " c " ] [ "a"; "b"; "c" ]).
  vm_compute. reflexivity.
Defined.

(** ** Tags from the command line *)

Lemma contains_lstrip c s :
  Py.contains c (Py.lstrip s) = true -> Py.contains c s = true.
Proof.
  induction s as [|a s IH]; simpl; [trivial|].
  destruct (Py.isspace a); [|trivial].
  intros H. rewrite (IH H). apply orb_true_r.
Qed.

Lemma contains_rstrip c s :
  Py.contains c (Py.rstrip s) = true -> Py.contains c s = true.
Proof.
  induction s as [|a s IH]; [trivial|].
  cbn [Py.rstrip]. destruct (Py.rstrip s) as [|b r] eqn:E.
  - destruct (Py.isspace a); simpl; [discriminate|].
    rewrite orb_false_r. intros ->. reflexivity.
  - simpl. intros H. apply orb_true_iff in H as [H|H].
    + now rewrite H.
    + simpl in IH. rewrite (IH H). apply orb_true_r.
Qed.

Lemma contains_strip c s :
  Py.contains c s = false -> Py.contains c (Py.strip s) = false.
Proof.
  intros H. destruct (Py.contains c (Py.strip s)) eqn:E; [|reflexivity].
  unfold Py.strip in E. apply contains_rstrip, contains_lstrip in E. congruence.
Qed.

Lemma split_pieces c s piece :
  In piece (Py.split c s) -> Py.contains c piece = false.
Proof.
  revert piece. induction s as [|a s IH]; simpl; intros piece.
  - intros [<-|[]]. reflexivity.
  - destruct (Ascii.eqb a c) eqn:E.
    + intros [<-|H]; [reflexivity | now apply IH].
    + destruct (Py.split c s) as [|p ps].
      * intros [<-|[]]. simpl. now rewrite E.
      * intros [<-|H].
        -- simpl. rewrite E. apply IH. now left.
        -- apply IH. now right.
Qed.

Lemma _split_csv_or_repeat_parts values part :
  In part (_split_csv_or_repeat values) ->
  part <> "" /\ Py.strip part = part /\ Py.contains ","%char part = false.
Proof.
  unfold _split_csv_or_repeat. destruct values as [values|]; [|contradiction].
  intros H. apply in_flat_map in H as (v & _ & H).
  apply filter_In in H as [H Ht]. apply truthy_not_empty in Ht.
  split; [exact Ht|].
  destruct (Py.contains ","%char v) eqn:Ec.
  - apply in_map_iff in H as (piece & <- & Hp). split.
    + apply strip_idempotent.
    + apply contains_strip. now apply (split_pieces _ v).
  - destruct H as [<-|[]]. split.
    + apply strip_idempotent.
    + now apply contains_strip.
Qed.

(** X3.  Every part [_split_csv_or_repeat] returns is trimmed, not empty
    and free of commas; so [_normalize_tags], applied to a list that
    [_split_csv_or_repeat] returned, never raises "tag is empty": the only
    error it can raise on such a list is "tag too long", and when no part
    has more than 128 characters the list normalizes. *)
Theorem _split_csv_or_repeat_tags (values : option (list string)) :
  (forall part, In part (_split_csv_or_repeat values) ->
     part <> "" /\ Py.strip part = part /\ Py.contains ","%char part = false) /\
  (forall e, _normalize_tags (_split_csv_or_repeat values) = Raise e ->
     e = ValueError tag_too_long) /\
  (Forall (fun part => (String.length part <= 128)%nat) (_split_csv_or_repeat values) ->
   exists norm, _normalize_tags (_split_csv_or_repeat values) = Ok norm).
Proof.
  split; [apply _split_csv_or_repeat_parts|].
  assert (Hok : forall parts,
            (forall part, In part parts -> part <> "" /\ Py.strip part = part) ->
            (forall e, normalize_each parts = Raise e -> e = ValueError tag_too_long) /\
            (Forall (fun part => (String.length part <= 128)%nat) parts ->
             exists norm, normalize_each parts = Ok norm)).
  { induction parts as [|part parts IH]; intros Hparts.
    - split; [discriminate | intros _; now exists []].
    - destruct (Hparts part (or_introl eq_refl)) as [Hne Hs].
      destruct IH as [IHe IHo]; [intros q Hq; apply Hparts; now right|].
      apply truthy_not_empty in Hne.
      simpl. unfold _normalize_tag. rewrite Hs, Hne. cbn [negb].
      destruct (128 <? String.length part)%nat eqn:El.
      + split; [intros e H; now inversion H|].
        intros HF. inversion HF as [|? ? Hl _]; subst.
        apply Nat.ltb_lt in El. lia.
      + split.
        * intros e. destruct (normalize_each parts); [discriminate|].
          intros H. inversion H; subst. now apply IHe.
        * intros HF. inversion HF as [|? ? _ HF']; subst.
          destruct (IHo HF') as [norm ->]. eauto. }
  destruct (Hok (_split_csv_or_repeat values)) as [He Ho].
  { intros part Hp. destruct (_split_csv_or_repeat_parts _ _ Hp) as (? & ? & _).
    now split. }
  split.
  - intros e. unfold _normalize_tags.
    destruct (normalize_each _) eqn:E; [discriminate|].
    intros H. inversion H; subst. now apply He.
  - intros HF. destruct (Ho HF) as [norm Hn].
    unfold _normalize_tags. rewrite Hn. eauto.
Qed.

Example _split_csv_or_repeat_example :
  _split_csv_or_repeat (Some [ "algebra, number theory ,"; " "; "topology" ])
  = [ "algebra"; "number theory"; "topology" ] /\
  _split_csv_or_repeat (Some [ "," ]) = [] /\
  _split_csv_or_repeat None = [].
Proof. vm_compute. repeat split. Qed.

Lemma _split_csv_or_repeat_tags_witness :
  exists norm,
    _normalize_tags (_split_csv_or_repeat (Some [ "algebra, number theory ,"; "topology" ]))
    = Ok norm.
Proof.
  apply (proj2 (proj2 (_split_csv_or_repeat_tags
                         (Some [ "algebra, number theory ,"; "topology" ])))).
  vm_compute. repeat (constructor; [lia|]). constructor.
Defined.

(** ** References between the tables hold in every reachable state *)

Lemma _normalize_tags_members tags norm :
  _normalize_tags tags = Ok norm ->
  NoDup norm /\ Forall (fun n => _normalize_tag n = Ok n) norm.
Proof.
  unfold _normalize_tags.
  destruct (normalize_each tags) as [ns|] eqn:E; [|discriminate].
  intros H. inversion H; subst. split; [apply first_seen_NoDup|].
  apply Forall_forall. intros n Hin.
  apply first_seen_In in Hin as [Hin _].
  pose proof (normalize_each_inv _ _ E) as HF. clear E.
  induction HF as [|t m tags ns Ht _ IH]; [contradiction|].
  destruct Hin as [<-|Hin]; [|now apply IH].
  destruct (_normalize_tag_inv _ _ Ht) as (Hm & Hne & Hlen).
  unfold _normalize_tag. rewrite Hm, strip_idempotent. rewrite <- Hm.
  apply truthy_not_empty in Hne. rewrite Hne. cbn [negb].
  destruct (128 <? String.length m)%nat eqn:El; [|reflexivity].
  apply Nat.ltb_lt in El. lia.
Qed.

Section PreservationWithResults.

Variable I : database -> Prop.

Lemma preserves_bind_lift {A B : Type} (r : result A) (k : A -> M B) :
  (forall a, r = Ok a -> preserves I (k a)) -> preserves I (bind (lift r) k).
Proof.
  intros Hk p H. unfold bind, lift. destruct r as [a|e]; [|exact H].
  now apply (Hk a).
Qed.

Lemma preserves_for_each_in {A : Type} (xs : list A) (body : A -> M unit) :
  (forall x, In x xs -> preserves I (body x)) -> preserves I (for_each xs body).
Proof.
  induction xs as [|x xs IH]; intros Hb; simpl.
  - apply preserves_ret.
  - apply preserves_bind; [apply Hb; now left | intros _].
    apply IH. intros y Hy. apply Hb. now right.
Qed.

Lemma preserves_for_sum_in {A : Type} (xs : list A) (body : A -> M Z) acc :
  (forall x, In x xs -> preserves I (body x)) -> preserves I (for_sum xs body acc).
Proof.
  revert acc. induction xs as [|x xs IH]; intros acc Hb; simpl.
  - apply preserves_ret.
  - apply preserves_bind; [apply Hb; now left | intros n].
    apply IH. intros y Hy. apply Hb. now right.
Qed.

Lemma validate_link_semantics_distinct src_id dst_id rel p :
  fst (validate_link_semantics src_id dst_id rel p) = Ok tt -> src_id <> dst_id.
Proof.
  intros H ->. destruct (Py.mem rel LINK_RELATIONS) eqn:E.
  - rewrite validate_link_semantics_self in H by assumption. discriminate.
  - unfold validate_link_semantics in H.
    rewrite (bind_raise _ _ p (ValueError (Invalid_rel rel)) p) in H
      by (unfold lift; now rewrite validate_rel_raise).
    discriminate.
Qed.

Lemma preserves_after_validation {B : Type} src_id dst_id rel (k : unit -> M B) :
  (src_id <> dst_id -> preserves I (k tt)) ->
  preserves I (bind (validate_link_semantics src_id dst_id rel) k).
Proof.
  intros Hk p H. unfold bind.
  pose proof (validate_link_semantics_distinct src_id dst_id rel p) as Hd.
  rewrite validate_link_semantics_eq in *.
  destruct (fst (validate_link_semantics src_id dst_id rel p)) as [[]|e];
    cbn [fst snd] in *; [|exact H].
  apply Hk; auto.
Qed.

End PreservationWithResults.

Lemma element_exists_In d id :
  Sql.element_exists d id = true <-> In id (map el_id (elements d)).
Proof.
  unfold Sql.element_exists. rewrite existsb_exists, in_map_iff. split.
  - intros (e & Hin & He). apply String.eqb_eq in He. now exists e.
  - intros (e & He & Hin). exists e. split; [assumption | now apply String.eqb_eq].
Qed.

(** The rows of the other two tables stay well referenced when no id leaves
    [elements]. *)
Lemma refs_ok_elements d d' :
  (forall id, Sql.element_exists d id = true -> Sql.element_exists d' id = true) ->
  element_tags d' = element_tags d ->
  element_links d' = element_links d ->
  refs_ok d -> refs_ok d'.
Proof.
  intros Hex Ht Hl [H1 H2 H3]. constructor; rewrite ?Ht, ?Hl; try assumption.
  - eapply Forall_impl; [|exact H1]. intros r [Hr Hn]. split; auto.
  - eapply Forall_impl; [|exact H3]. intros l (Hs & Hd & Hne). repeat split; auto.
Qed.

Lemma insert_element_refs_ok r d n d' :
  refs_ok d -> Sql.insert_element r d = Ok (n, d') -> refs_ok d'.
Proof.
  intros Hok. unfold Sql.insert_element.
  destruct (negb _); [discriminate|].
  destruct (negb _); [discriminate|].
  destruct (Sql.element_exists d (el_id r)); [discriminate|].
  intros H. inversion H; subst.
  apply (refs_ok_elements d); try reflexivity; [|assumption].
  intros id. rewrite !element_exists_In. cbn [elements].
  rewrite map_app, in_app_iff. tauto.
Qed.

Lemma update_element_refs_ok type format title body ts id d n d' :
  refs_ok d -> Sql.update_element type format title body ts id d = Ok (n, d') ->
  refs_ok d'.
Proof.
  intros Hok. unfold Sql.update_element.
  destruct (negb (existsb _ _)); [intros H; now inversion H; subst|].
  destruct (negb _); [discriminate|].
  destruct (negb _); [discriminate|].
  intros H. inversion H; subst.
  apply (refs_ok_elements d); try reflexivity; [|assumption].
  intros id0 Hid. now rewrite element_exists_updated.
Qed.

Lemma element_exists_after_delete d id id' tags links :
  id' <> id ->
  Sql.element_exists d id' = true ->
  Sql.element_exists
    (mk_database (filter (fun e => negb (el_id e =? id)) (elements d)) tags links) id'
  = true.
Proof.
  intros Hne. rewrite !element_exists_In. cbn [elements].
  rewrite !in_map_iff. intros (e & He & Hin). exists e. split; [assumption|].
  apply filter_In. split; [assumption|].
  apply negb_true_iff, String.eqb_neq. congruence.
Qed.

Lemma delete_element_refs_ok id d n d' :
  refs_ok d -> Sql.delete_element id d = Ok (n, d') -> refs_ok d'.
Proof.
  intros [H1 H2 H3]. unfold Sql.delete_element.
  destruct (negb (existsb _ _)); intros H; inversion H; subst;
    [now constructor|].
  constructor; cbn [elements element_tags element_links].
  - apply Forall_forall. intros r Hr. apply filter_In in Hr as [Hin Hne].
    rewrite Forall_forall in H1. destruct (H1 r Hin) as [Hex Hn].
    split; [|exact Hn].
    apply element_exists_after_delete; [|exact Hex].
    apply negb_true_iff, String.eqb_neq in Hne. exact Hne.
  - now apply NoDup_map_filter.
  - apply Forall_forall. intros l Hl. apply filter_In in Hl as [Hin Hne].
    rewrite Forall_forall in H3. destruct (H3 l Hin) as (Hs & Hd & Hdis).
    apply negb_true_iff, orb_false_iff in Hne as [Hns Hnd].
    apply String.eqb_neq in Hns, Hnd.
    repeat split; try assumption; now apply element_exists_after_delete.
Qed.

Lemma tag_rows_same_elements d d' rows :
  elements d' = elements d ->
  Forall (tag_row_ok d) rows -> Forall (tag_row_ok d') rows.
Proof.
  intros He. apply Forall_impl. intros r [Hr Hn]. split; [|exact Hn].
  unfold Sql.element_exists in *. now rewrite He.
Qed.

Lemma link_rows_same_elements d d' rows :
  elements d' = elements d ->
  Forall (link_row_ok d) rows -> Forall (link_row_ok d') rows.
Proof.
  intros He. apply Forall_impl. intros l (Hs & Hd & Hne).
  unfold link_row_ok, Sql.element_exists in *. now rewrite He.
Qed.

Lemma tag_exists_false_key d r :
  Sql.tag_exists d (et_element_id r) (et_tag r) = false ->
  ~ In (tag_key r) (map tag_key (element_tags d)).
Proof.
  intros H Hin. apply in_map_iff in Hin as (r' & Hk & Hin).
  unfold tag_key in Hk. inversion Hk as [[He Ht]].
  assert (Sql.tag_exists d (et_element_id r) (et_tag r) = true); [|congruence].
  apply existsb_exists. exists r'. split; [assumption|].
  now rewrite He, Ht, !String.eqb_refl.
Qed.

Lemma tags_snoc_refs_ok r d :
  refs_ok d ->
  Sql.tag_exists d (et_element_id r) (et_tag r) = false ->
  Sql.element_exists d (et_element_id r) = true ->
  _normalize_tag (et_tag r) = Ok (et_tag r) ->
  refs_ok (mk_database (elements d) (element_tags d ++ [r]) (element_links d)).
Proof.
  intros [H1 H2 H3] Hpk Hfk Hn. constructor; cbn [elements element_tags element_links].
  - apply Forall_app. split.
    + now apply (tag_rows_same_elements d).
    + repeat constructor; assumption.
  - apply NoDup_map_snoc; [assumption | now apply tag_exists_false_key].
  - now apply (link_rows_same_elements d).
Qed.

Lemma insert_element_tag_refs_ok r d n d' :
  _normalize_tag (et_tag r) = Ok (et_tag r) ->
  refs_ok d -> Sql.insert_element_tag r d = Ok (n, d') -> refs_ok d'.
Proof.
  intros Hn Hok. unfold Sql.insert_element_tag.
  destruct (Sql.tag_exists _ _ _) eqn:Epk; [discriminate|].
  destruct (Sql.element_exists _ _) eqn:Efk; cbn [negb]; [|discriminate].
  intros H. inversion H; subst. now apply tags_snoc_refs_ok.
Qed.

Lemma insert_or_ignore_element_tag_refs_ok r d n d' :
  _normalize_tag (et_tag r) = Ok (et_tag r) ->
  refs_ok d -> Sql.insert_or_ignore_element_tag r d = Ok (n, d') -> refs_ok d'.
Proof.
  intros Hn Hok. unfold Sql.insert_or_ignore_element_tag.
  destruct (Sql.tag_exists _ _ _) eqn:Epk; [intros H; now inversion H; subst|].
  destruct (Sql.element_exists _ _) eqn:Efk; cbn [negb]; [|discriminate].
  intros H. inversion H; subst. now apply tags_snoc_refs_ok.
Qed.

Lemma tags_filter_refs_ok (keep : element_tag -> bool) d :
  refs_ok d ->
  refs_ok (mk_database (elements d) (filter keep (element_tags d)) (element_links d)).
Proof.
  intros [H1 H2 H3]. constructor; cbn [elements element_tags element_links].
  - apply Forall_filter. now apply (tag_rows_same_elements d).
  - now apply NoDup_map_filter.
  - now apply (link_rows_same_elements d).
Qed.

Lemma delete_element_tags_refs_ok id d n d' :
  refs_ok d -> Sql.delete_element_tags id d = Ok (n, d') -> refs_ok d'.
Proof.
  intros Hok. unfold Sql.delete_element_tags. intros H. inversion H; subst.
  now apply tags_filter_refs_ok.
Qed.

Lemma delete_element_tag_refs_ok id t d n d' :
  refs_ok d -> Sql.delete_element_tag id t d = Ok (n, d') -> refs_ok d'.
Proof.
  intros Hok. unfold Sql.delete_element_tag. intros H. inversion H; subst.
  now apply tags_filter_refs_ok.
Qed.

Lemma insert_element_link_refs_ok r d n d' :
  ln_src_id r <> ln_dst_id r ->
  refs_ok d -> Sql.insert_element_link r d = Ok (n, d') -> refs_ok d'.
Proof.
  intros Hne [H1 H2 H3]. unfold Sql.insert_element_link.
  destruct (negb _); [discriminate|].
  destruct (existsb _ _); [discriminate|].
  destruct (Sql.link_exists _ _); [discriminate|].
  destruct (Sql.element_exists d (ln_src_id r)) eqn:Es; cbn [andb negb];
    [|discriminate].
  destruct (Sql.element_exists d (ln_dst_id r)) eqn:Ed; cbn [negb]; [|discriminate].
  intros H. inversion H; subst.
  constructor; cbn [elements element_tags element_links].
  - now apply (tag_rows_same_elements d).
  - assumption.
  - apply Forall_app. split.
    + now apply (link_rows_same_elements d).
    + repeat constructor; assumption.
Qed.

Lemma update_element_link_refs_ok rel note ts id d n d' :
  refs_ok d -> Sql.update_element_link rel note ts id d = Ok (n, d') -> refs_ok d'.
Proof.
  intros [H1 H2 H3]. unfold Sql.update_element_link.
  destruct (negb (existsb _ _)); [intros H; inversion H; subst; now constructor|].
  destruct (negb _); [discriminate|].
  destruct (existsb _ _); [discriminate|].
  intros H. inversion H; subst.
  constructor; cbn [elements element_tags element_links].
  - now apply (tag_rows_same_elements d).
  - assumption.
  - apply Forall_forall. intros l Hl.
    apply in_map_iff in Hl as (l0 & <- & Hin).
    rewrite Forall_forall in H3. specialize (H3 l0 Hin).
    destruct (ln_id l0 =? id); exact H3.
Qed.

Lemma delete_element_link_refs_ok id d n d' :
  refs_ok d -> Sql.delete_element_link id d = Ok (n, d') -> refs_ok d'.
Proof.
  intros [H1 H2 H3]. unfold Sql.delete_element_link. intros H. inversion H; subst.
  constructor; cbn [elements element_tags element_links].
  - now apply (tag_rows_same_elements d).
  - assumption.
  - apply Forall_filter. now apply (link_rows_same_elements d).
Qed.

Lemma set_tags_refs_ok element_id tags : preserves refs_ok (set_tags element_id tags).
Proof.
  unfold set_tags. apply preserves_bind_lift. intros norm Hnorm.
  destruct (_normalize_tags_members _ _ Hnorm) as [_ Hfix].
  rewrite Forall_forall in Hfix. pres.
  - apply preserves_execute. intros d n d'. apply delete_element_tags_refs_ok.
  - apply preserves_for_each_in. intros t Ht. pres.
    apply preserves_execute. intros d n d'.
    apply insert_element_tag_refs_ok. cbn [et_tag]. now apply Hfix.
Qed.

Lemma add_tags_refs_ok element_id tags : preserves refs_ok (add_tags element_id tags).
Proof.
  unfold add_tags. apply preserves_bind_lift. intros norm Hnorm.
  destruct (_normalize_tags_members _ _ Hnorm) as [_ Hfix].
  rewrite Forall_forall in Hfix. pres.
  apply preserves_for_sum_in. intros t Ht.
  apply preserves_execute. intros d n d'.
  apply insert_or_ignore_element_tag_refs_ok. cbn [et_tag]. now apply Hfix.
Qed.

Lemma remove_tags_refs_ok element_id tags :
  preserves refs_ok (remove_tags element_id tags).
Proof.
  unfold remove_tags. pres.
  apply preserves_for_sum. intros t.
  apply preserves_execute. intros d n d'. apply delete_element_tag_refs_ok.
Qed.

Lemma clear_tags_refs_ok element_id : preserves refs_ok (clear_tags element_id).
Proof.
  unfold clear_tags. pres.
  apply preserves_execute. intros d n d'. apply delete_element_tags_refs_ok.
Qed.

Lemma create_element_refs_ok type title body format tags id :
  preserves refs_ok (create_element type title body format tags id).
Proof.
  unfold create_element. pres.
  destruct (negb (Py.truthy (Py.strip title))); pres.
  destruct (negb (Py.truthy (Py.strip body))); pres.
  - destruct (Py.truthy_opt id); pres.
  - apply preserves_execute. intros d n d'. apply insert_element_refs_ok.
  - destruct tags; pres. apply set_tags_refs_ok.
Qed.

Lemma update_element_refs_ok' element_id type title body format tags :
  preserves refs_ok (update_element element_id type title body format tags).
Proof.
  unfold update_element. pres.
  match goal with |- preserves _ (match ?x with _ => _ end) =>
    destruct x as [existing|] end; pres.
  - destruct type; pres.
  - destruct format; pres.
  - match goal with |- context [negb (Py.truthy (Py.strip ?t))] =>
      destruct (negb (Py.truthy (Py.strip t))) end; pres.
    match goal with |- context [if negb (Py.truthy (Py.strip ?t)) then _ else _] =>
      destruct (negb (Py.truthy (Py.strip t))) end; pres.
    + apply preserves_execute. intros d n d'. apply update_element_refs_ok.
    + destruct tags; pres. apply set_tags_refs_ok.
Qed.

Lemma delete_element_refs_ok' element_id :
  preserves refs_ok (delete_element element_id).
Proof.
  unfold delete_element. pres.
  apply preserves_execute. intros d n d'. apply delete_element_refs_ok.
Qed.

Lemma validate_link_semantics_preserves (I : database -> Prop) src_id dst_id rel :
  preserves I (validate_link_semantics src_id dst_id rel).
Proof. intros p H. now rewrite validate_link_semantics_state. Qed.

Lemma create_link_refs_ok src_id dst_id rel note id :
  preserves refs_ok (create_link src_id dst_id rel note id).
Proof.
  unfold create_link.
  apply preserves_bind; [apply preserves_lift | intros _].
  apply preserves_after_validation. intros Hne. pres.
  - destruct (Py.truthy_opt id); pres.
  - apply preserves_execute. intros d n d'.
    now apply insert_element_link_refs_ok.
Qed.

Lemma update_link_refs_ok link_id rel note :
  preserves refs_ok (update_link link_id rel note).
Proof.
  unfold update_link. pres.
  match goal with |- preserves _ (match ?x with _ => _ end) =>
    destruct x as [existing|] end; pres.
  - destruct rel; pres.
  - destruct rel; pres. apply validate_link_semantics_preserves.
  - apply preserves_execute. intros d n d'. apply update_element_link_refs_ok.
Qed.

Lemma delete_link_refs_ok link_id : preserves refs_ok (delete_link link_id).
Proof.
  unfold delete_link. pres.
  apply preserves_execute. intros d n d'. apply delete_element_link_refs_ok.
Qed.

Lemma run_refs_ok c : preserves refs_ok (run c).
Proof.
  destruct c; unfold run; pres;
    auto using create_element_refs_ok, update_element_refs_ok',
      delete_element_refs_ok', add_tags_refs_ok, remove_tags_refs_ok,
      clear_tags_refs_ok, set_tags_refs_ok, create_link_refs_ok,
      update_link_refs_ok, delete_link_refs_ok.
  unfold init_db. apply preserves_commit.
Qed.

Lemma reachable_refs_ok p : reachable p -> refs_ok (db (conn p)).
Proof.
  induction 1 as [clock entropy | p c _ IH].
  - constructor; simpl; constructor.
  - now apply run_refs_ok.
Qed.

(** X4.  No orphans: in every reachable state each tag row belongs to an
    element of the store and each link has both its ends in the store. *)
Theorem no_orphan_rows (p : process) :
  reachable p ->
  (forall r, In r (element_tags (db (conn p))) ->
     In (et_element_id r) (map el_id (elements (db (conn p))))) /\
  (forall l, In l (element_links (db (conn p))) ->
     In (ln_src_id l) (map el_id (elements (db (conn p)))) /\
     In (ln_dst_id l) (map el_id (elements (db (conn p))))).
Proof.
  intros Hp. destruct (reachable_refs_ok p Hp) as [H1 _ H3].
  rewrite Forall_forall in H1, H3. split.
  - intros r Hr. apply element_exists_In. now apply H1.
  - intros l Hl. destruct (H3 l Hl) as (Hs & Hd & _).
    split; now apply element_exists_In.
Qed.

Lemma no_orphan_rows_witness :
  (forall r, In r (element_tags (db (conn example_process))) ->
     In (et_element_id r) (map el_id (elements (db (conn example_process))))) /\
  (forall l, In l (element_links (db (conn example_process))) ->
     In (ln_src_id l) (map el_id (elements (db (conn example_process)))) /\
     In (ln_dst_id l) (map el_id (elements (db (conn example_process))))).
Proof. apply (no_orphan_rows example_process), example_process_reachable. Defined.

(** X5.  No stored link joins an element to itself, in any reachable
    state: [create_link] refuses it and [update_link] keeps the ends. *)
Theorem no_self_link_stored (p : process) (l : element_link) :
  reachable p -> In l (element_links (db (conn p))) -> ln_src_id l <> ln_dst_id l.
Proof.
  intros Hp Hl. destruct (reachable_refs_ok p Hp) as [_ _ H3].
  rewrite Forall_forall in H3. now destruct (H3 l Hl) as (_ & _ & Hne).
Qed.

Lemma no_self_link_stored_witness : "p" <> "t".
Proof.
  apply (no_self_link_stored example_process
           (mk_element_link "L" "p" "t" "proves" "" "2" "2")).
  - apply example_process_reachable.
  - vm_compute. auto.
Defined.

(** ** The tags an element lists *)

Lemma select_tags_tags_of element_id d :
  Sql.select_tags element_id d = Sql.order_by String.leb (tags_of element_id d).
Proof. reflexivity. Qed.

Lemma tags_of_NoDup element_id d :
  NoDup (map tag_key (element_tags d)) -> NoDup (tags_of element_id d).
Proof.
  unfold tags_of. induction (element_tags d) as [|r rows IH]; simpl; intros H;
    [constructor|].
  inversion H as [|? ? Hn Hd]; subst.
  destruct (et_element_id r =? element_id) eqn:E; simpl; [|now apply IH].
  constructor; [|now apply IH].
  intros Hin. apply in_map_iff in Hin as (r' & Ht & Hin).
  apply filter_In in Hin as [Hin E']. apply Hn.
  apply in_map_iff. exists r'. split; [|assumption].
  apply String.eqb_eq in E, E'. unfold tag_key. congruence.
Qed.

Lemma tags_of_canonical element_id d :
  Forall (tag_row_ok d) (element_tags d) ->
  Forall (fun t => _normalize_tag t = Ok t) (tags_of element_id d).
Proof.
  intros H. apply Forall_forall. intros t Ht.
  apply in_map_iff in Ht as (r & <- & Hin). apply filter_In in Hin as [Hin _].
  rewrite Forall_forall in H. now destruct (H r Hin).
Qed.

Lemma order_by_fixed (l : list string) :
  Sorted (fun a b => String.leb a b = true) l -> Sql.order_by String.leb l = l.
Proof.
  induction 1 as [|a l Hs IH Hhd]; simpl; [reflexivity|].
  rewrite IH. destruct Hhd as [|b l Hab]; simpl; [reflexivity|].
  now rewrite Hab.
Qed.

Lemma ascending_sorted l :
  ascending l -> Sorted (fun a b => String.leb a b = true) l.
Proof.
  unfold ascending. induction 1 as [|a l Hs IH Hhd]; constructor; [exact IH|].
  destruct Hhd as [|b l Hab]; constructor.
  unfold String.ltb in Hab. unfold String.leb.
  destruct (String.compare a b); congruence.
Qed.

Lemma listed_tags_facts p element_id :
  refs_ok (db (conn p)) ->
  let l := Sql.select_tags element_id (db (conn p)) in
  NoDup l /\ ascending l /\ Forall (fun t => _normalize_tag t = Ok t) l.
Proof.
  intros [H1 H2 _] l. subst l. rewrite select_tags_tags_of.
  pose proof (order_by_perm String.leb (tags_of element_id (db (conn p)))) as Hperm.
  assert (Hnd : NoDup (Sql.order_by String.leb (tags_of element_id (db (conn p))))).
  { apply (Permutation_NoDup (Permutation_sym Hperm)). now apply tags_of_NoDup. }
  repeat split.
  - exact Hnd.
  - apply sorted_nodup_ascending; [|exact Hnd].
    apply order_by_sorted. apply String.leb_total.
  - apply Forall_forall. intros t Ht. apply (Permutation_in _ Hperm) in Ht.
    pose proof (tags_of_canonical element_id _ H1) as Hc.
    rewrite Forall_forall in Hc. now apply Hc.
Qed.

(** X6.  In every reachable state [list_tags] answers, for any id, with a
    strictly ascending list without duplicates whose tags are all in
    canonical form: trimmed, not empty, at most 128 characters. *)
Theorem list_tags_canonical (p : process) (element_id : string) :
  reachable p ->
  exists l,
    list_tags element_id p = (Ok l, p) /\
    NoDup l /\ ascending l /\
    Forall (fun t => Py.strip t = t /\ t <> "" /\ (String.length t <= 128)%nat) l.
Proof.
  intros Hp. exists (Sql.select_tags element_id (db (conn p))).
  split; [reflexivity|].
  destruct (listed_tags_facts p element_id (reachable_refs_ok p Hp))
    as (Hnd & Hasc & Hcan).
  repeat split; try assumption.
  eapply Forall_impl; [|exact Hcan].
  intros t Ht. destruct (_normalize_tag_inv _ _ Ht) as (Hs & Hne & Hlen).
  repeat split; auto.
Qed.

Lemma tagged_process_reachable : reachable tagged_process.
Proof. repeat apply reachable_run. apply reachable_connect. Defined.

Lemma list_tags_canonical_witness :
  exists l,
    list_tags "t" tagged_process = (Ok l, tagged_process) /\
    NoDup l /\ ascending l /\
    Forall (fun t => Py.strip t = t /\ t <> "" /\ (String.length t <= 128)%nat) l.
Proof. apply (list_tags_canonical tagged_process "t"), tagged_process_reachable. Defined.

(** X7.  Writing back what was read: in a reachable state, [set_tags] on an
    element of the store with the list [list_tags] gave for it returns and
    leaves that listing as it was. *)
Theorem set_tags_of_listed (p : process) (element_id : string) (l : list string) :
  reachable p ->
  Sql.element_exists (db (conn p)) element_id = true ->
  fst (list_tags element_id p) = Ok l ->
  fst (set_tags element_id l p) = Ok tt /\
  fst (list_tags element_id (snd (set_tags element_id l p))) = Ok l.
Proof.
  intros Hp Hex Hl.
  assert (Hl' : Sql.select_tags element_id (db (conn p)) = l)
    by (unfold list_tags, query in Hl; cbn [fst] in Hl; congruence).
  clear Hl.
  destruct (listed_tags_facts p element_id (reachable_refs_ok p Hp))
    as (Hnd & Hasc & Hcan).
  rewrite Hl' in Hnd, Hasc, Hcan.
  assert (Hnorm : _normalize_tags l = Ok l).
  { unfold _normalize_tags. rewrite (normalize_each_fixed l Hcan).
    f_equal. apply first_seen_fixed; [assumption | intros t _ []]. }
  rewrite (set_tags_ok element_id l l p Hex Hnorm Hnd).
  split; [reflexivity|].
  unfold list_tags, query. cbn [fst snd conn db].
  rewrite select_tags_replaced. f_equal.
  now apply order_by_fixed, ascending_sorted.
Qed.

Lemma set_tags_of_listed_witness :
  fst (set_tags "t" [ "a"; "b" ] tagged_process) = Ok tt /\
  fst (list_tags "t" (snd (set_tags "t" [ "a"; "b" ] tagged_process)))
  = Ok [ "a"; "b" ].
Proof.
  apply (set_tags_of_listed tagged_process "t" [ "a"; "b" ]).
  - apply tagged_process_reachable.
  - vm_compute. reflexivity.
  - vm_compute. reflexivity.
Defined.

(** ** Adding, removing and clearing tags *)

Lemma filter_partition_length {A : Type} (f : A -> bool) (l : list A) :
  (List.length (filter f l) + List.length (filter (fun x => negb (f x)) l)
   = List.length l)%nat.
Proof.
  induction l as [|x l IH]; simpl; [reflexivity|].
  destruct (f x); simpl; lia.
Qed.

Lemma filter_filter {A : Type} (f g : A -> bool) (l : list A) :
  filter g (filter f l) = filter (fun x => f x && g x) l.
Proof.
  induction l as [|x l IH]; simpl; [reflexivity|].
  destruct (f x); simpl; [destruct (g x)|]; now rewrite IH.
Qed.

Lemma tag_exists_mem d element_id t :
  Sql.tag_exists d element_id t = Py.mem t (tags_of element_id d).
Proof.
  unfold Sql.tag_exists, tags_of, Py.mem.
  induction (element_tags d) as [|r rows IH]; simpl; [reflexivity|].
  destruct (et_element_id r =? element_id); simpl; [|exact IH].
  now rewrite IH, (String.eqb_sym t).
Qed.

Lemma select_tags_In element_id d t :
  In t (Sql.select_tags element_id d) <-> In t (tags_of element_id d).
Proof.
  rewrite select_tags_tags_of.
  pose proof (order_by_perm String.leb (tags_of element_id d)) as Hperm.
  split; intros H.
  - now apply (Permutation_in _ Hperm).
  - now apply (Permutation_in _ (Permutation_sym Hperm)).
Qed.

Lemma select_tags_length element_id d :
  List.length (Sql.select_tags element_id d) = List.length (tags_of element_id d).
Proof.
  rewrite select_tags_tags_of. apply Permutation_length, order_by_perm.
Qed.

Lemma with_conn_db_id p :
  with_conn p
    (mk_connection
       (mk_database (elements (db (conn p))) (element_tags (db (conn p)))
          (element_links (db (conn p))))
       (committed (conn p))) = p.
Proof. destruct p as [[[e t l] c] k r]. reflexivity. Qed.

(** The [INSERT OR IGNORE] loop of [add_tags] on distinct tags. *)
Lemma insert_or_ignore_loop element_id ts norm : forall p acc,
  Sql.element_exists (db (conn p)) element_id = true ->
  NoDup norm ->
  for_sum norm
    (fun t => execute (Sql.insert_or_ignore_element_tag
                         (mk_element_tag element_id t ts))) acc p
  = (Ok (acc + Z.of_nat
                 (List.length
                    (filter (fun t => negb (Sql.tag_exists (db (conn p)) element_id t))
                       norm)))%Z,
     with_conn p
       (mk_connection
          (mk_database (elements (db (conn p)))
             (element_tags (db (conn p))
              ++ map (fun t => mk_element_tag element_id t ts)
                   (filter (fun t => negb (Sql.tag_exists (db (conn p)) element_id t))
                      norm))
             (element_links (db (conn p))))
          (committed (conn p)))).
Proof.
  induction norm as [|t norm IH]; intros p acc Hex Hnd.
  - simpl. unfold ret. rewrite app_nil_r, Z.add_0_r. now rewrite with_conn_db_id.
  - inversion Hnd as [|? ? Hn Hnd']; subst.
    cbn [for_sum filter]. unfold bind at 1, execute at 1.
    unfold Sql.insert_or_ignore_element_tag. cbn [et_element_id et_tag].
    destruct (Sql.tag_exists (db (conn p)) element_id t) eqn:Et; cbn [negb].
    + rewrite IH by assumption.
      cbn [conn db with_conn elements element_tags element_links committed].
      now rewrite Z.add_0_r.
    + rewrite Hex. cbn [negb].
      rewrite IH; cbn [conn db with_conn elements element_tags element_links
                       committed]; try assumption.
      assert (Hf : filter
                     (fun t0 =>
                        negb (Sql.tag_exists
                                (mk_database (elements (db (conn p)))
                                   (element_tags (db (conn p))
                                    ++ [mk_element_tag element_id t ts])
                                   (element_links (db (conn p)))) element_id t0))
                     norm
                   = filter
                       (fun t0 => negb (Sql.tag_exists (db (conn p)) element_id t0))
                       norm).
      { apply filter_ext_in. intros t' Ht'. rewrite tag_exists_snoc.
        cbn [et_element_id et_tag]. rewrite String.eqb_refl. cbn [andb].
        destruct (t =? t') eqn:E; [|now rewrite orb_false_r].
        apply String.eqb_eq in E. subst. contradiction. }
      rewrite Hf. cbn [map List.length]. rewrite <- app_assoc. cbn [app].
      f_equal. f_equal. lia.
Qed.

(** The state [add_tags] leaves on an element of the store. *)
Lemma add_tags_ok element_id tags norm p :
  Sql.element_exists (db (conn p)) element_id = true ->
  _normalize_tags tags = Ok norm ->
  let fresh := filter (fun t => negb (Sql.tag_exists (db (conn p)) element_id t)) norm in
  fst (add_tags element_id tags p) = Ok (Z.of_nat (List.length fresh)) /\
  db (conn (snd (add_tags element_id tags p))) =
    mk_database (elements (db (conn p)))
      (element_tags (db (conn p))
       ++ map (fun t => mk_element_tag element_id t (clock p 0)) fresh)
      (element_links (db (conn p))).
Proof.
  intros Hex Hnorm fresh. unfold add_tags.
  rewrite (bind_ok _ _ p norm p) by (unfold lift; now rewrite Hnorm).
  erewrite bind_ok by reflexivity.
  erewrite bind_ok.
  2:{ apply insert_or_ignore_loop; [exact Hex|].
      now destruct (_normalize_tags_members _ _ Hnorm). }
  split; reflexivity.
Qed.

Lemma tags_of_app element_id d rows :
  tags_of element_id
    (mk_database (elements d) (element_tags d ++ rows) (element_links d))
  = tags_of element_id d
    ++ map et_tag (filter (fun r => et_element_id r =? element_id) rows).
Proof. unfold tags_of. cbn [element_tags]. now rewrite filter_app, map_app. Qed.

Lemma new_rows_tags element_id ts (l : list string) :
  map et_tag
    (filter (fun r => et_element_id r =? element_id)
       (map (fun t => mk_element_tag element_id t ts) l)) = l.
Proof.
  induction l as [|t l IH]; simpl; [reflexivity|].
  rewrite String.eqb_refl. simpl. now rewrite IH.
Qed.

(** X8.  On an element of the store and a tag list that normalizes to
    [norm], [add_tags] returns the number of tags of [norm] the element did
    not have, and the element then lists exactly its old tags and those of
    [norm]; repeating the call returns 0 and changes no table. *)
Theorem add_tags_effect (p : process) (element_id : string)
    (tags norm before : list string) :
  Sql.element_exists (db (conn p)) element_id = true ->
  _normalize_tags tags = Ok norm ->
  fst (list_tags element_id p) = Ok before ->
  let r := add_tags element_id tags p in
  fst r = Ok (Z.of_nat (List.length (filter (fun t => negb (Py.mem t before)) norm))) /\
  (exists after,
     fst (list_tags element_id (snd r)) = Ok after /\
     forall t, In t after <-> In t before \/ In t norm) /\
  fst (add_tags element_id tags (snd r)) = Ok 0%Z /\
  db (conn (snd (add_tags element_id tags (snd r)))) = db (conn (snd r)).
Proof.
  intros Hex Hnorm Hbefore r.
  assert (Hb : Sql.select_tags element_id (db (conn p)) = before)
    by (unfold list_tags, query in Hbefore; cbn [fst] in Hbefore; congruence).
  destruct (add_tags_ok element_id tags norm p Hex Hnorm) as [Hfst Hdb].
  fold r in Hfst, Hdb.
  assert (Hmem : forall t, Sql.tag_exists (db (conn p)) element_id t = Py.mem t before).
  { intros t. rewrite tag_exists_mem, <- Hb.
    destruct (Py.mem t (tags_of element_id (db (conn p)))) eqn:E1;
      destruct (Py.mem t (Sql.select_tags element_id (db (conn p)))) eqn:E2;
      try reflexivity.
    - apply mem_In, select_tags_In in E1. apply mem_false_not_In in E2.
      contradiction.
    - apply mem_In, select_tags_In in E2. apply mem_false_not_In in E1.
      contradiction. }
  assert (Hfresh : filter (fun t => negb (Sql.tag_exists (db (conn p)) element_id t)) norm
                   = filter (fun t => negb (Py.mem t before)) norm).
  { apply filter_ext. intros t. now rewrite Hmem. }
  rewrite Hfresh in Hfst, Hdb.
  assert (Hafter : forall t,
            In t (Sql.select_tags element_id (db (conn (snd r))))
            <-> In t before \/ In t norm).
  { intros t. rewrite select_tags_In, Hdb, tags_of_app, new_rows_tags, in_app_iff.
    rewrite <- select_tags_In, Hb, filter_In, negb_true_iff.
    split.
    - intros [H|[H _]]; auto.
    - intros [H|H]; [now left|].
      destruct (Py.mem t before) eqn:E; [left; now apply mem_In | right; auto]. }
  split; [exact Hfst|]. split.
  - exists (Sql.select_tags element_id (db (conn (snd r)))).
    split; [reflexivity | exact Hafter].
  - assert (Hex' : Sql.element_exists (db (conn (snd r))) element_id = true)
      by (rewrite Hdb; exact Hex).
    destruct (add_tags_ok element_id tags norm (snd r) Hex' Hnorm) as [Hfst2 Hdb2].
    assert (Hnone : filter
                      (fun t => negb (Sql.tag_exists (db (conn (snd r))) element_id t))
                      norm = []).
    { induction norm as [|t norm' IH'] in Hafter |- *; [reflexivity|].
      clear IH'.
      assert (Hall : forall u, In u (t :: norm') ->
                negb (Sql.tag_exists (db (conn (snd r))) element_id u) = false).
      { intros u Hu. apply negb_false_iff. rewrite tag_exists_mem.
        apply mem_In, select_tags_In, Hafter. now right. }
      revert Hall. generalize (t :: norm'). intros l Hall.
      induction l as [|u l IHl]; [reflexivity|]. simpl.
      rewrite (Hall u) by now left. apply IHl. intros v Hv. apply Hall. now right. }
    rewrite Hnone in Hfst2, Hdb2. cbn [map List.length] in Hfst2, Hdb2.
    split; [exact Hfst2|].
    rewrite Hdb2, app_nil_r. now destruct (db (conn (snd r))).
Qed.

Lemma add_tags_effect_witness :
  let r := add_tags "t" [ " c"; "a"; "c " ] tagged_process in
  fst r = Ok 1%Z /\
  (exists after,
     fst (list_tags "t" (snd r)) = Ok after /\
     forall t, In t after <-> In t [ "a"; "b" ] \/ In t [ "c"; "a" ]) /\
  fst (add_tags "t" [ " c"; "a"; "c " ] (snd r)) = Ok 0%Z /\
  db (conn (snd (add_tags "t" [ " c"; "a"; "c " ] (snd r)))) = db (conn (snd r)).
Proof.
  apply (add_tags_effect tagged_process "t" [ " c"; "a"; "c " ] [ "c"; "a" ]
           [ "a"; "b" ]); vm_compute; reflexivity.
Defined.

(** The [DELETE] loop of [remove_tags]. *)
Lemma delete_loop element_id norm : forall p acc,
  for_sum norm (fun t => execute (Sql.delete_element_tag element_id t)) acc p
  = (Ok (acc + Z.of_nat (List.length (element_tags (db (conn p))))
         - Z.of_nat
             (List.length
                (filter (fun r => negb (removed_row element_id norm r))
                   (element_tags (db (conn p))))))%Z,
     with_conn p
       (mk_connection
          (mk_database (elements (db (conn p)))
             (filter (fun r => negb (removed_row element_id norm r))
                (element_tags (db (conn p))))
             (element_links (db (conn p))))
          (committed (conn p)))).
Proof.
  induction norm as [|t norm IH]; intros p acc.
  - simpl. unfold ret, removed_row. cbn [Py.mem existsb].
    erewrite (filter_ext _ (fun _ => true))
      by (intros r; now rewrite andb_false_r).
    rewrite filter_true, with_conn_db_id. f_equal. f_equal. lia.
  - cbn [for_sum]. unfold bind at 1, execute at 1, Sql.delete_element_tag.
    rewrite IH. cbn [conn db with_conn elements element_tags element_links committed].
    rewrite filter_filter.
    assert (Hf : forall r : element_tag,
              negb ((et_element_id r =? element_id) && (et_tag r =? t))
              && negb (removed_row element_id norm r)
              = negb (removed_row element_id (t :: norm) r)).
    { intros r. unfold removed_row, Py.mem. cbn [existsb].
      destruct (et_element_id r =? element_id), (et_tag r =? t),
        (existsb (String.eqb (et_tag r)) norm); reflexivity. }
    rewrite (filter_ext _ _ Hf).
    pose proof (filter_partition_length
                  (fun r => (et_element_id r =? element_id) && (et_tag r =? t))
                  (element_tags (db (conn p)))) as Hlen.
    f_equal. f_equal. lia.
Qed.

Lemma tags_of_filter element_id (keep : element_tag -> bool) d :
  tags_of element_id
    (mk_database (elements d) (filter keep (element_tags d)) (element_links d))
  = map et_tag
      (filter (fun r => (et_element_id r =? element_id) && keep r) (element_tags d)).
Proof.
  unfold tags_of. cbn [element_tags]. rewrite filter_filter. f_equal.
  apply filter_ext. intros r. apply andb_comm.
Qed.

Lemma removed_rows_count element_id norm rows :
  (Z.of_nat (List.length rows)
   - Z.of_nat (List.length (filter (fun r => negb (removed_row element_id norm r)) rows))
   = Z.of_nat
       (List.length (filter (fun r => (et_element_id r =? element_id)%string) rows))
     - Z.of_nat
         (List.length
            (filter (fun r => ((et_element_id r =? element_id)%string
                               && negb (removed_row element_id norm r))%bool) rows)))%Z.
Proof.
  induction rows as [|r rows IH]; [reflexivity|].
  cbn [filter]. unfold removed_row in *.
  destruct (et_element_id r =? element_id); cbn [andb negb];
    [destruct (Py.mem (et_tag r) norm); cbn [negb]|]; cbn [List.length]; lia.
Qed.

(** The state [remove_tags] leaves. *)
Lemma remove_tags_ok element_id tags norm p :
  _normalize_tags tags = Ok norm ->
  fst (remove_tags element_id tags p) =
    Ok (Z.of_nat (List.length (element_tags (db (conn p))))
        - Z.of_nat
            (List.length
               (filter (fun r => negb (removed_row element_id norm r))
                  (element_tags (db (conn p))))))%Z /\
  db (conn (snd (remove_tags element_id tags p))) =
    mk_database (elements (db (conn p)))
      (filter (fun r => negb (removed_row element_id norm r))
         (element_tags (db (conn p))))
      (element_links (db (conn p))).
Proof.
  intros Hnorm. unfold remove_tags.
  rewrite (bind_ok _ _ p norm p) by (unfold lift; now rewrite Hnorm).
  erewrite bind_ok by apply delete_loop.
  split; reflexivity.
Qed.

(** X9.  For a tag list that normalizes to [norm], [remove_tags] leaves
    the element with exactly those of its tags that are not in [norm],
    returns by how many its listing got shorter, and leaves the listing of
    every other element as it was. *)
Theorem remove_tags_effect (p : process) (element_id : string)
    (tags norm before : list string) :
  _normalize_tags tags = Ok norm ->
  fst (list_tags element_id p) = Ok before ->
  let r := remove_tags element_id tags p in
  exists after,
    fst (list_tags element_id (snd r)) = Ok after /\
    (forall t, In t after <-> In t before /\ ~ In t norm) /\
    fst r = Ok (Z.of_nat (List.length before) - Z.of_nat (List.length after))%Z /\
    (forall other, other <> element_id ->
       fst (list_tags other (snd r)) = fst (list_tags other p)).
Proof.
  intros Hnorm Hbefore r.
  assert (Hb : Sql.select_tags element_id (db (conn p)) = before)
    by (unfold list_tags, query in Hbefore; cbn [fst] in Hbefore; congruence).
  destruct (remove_tags_ok element_id tags norm p Hnorm) as [Hfst Hdb].
  fold r in Hfst, Hdb.
  exists (Sql.select_tags element_id (db (conn (snd r)))).
  split; [reflexivity|]. split; [|split].
  - intros t. rewrite select_tags_In, Hdb, tags_of_filter, <- Hb, select_tags_In.
    unfold tags_of. rewrite !in_map_iff. split.
    + intros (x & <- & Hin). apply filter_In in Hin as [Hin Hx].
      apply andb_true_iff in Hx as [He Hk]. split.
      * exists x. split; [reflexivity|]. apply filter_In. now split.
      * unfold removed_row in Hk. rewrite He in Hk. cbn [andb] in Hk.
        apply negb_true_iff, mem_false_not_In in Hk. exact Hk.
    + intros [(x & <- & Hin) Hn]. apply filter_In in Hin as [Hin He].
      exists x. split; [reflexivity|]. apply filter_In. split; [assumption|].
      unfold removed_row. rewrite He. cbn [andb].
      apply negb_true_iff, mem_false_not_In. exact Hn.
  - rewrite Hfst, <- Hb, !select_tags_length, Hdb, tags_of_filter.
    unfold tags_of. rewrite !length_map. f_equal. apply removed_rows_count.
  - intros other Hne. unfold list_tags, query. cbn [fst]. f_equal.
    rewrite !select_tags_tags_of, Hdb, tags_of_filter. f_equal. unfold tags_of.
    f_equal. apply filter_ext. intros x. unfold removed_row.
    destruct (et_element_id x =? other) eqn:E; [|reflexivity].
    apply String.eqb_eq in E. rewrite E.
    apply String.eqb_neq in Hne. now rewrite Hne.
Qed.

Lemma remove_tags_effect_witness :
  let r := remove_tags "t" [ " b "; "z" ] tagged_process in
  exists after,
    fst (list_tags "t" (snd r)) = Ok after /\
    (forall t, In t after <-> In t [ "a"; "b" ] /\ ~ In t [ "b"; "z" ]) /\
    fst r = Ok (Z.of_nat (List.length [ "a"; "b" ]) - Z.of_nat (List.length after))%Z /\
    (forall other, other <> "t" ->
       fst (list_tags other (snd r)) = fst (list_tags other tagged_process)).
Proof.
  apply (remove_tags_effect tagged_process "t" [ " b "; "z" ] [ "b"; "z" ]
           [ "a"; "b" ]); vm_compute; reflexivity.
Defined.

(** X10.  [clear_tags] returns how many tags the element listed, leaves it
    with none and leaves the listing of every other element as it was; the
    tables it leaves are committed. *)
Theorem clear_tags_effect (p : process) (element_id : string) (before : list string) :
  fst (list_tags element_id p) = Ok before ->
  let r := clear_tags element_id p in
  fst r = Ok (Z.of_nat (List.length before)) /\
  fst (list_tags element_id (snd r)) = Ok [] /\
  (forall other, other <> element_id ->
     fst (list_tags other (snd r)) = fst (list_tags other p)) /\
  committed (conn (snd r)) = db (conn (snd r)).
Proof.
  intros Hbefore r.
  assert (Hb : Sql.select_tags element_id (db (conn p)) = before)
    by (unfold list_tags, query in Hbefore; cbn [fst] in Hbefore; congruence).
  subst r.
  unfold clear_tags, bind, execute, Sql.delete_element_tags, commit, ret, with_conn.
  cbv zeta. cbn [fst snd conn db committed].
  split; [|split; [|split]].
  - rewrite <- Hb, select_tags_length. unfold tags_of. now rewrite length_map.
  - unfold list_tags, query. cbn [fst snd conn db]. f_equal.
    rewrite select_tags_tags_of, tags_of_filter.
    erewrite (filter_ext _ (fun _ => false)) by (intros x; apply andb_negb_r).
    clear. induction (element_tags (db (conn p))); auto.
  - intros other Hne. unfold list_tags, query. cbn [fst snd conn db]. f_equal.
    rewrite !select_tags_tags_of, tags_of_filter. f_equal. unfold tags_of.
    f_equal. apply filter_ext. intros x.
    destruct (et_element_id x =? other) eqn:E; [|reflexivity].
    apply String.eqb_eq in E. rewrite E.
    apply String.eqb_neq in Hne. now rewrite Hne.
  - reflexivity.
Qed.

Lemma clear_tags_effect_witness :
  let r := clear_tags "t" tagged_process in
  fst r = Ok 2%Z /\
  fst (list_tags "t" (snd r)) = Ok [] /\
  (forall other, other <> "t" ->
     fst (list_tags other (snd r)) = fst (list_tags other tagged_process)) /\
  committed (conn (snd r)) = db (conn (snd r)).
Proof.
  apply (clear_tags_effect tagged_process "t" [ "a"; "b" ]). vm_compute. reflexivity.
Defined.

(** ** Tags of an element that is not there *)

Lemma no_tag_rows_of_absent d element_id :
  refs_ok d ->
  Sql.element_exists d element_id = false ->
  forall r, In r (element_tags d) -> (et_element_id r =? element_id) = false.
Proof.
  intros [H1 _ _] Habs r Hr. rewrite Forall_forall in H1.
  destruct (H1 r Hr) as [Hex _].
  destruct (et_element_id r =? element_id) eqn:E; [|reflexivity].
  apply String.eqb_eq in E. congruence.
Qed.

Lemma filter_all {A : Type} (f : A -> bool) (l : list A) :
  (forall x, In x l -> f x = true) -> filter f l = l.
Proof.
  induction l as [|x l IH]; simpl; intros H; [reflexivity|].
  rewrite (H x) by now left. f_equal. apply IH. intros y Hy. apply H. now right.
Qed.

(** X11.  Tags cannot be attached to an element that is not in the store:
    in a reachable state, with an id that names no element and a tag list
    that normalizes to at least one tag, [add_tags] and [set_tags] raise the
    [IntegrityError] of the foreign key and leave the tables as they were;
    with a list that normalizes to nothing, [add_tags] returns 0 and
    [set_tags] returns, again without a change. *)
Theorem tags_need_element (p : process) (element_id : string)
    (tags norm : list string) :
  reachable p ->
  ~ In element_id (map el_id (elements (db (conn p)))) ->
  _normalize_tags tags = Ok norm ->
  fst (add_tags element_id tags p) =
    match norm with
    | [] => Ok 0%Z
    | _ :: _ => Raise (IntegrityError FK_element_tags)
    end /\
  db (conn (snd (add_tags element_id tags p))) = db (conn p) /\
  fst (set_tags element_id tags p) =
    match norm with
    | [] => Ok tt
    | _ :: _ => Raise (IntegrityError FK_element_tags)
    end /\
  db (conn (snd (set_tags element_id tags p))) = db (conn p).
Proof.
  intros Hp Habs Hnorm.
  pose proof (reachable_refs_ok p Hp) as Hok.
  assert (Hex : Sql.element_exists (db (conn p)) element_id = false).
  { destruct (Sql.element_exists (db (conn p)) element_id) eqn:E; [|reflexivity].
    apply element_exists_In in E. contradiction. }
  pose proof (no_tag_rows_of_absent _ _ Hok Hex) as Hrows.
  assert (Hnone : forall t, Sql.tag_exists (db (conn p)) element_id t = false).
  { intros t. unfold Sql.tag_exists.
    destruct (existsb _ _) eqn:E; [|reflexivity].
    apply existsb_exists in E as (r & Hr & Hh).
    rewrite (Hrows r Hr) in Hh. discriminate. }
  assert (Hdel : filter (fun r => negb (et_element_id r =? element_id))
                   (element_tags (db (conn p))) = element_tags (db (conn p))).
  { apply filter_all. intros r Hr. now rewrite (Hrows r Hr). }
  assert (Hdb : mk_database (elements (db (conn p))) (element_tags (db (conn p)))
                  (element_links (db (conn p))) = db (conn p))
    by now destruct (db (conn p)).
  unfold add_tags, set_tags.
  rewrite !(bind_ok _ _ p norm p) by (unfold lift; now rewrite Hnorm).
  destruct norm as [|t norm].
  - repeat split.
    + unfold bind, now_utc_iso, execute, Sql.delete_element_tags, commit, ret,
        with_conn. cbn [for_each fst snd conn db]. cbv zeta.
      now rewrite Hdel, Hdb.
  - repeat split.
    + unfold bind at 1, now_utc_iso at 1. cbn [for_sum].
      unfold bind at 1. unfold bind at 1, execute at 1.
      unfold Sql.insert_or_ignore_element_tag. cbn [conn db et_element_id et_tag].
      now rewrite Hnone, Hex.
    + unfold bind at 1, now_utc_iso at 1. cbn [for_sum].
      unfold bind at 1. unfold bind at 1, execute at 1.
      unfold Sql.insert_or_ignore_element_tag. cbn [conn db et_element_id et_tag].
      now rewrite Hnone, Hex.
    + erewrite bind_ok by reflexivity. erewrite bind_ok by reflexivity.
      erewrite bind_raise; [reflexivity|].
      cbn [for_each]. apply bind_raise. apply bind_raise.
      unfold execute, Sql.insert_element_tag.
      cbn [conn db et_element_id et_tag element_tags elements with_conn].
      unfold Sql.delete_element_tags. cbv zeta. cbn [conn db with_conn].
      rewrite Hdel.
      replace (Sql.tag_exists _ element_id t) with false
        by (symmetry; apply Hnone).
      replace (Sql.element_exists _ element_id) with false
        by (symmetry; exact Hex).
      reflexivity.
    + erewrite bind_ok by reflexivity. erewrite bind_ok by reflexivity.
      erewrite bind_raise.
      2:{ cbn [for_each]. apply bind_raise. apply bind_raise.
          unfold execute, Sql.insert_element_tag.
          cbn [conn db et_element_id et_tag element_tags elements with_conn].
          unfold Sql.delete_element_tags. cbv zeta. cbn [conn db with_conn].
          rewrite Hdel.
          replace (Sql.tag_exists _ element_id t) with false
            by (symmetry; apply Hnone).
          replace (Sql.element_exists _ element_id) with false
            by (symmetry; exact Hex).
          reflexivity. }
      cbn [snd conn db with_conn]. exact Hdb.
Qed.

Lemma tags_need_element_witness :
  fst (add_tags "nobody" [ "x" ] tagged_process)
    = Raise (IntegrityError FK_element_tags) /\
  db (conn (snd (add_tags "nobody" [ "x" ] tagged_process))) = db (conn tagged_process) /\
  fst (set_tags "nobody" [ "x" ] tagged_process)
    = Raise (IntegrityError FK_element_tags) /\
  db (conn (snd (set_tags "nobody" [ "x" ] tagged_process))) = db (conn tagged_process).
Proof.
  apply (tags_need_element tagged_process "nobody" [ "x" ] [ "x" ]).
  - apply tagged_process_reachable.
  - vm_compute. intuition discriminate.
  - vm_compute. reflexivity.
Defined.

(** ** Deleting *)

Lemma find_filter_keep {A : Type} (f keep : A -> bool) (l : list A) :
  (forall x, f x = true -> keep x = true) -> find f (filter keep l) = find f l.
Proof.
  intros H. induction l as [|x l IH]; simpl; [reflexivity|].
  destruct (f x) eqn:Ef.
  - rewrite (H x Ef). simpl. now rewrite Ef.
  - destruct (keep x); simpl; [now rewrite Ef|]; exact IH.
Qed.

Lemma find_filter_drop {A : Type} (f keep : A -> bool) (l : list A) :
  (forall x, f x = true -> keep x = false) -> find f (filter keep l) = None.
Proof.
  intros H. induction l as [|x l IH]; simpl; [reflexivity|].
  destruct (keep x) eqn:Ek; [|exact IH].
  simpl. destruct (f x) eqn:Ef; [|exact IH].
  rewrite (H x Ef) in Ek. discriminate.
Qed.

Lemma rowcount_positive {A : Type} (hit : A -> bool) (l : list A) :
  (0 <? Z.of_nat (List.length (filter hit l)))%Z = existsb hit l.
Proof.
  induction l as [|x l IH]; simpl; [reflexivity|].
  destruct (hit x); simpl; [reflexivity | exact IH].
Qed.

Lemma tags_of_other_kept element_id other (rows : list element_tag) :
  other <> element_id ->
  filter (fun r => et_element_id r =? other)
    (filter (fun r => negb (et_element_id r =? element_id)) rows)
  = filter (fun r => et_element_id r =? other) rows.
Proof.
  intros Hne. rewrite filter_filter. apply filter_ext. intros r.
  destruct (et_element_id r =? other) eqn:E; [|now rewrite andb_false_r].
  apply String.eqb_eq in E. rewrite E.
  apply String.eqb_neq in Hne. now rewrite Hne.
Qed.

Lemma get_element_eq element_id q :
  get_element element_id true q =
  (Ok (option_map
         (fun r => mk_element_dict r
                     (Some (Sql.select_tags element_id (db (conn q)))))
         (Sql.select_element element_id (db (conn q)))), q).
Proof.
  unfold get_element, bind, query, list_tags, ret.
  now destruct (Sql.select_element element_id (db (conn q))).
Qed.

(** X12.  [delete_element] on an id of the store returns [True]; then the
    element is gone, it lists no tag, the links left are exactly the old
    ones that do not touch it, every other element reads as before (row and
    tags), and all of this is committed.  On an id that names no element it
    returns [False] and changes no table. *)
Theorem delete_element_cascade (p : process) (element_id : string) :
  let r := delete_element element_id p in
  (Sql.element_exists (db (conn p)) element_id = true ->
   fst r = Ok true /\
   fst (get_element element_id true (snd r)) = Ok None /\
   fst (list_tags element_id (snd r)) = Ok [] /\
   (forall l, In l (element_links (db (conn (snd r)))) <->
              In l (element_links (db (conn p))) /\
              ln_src_id l <> element_id /\ ln_dst_id l <> element_id) /\
   (forall other, other <> element_id ->
      fst (get_element other true (snd r)) = fst (get_element other true p)) /\
   committed (conn (snd r)) = db (conn (snd r))) /\
  (Sql.element_exists (db (conn p)) element_id = false ->
   fst r = Ok false /\ db (conn (snd r)) = db (conn p)).
Proof.
  intros r. subst r.
  unfold delete_element, bind, execute, Sql.delete_element, commit, ret, with_conn.
  cbv zeta. fold (Sql.element_exists (db (conn p)) element_id).
  split; intros Hex; rewrite Hex; cbn [negb fst snd conn db committed].
  - split; [|split; [|split; [|split; [|split]]]].
    + f_equal. rewrite rowcount_positive. exact Hex.
    + rewrite get_element_eq. cbn [fst snd conn db].
      unfold Sql.select_element. cbn [elements].
      rewrite find_filter_drop; [reflexivity|].
      intros e He. now rewrite He.
    + unfold list_tags, query. cbn [fst snd conn db]. f_equal.
      rewrite select_tags_tags_of. unfold tags_of. cbn [element_tags].
      rewrite filter_filter.
      erewrite (filter_ext _ (fun _ => false)) by (intros x; apply andb_negb_l).
      clear. induction (element_tags (db (conn p))); auto.
    + intros l. cbn [element_links]. rewrite filter_In, negb_true_iff, orb_false_iff.
      rewrite !String.eqb_neq. reflexivity.
    + intros other Hne. rewrite !get_element_eq. cbn [fst snd conn db].
      unfold Sql.select_element. cbn [elements].
      rewrite find_filter_keep.
      2:{ intros e He. apply String.eqb_eq in He. rewrite He.
          apply negb_true_iff, String.eqb_neq. exact Hne. }
      rewrite !select_tags_tags_of. unfold tags_of. cbn [element_tags].
      now rewrite tags_of_other_kept.
    + reflexivity.
  - split; reflexivity.
Qed.

Lemma delete_element_cascade_witness :
  let r := delete_element "p" tagged_process in
  fst r = Ok true /\
  fst (get_element "p" true (snd r)) = Ok None /\
  fst (list_tags "p" (snd r)) = Ok [] /\
  (forall l, In l (element_links (db (conn (snd r)))) <->
             In l (element_links (db (conn tagged_process))) /\
             ln_src_id l <> "p" /\ ln_dst_id l <> "p") /\
  (forall other, other <> "p" ->
     fst (get_element other true (snd r)) = fst (get_element other true tagged_process)) /\
  committed (conn (snd r)) = db (conn (snd r)).
Proof.
  apply (proj1 (delete_element_cascade tagged_process "p")).
  vm_compute. reflexivity.
Defined.

(** X13.  [delete_link] returns whether a link with the id was there; then
    [get_link] on the id finds nothing, every other link reads as before,
    elements and tags are untouched, and the result is committed. *)
Theorem delete_link_effect (p : process) (link_id : string) :
  let r := delete_link link_id p in
  fst r = Ok (Sql.link_exists (db (conn p)) link_id) /\
  fst (get_link link_id (snd r)) = Ok None /\
  (forall other, other <> link_id ->
     fst (get_link other (snd r)) = fst (get_link other p)) /\
  elements (db (conn (snd r))) = elements (db (conn p)) /\
  element_tags (db (conn (snd r))) = element_tags (db (conn p)) /\
  committed (conn (snd r)) = db (conn (snd r)).
Proof.
  intros r. subst r.
  unfold delete_link, bind, execute, Sql.delete_element_link, commit, ret, with_conn.
  cbv zeta. cbn [fst snd conn db committed elements element_tags].
  split; [|split; [|split; [|split; [|split]]]]; try reflexivity.
  - f_equal. apply rowcount_positive.
  - unfold get_link, query, Sql.select_link. cbn [fst snd conn db element_links].
    rewrite find_filter_drop; [reflexivity|].
    intros l Hl. now rewrite Hl.
  - intros other Hne.
    unfold get_link, query, Sql.select_link. cbn [fst snd conn db element_links].
    rewrite find_filter_keep; [reflexivity|].
    intros l Hl. apply String.eqb_eq in Hl. rewrite Hl.
    apply negb_true_iff, String.eqb_neq. exact Hne.
Qed.

Lemma delete_link_effect_witness :
  let r := delete_link "L" tagged_process in
  fst r = Ok true /\
  fst (get_link "L" (snd r)) = Ok None /\
  (forall other, other <> "L" ->
     fst (get_link other (snd r)) = fst (get_link other tagged_process)) /\
  elements (db (conn (snd r))) = elements (db (conn tagged_process)) /\
  element_tags (db (conn (snd r))) = element_tags (db (conn tagged_process)) /\
  committed (conn (snd r)) = db (conn (snd r)).
Proof. exact (delete_link_effect tagged_process "L"). Defined.

(** ** Pagination *)

Lemma pagination_ok limit offset :
  (forall n, limit = Some n -> (1 <= n)%Z) ->
  (forall k, offset = Some k -> (0 <= k)%Z) ->
  exists lc,
    pagination limit offset = Ok lc /\
    (forall (A : Type) (rows : list A),
       Sql.apply_limit lc rows = page limit offset rows) /\
    Sql.bind_limit lc =
    if match limit with Some n => (n <? 2 ^ 63)%Z | None => true end &&
       match offset with Some k => (k <? 2 ^ 63)%Z | None => true end
    then Ok tt else Raise OverflowError.
Proof.
  intros Hl Ho. unfold pagination, page.
  assert (Hfit : forall n, (0 <= n)%Z -> Sql.fits_integer n = (n <? 2 ^ 63)%Z).
  { intros n Hn. unfold Sql.fits_integer.
    assert (H : (- 2 ^ 63 <=? n)%Z = true) by (apply Z.leb_le; lia).
    now rewrite H. }
  destruct limit as [n|], offset as [k|].
  - specialize (Hl n eq_refl). specialize (Ho k eq_refl).
    destruct (n <? 1)%Z eqn:En; [apply Z.ltb_lt in En; lia|].
    destruct (k <? 0)%Z eqn:Ek; [apply Z.ltb_lt in Ek; lia|].
    eexists. split; [reflexivity|]. split.
    + intros A rows. cbn [Sql.apply_limit]. unfold Sql.take.
      destruct (n <? 0)%Z eqn:En0; [apply Z.ltb_lt in En0; lia|].
      now rewrite first_rows_firstn, skip_rows_skipn.
    + cbn [Sql.bind_limit]. now rewrite !Hfit by lia.
  - specialize (Hl n eq_refl).
    destruct (n <? 1)%Z eqn:En; [apply Z.ltb_lt in En; lia|].
    eexists. split; [reflexivity|]. split.
    + intros A rows. cbn [Sql.apply_limit]. unfold Sql.take.
      destruct (n <? 0)%Z eqn:En0; [apply Z.ltb_lt in En0; lia|].
      now rewrite first_rows_firstn.
    + cbn [Sql.bind_limit]. now rewrite Hfit, andb_true_r by lia.
  - specialize (Ho k eq_refl).
    destruct (k <? 0)%Z eqn:Ek; [apply Z.ltb_lt in Ek; lia|].
    eexists. split; [reflexivity|].
    split; [intros A rows; apply apply_limit_offset_only|].
    cbn [Sql.bind_limit]. rewrite (Hfit k) by lia.
    assert (H1 : Sql.fits_integer (-1) = true) by reflexivity.
    now rewrite H1.
  - eexists. split; [reflexivity|]. split; [intros A rows; reflexivity|reflexivity].
Qed.

Lemma page_map {A B : Type} (f : A -> B) limit offset (rows : list A) :
  page limit offset (map f rows) = map f (page limit offset rows).
Proof.
  unfold page. destruct offset as [k|], limit as [n|];
    now rewrite ?skipn_map_comm, ?firstn_map.
Qed.

Lemma page_length {A : Type} n offset (rows : list A) :
  (List.length (page (Some n) offset rows) <= Z.to_nat n)%nat.
Proof. unfold page. rewrite length_firstn. lia. Qed.

(** X14.  With a [limit] from 1 and an [offset] from 0, both below 2^63
    (each may be absent), [list_elements] and [list_links] answer with the
    window of the unpaginated listing: the first [offset] rows skipped,
    then at most [limit] rows; a call that raises without pagination raises
    the same.  So no page is longer than [limit].  A [limit] or an
    [offset] of 2^63 or more does not fit the engine's INTEGER: a call that
    returns without pagination then raises [OverflowError]. *)
Theorem listing_page (p : process) (limit offset : option Z) :
  (forall n, limit = Some n -> (1 <= n)%Z) ->
  (forall k, offset = Some k -> (0 <= k)%Z) ->
  ((forall n, limit = Some n -> (n < 2 ^ 63)%Z) ->
   (forall k, offset = Some k -> (k < 2 ^ 63)%Z) ->
   (forall type q tag format order_by order_dir include_tags,
      list_elements type q tag format limit offset order_by order_dir include_tags p
      = (result_map (page limit offset)
           (fst (list_elements type q tag format None None order_by order_dir
                   include_tags p)), p)) /\
   (forall src_id dst_id rel order_by order_dir,
      list_links src_id dst_id rel limit offset order_by order_dir p
      = (result_map (page limit offset)
           (fst (list_links src_id dst_id rel None None order_by order_dir p)), p)) /\
   (forall n, limit = Some n ->
      (forall type q tag format order_by order_dir include_tags rows,
         fst (list_elements type q tag format limit offset order_by order_dir
                include_tags p) = Ok rows ->
         (List.length rows <= Z.to_nat n)%nat) /\
      (forall src_id dst_id rel order_by order_dir rows,
         fst (list_links src_id dst_id rel limit offset order_by order_dir p) = Ok rows ->
         (List.length rows <= Z.to_nat n)%nat))) /\
  ((exists n, limit = Some n /\ (2 ^ 63 <= n)%Z) \/
   (exists k, offset = Some k /\ (2 ^ 63 <= k)%Z) ->
   (forall type q tag format order_by order_dir include_tags rows,
      fst (list_elements type q tag format None None order_by order_dir
             include_tags p) = Ok rows ->
      list_elements type q tag format limit offset order_by order_dir include_tags p
      = (Raise OverflowError, p)) /\
   (forall src_id dst_id rel order_by order_dir rows,
      fst (list_links src_id dst_id rel None None order_by order_dir p) = Ok rows ->
      list_links src_id dst_id rel limit offset order_by order_dir p
      = (Raise OverflowError, p))).
Proof.
  intros Hl Ho.
  destruct (pagination_ok limit offset Hl Ho) as (lc & Hlc & Happ & Hbind).
  split.
  - intros Hln Hon.
    assert (Hfit : Sql.bind_limit lc = Ok tt).
    { rewrite Hbind.
      assert (H1 : match limit with Some n => (n <? 2 ^ 63)%Z | None => true end = true)
        by (destruct limit as [n|]; [apply Z.ltb_lt; now apply Hln | reflexivity]).
      assert (H2 : match offset with Some k => (k <? 2 ^ 63)%Z | None => true end = true)
        by (destruct offset as [k|]; [apply Z.ltb_lt; now apply Hon | reflexivity]).
      now rewrite H1, H2. }
    assert (He : forall type q tag format order_by order_dir include_tags,
       list_elements type q tag format limit offset order_by order_dir include_tags p
       = (result_map (page limit offset)
            (fst (list_elements type q tag format None None order_by order_dir
                    include_tags p)), p)).
    { intros. unfold list_elements. rewrite Hlc.
      unfold pagination, bind, lift, ret, raise, fetch. cbv zeta.
      destruct type as [t|]; [destruct (validate_type t)|]; cbv beta iota;
        try reflexivity;
        (destruct format as [f|]; [destruct (validate_format f)|]; cbv beta iota;
         try reflexivity);
        (destruct (negb (Py.mem order_by _)); [reflexivity|]);
        (destruct (negb (Py.mem (Py.upper order_dir) _)); [reflexivity|]);
        (destruct tag as [tg|]; [destruct (_normalize_tag tg)|]; cbv beta iota;
         try reflexivity);
        rewrite Hfit; cbn [Sql.bind_limit]; cbv beta iota;
        rewrite (select_elements_limit _ _ _ _ _ _ lc);
        destruct (Sql.select_elements _ _ _ _ _ _ Sql.NoLimit _);
        cbn [result_map fst]; try reflexivity;
        rewrite !with_tags_eq; cbn [fst result_map Sql.apply_limit];
        rewrite Happ; now rewrite page_map. }
    assert (Hk : forall src_id dst_id rel order_by order_dir,
       list_links src_id dst_id rel limit offset order_by order_dir p
       = (result_map (page limit offset)
            (fst (list_links src_id dst_id rel None None order_by order_dir p)), p)).
    { intros. unfold list_links. rewrite Hlc.
      unfold pagination, bind, lift, ret, raise, query. cbv zeta.
      rewrite Hfit. cbn [Sql.bind_limit].
      destruct (negb (Py.mem order_by _)); [reflexivity|].
      destruct (negb (Py.mem (Py.upper order_dir) _)); [reflexivity|].
      destruct (if_truthy rel) as [r|]; [destruct (validate_rel r)|];
        cbv beta iota; try reflexivity.
      - cbn [fst result_map]. unfold Sql.select_links. now rewrite Happ.
      - cbn [fst result_map]. unfold Sql.select_links. now rewrite Happ. }
    split; [exact He|]. split; [exact Hk|].
    intros n ->. split.
    + intros type q tag format order_by order_dir include_tags rows.
      rewrite He. cbn [fst].
      destruct (fst (list_elements _ _ _ _ None None _ _ _ p)); [|discriminate].
      cbn [result_map]. intros H. inversion H; subst. apply page_length.
    + intros src_id dst_id rel order_by order_dir rows.
      rewrite Hk. cbn [fst].
      destruct (fst (list_links _ _ _ None None _ _ p)); [|discriminate].
      cbn [result_map]. intros H. inversion H; subst. apply page_length.
  - intros Hbig.
    assert (Hover : Sql.bind_limit lc = Raise OverflowError).
    { rewrite Hbind. destruct Hbig as [(n & -> & Hn) | (k & -> & Hn)].
      - assert (H : (n <? 2 ^ 63)%Z = false) by (apply Z.ltb_ge; lia).
        now rewrite H.
      - assert (H : (k <? 2 ^ 63)%Z = false) by (apply Z.ltb_ge; lia).
        now rewrite H, andb_false_r. }
    split; intros until rows.
    + unfold list_elements. rewrite Hlc.
      unfold pagination, bind, lift, ret, raise, fetch. cbv zeta.
      destruct type as [t|]; [destruct (validate_type t)|]; cbv beta iota;
        try discriminate;
        (destruct format as [f|]; [destruct (validate_format f)|]; cbv beta iota;
         try discriminate);
        (destruct (negb (Py.mem order_by _)); [discriminate|]);
        (destruct (negb (Py.mem (Py.upper order_dir) _)); [discriminate|]);
        (destruct tag as [tg|]; [destruct (_normalize_tag tg)|]; cbv beta iota;
         try discriminate);
        rewrite Hover; reflexivity.
    + unfold list_links. rewrite Hlc.
      unfold pagination, bind, lift, ret, raise, query. cbv zeta.
      rewrite Hover. cbn [Sql.bind_limit].
      destruct (negb (Py.mem order_by _)); [discriminate|].
      destruct (negb (Py.mem (Py.upper order_dir) _)); [discriminate|].
      destruct (if_truthy rel) as [r|]; [destruct (validate_rel r)|];
        cbv beta iota; try discriminate; reflexivity.
Qed.

Lemma listing_page_witness :
  list_elements None None None None (Some 1%Z) (Some 1%Z) "title" "asc" false
    tagged_process
  = (result_map (page (Some 1%Z) (Some 1%Z))
       (fst (list_elements None None None None None None "title" "asc" false
               tagged_process)), tagged_process) /\
  list_links None None None (Some 5%Z) None "rel" "desc" tagged_process
  = (result_map (page (Some 5%Z) None)
       (fst (list_links None None None None None "rel" "desc" tagged_process)),
     tagged_process) /\
  list_links None None None (Some (2 ^ 63)%Z) None "rel" "desc" tagged_process
  = (Raise OverflowError, tagged_process).
Proof.
  assert (Hl : forall n, Some 1%Z = Some n -> (1 <= n)%Z)
    by (intros n H; inversion H; lia).
  assert (Ho : forall k, Some 1%Z = Some k -> (0 <= k)%Z)
    by (intros n H; inversion H; lia).
  assert (Hl5 : forall n, Some 5%Z = Some n -> (1 <= n)%Z)
    by (intros n H; inversion H; lia).
  assert (Hn : forall k, @None Z = Some k -> (0 <= k)%Z) by discriminate.
  assert (Hlb : forall n, Some 1%Z = Some n -> (n < 2 ^ 63)%Z)
    by (intros n H; inversion H; reflexivity).
  assert (Hl5b : forall n, Some 5%Z = Some n -> (n < 2 ^ 63)%Z)
    by (intros n H; inversion H; reflexivity).
  assert (Hnb : forall k, @None Z = Some k -> (k < 2 ^ 63)%Z) by discriminate.
  assert (Hbig : forall n, Some (2 ^ 63)%Z = Some n -> (1 <= n)%Z)
    by (intros n H; inversion H; discriminate).
  split; [|split].
  - apply (proj1 (proj1 (listing_page tagged_process (Some 1%Z) (Some 1%Z) Hl Ho)
                    Hlb Hlb)).
  - apply (proj1 (proj2 (proj1 (listing_page tagged_process (Some 5%Z) None Hl5 Hn)
                           Hl5b Hnb))).
  - destruct (proj2 (listing_page tagged_process (Some (2 ^ 63)%Z) None Hbig Hn))
      as [_ H].
    + left. exists (2 ^ 63)%Z. split; [reflexivity | apply Z.le_refl].
    + eapply H. reflexivity.
Defined.

(** X15.  A [limit] below 1 and an [offset] below 0 are refused.  For
    arguments with which the unpaginated call returns: [list_elements] and
    [list_links] with a limit below 1 raise "limit must be >= 1" whatever
    the offset, and with an acceptable limit and an offset below 0 they
    raise "offset must be >= 0"; [list_elements_by_tag] and
    [list_links_for_element] raise "limit must be >= 1" likewise.  Nothing
    is changed. *)
Theorem pagination_refused (p : process) :
  (forall type q tag format order_by order_dir include_tags rows,
     fst (list_elements type q tag format None None order_by order_dir include_tags p)
       = Ok rows ->
     (forall n offset, (n < 1)%Z ->
        list_elements type q tag format (Some n) offset order_by order_dir
          include_tags p = (Raise (ValueError limit_must_be_ge_1), p)) /\
     (forall limit k, (k < 0)%Z -> (forall n, limit = Some n -> (1 <= n)%Z) ->
        list_elements type q tag format limit (Some k) order_by order_dir
          include_tags p = (Raise (ValueError offset_must_be_ge_0), p))) /\
  (forall src_id dst_id rel order_by order_dir rows,
     fst (list_links src_id dst_id rel None None order_by order_dir p) = Ok rows ->
     (forall n offset, (n < 1)%Z ->
        list_links src_id dst_id rel (Some n) offset order_by order_dir p
        = (Raise (ValueError limit_must_be_ge_1), p)) /\
     (forall limit k, (k < 0)%Z -> (forall n, limit = Some n -> (1 <= n)%Z) ->
        list_links src_id dst_id rel limit (Some k) order_by order_dir p
        = (Raise (ValueError offset_must_be_ge_0), p))) /\
  (forall tag rows n,
     fst (list_elements_by_tag tag None p) = Ok rows -> (n < 1)%Z ->
     list_elements_by_tag tag (Some n) p = (Raise (ValueError limit_must_be_ge_1), p)) /\
  (forall element_id direction rel rows n,
     fst (list_links_for_element element_id direction rel None p) = Ok rows ->
     (n < 1)%Z ->
     list_links_for_element element_id direction rel (Some n) p
     = (Raise (ValueError limit_must_be_ge_1), p)).
Proof.
  assert (Hlim : forall n offset, (n < 1)%Z ->
            pagination (Some n) offset = Raise (ValueError limit_must_be_ge_1)).
  { intros n offset Hn. unfold pagination.
    destruct (n <? 1)%Z eqn:E; [reflexivity | apply Z.ltb_ge in E; lia]. }
  assert (Hoff : forall limit k, (k < 0)%Z ->
            (forall n, limit = Some n -> (1 <= n)%Z) ->
            pagination limit (Some k) = Raise (ValueError offset_must_be_ge_0)).
  { intros limit k Hk Hl. unfold pagination.
    assert (Ek : (k <? 0)%Z = true) by now apply Z.ltb_lt.
    destruct limit as [n|]; rewrite Ek; [|reflexivity].
    specialize (Hl n eq_refl).
    destruct (n <? 1)%Z eqn:E; [apply Z.ltb_lt in E; lia | reflexivity]. }
  assert (Htail : forall n, (n < 1)%Z ->
            limit_tail (Some n) = Raise (ValueError limit_must_be_ge_1)).
  { intros n Hn. unfold limit_tail.
    destruct (n <? 1)%Z eqn:E; [reflexivity | apply Z.ltb_ge in E; lia]. }
  split; [|split; [|split]].
  - intros type q tag format order_by order_dir include_tags rows Hfull.
    split; [intros n offset Hn | intros limit k Hk Hl];
      unfold list_elements in *;
      [rewrite (Hlim n offset Hn) | rewrite (Hoff limit k Hk Hl)];
      unfold pagination, bind, lift, ret, raise, fetch in *;
      (destruct type as [t|]; [destruct (validate_type t)|]; cbv beta iota in *;
       try discriminate);
      (destruct format as [f|]; [destruct (validate_format f)|]; cbv beta iota in *;
       try discriminate);
      (destruct (negb (Py.mem order_by _)); [discriminate|]);
      (destruct (negb (Py.mem (Py.upper order_dir) _)); [discriminate|]);
      (destruct tag as [tg|]; [destruct (_normalize_tag tg)|]; cbv beta iota in *;
       try discriminate);
      reflexivity.
  - intros src_id dst_id rel order_by order_dir rows Hfull.
    split; [intros n offset Hn | intros limit k Hk Hl];
      unfold list_links in *;
      [rewrite (Hlim n offset Hn) | rewrite (Hoff limit k Hk Hl)];
      unfold pagination, bind, lift, ret, raise, query in *; cbv zeta in *;
      (destruct (negb (Py.mem order_by _)); [discriminate|]);
      (destruct (negb (Py.mem (Py.upper order_dir) _)); [discriminate|]);
      (destruct (if_truthy rel) as [r|]; [destruct (validate_rel r)|];
       cbv beta iota in *; try discriminate);
      reflexivity.
  - intros tag rows n Hfull Hn. unfold list_elements_by_tag in *.
    rewrite (Htail n Hn).
    unfold limit_tail, bind, lift, ret, raise, fetch in *.
    destruct (_normalize_tag tag); cbv beta iota in *; [reflexivity | discriminate].
  - intros element_id direction rel rows n Hfull Hn.
    unfold list_links_for_element in *. rewrite (Htail n Hn).
    unfold limit_tail, bind, lift, ret, raise, query in *. cbv zeta in *.
    destruct (negb (Py.mem _ _)); [discriminate|].
    destruct rel as [r|]; [destruct (validate_rel r)|]; cbv beta iota in *;
      try discriminate; reflexivity.
Qed.

Lemma pagination_refused_witness :
  list_elements None None None None (Some 0%Z) None "updated_at" "DESC" false
    tagged_process = (Raise (ValueError limit_must_be_ge_1), tagged_process) /\
  list_links None None None None (Some (-1)%Z) "updated_at" "DESC" tagged_process
  = (Raise (ValueError offset_must_be_ge_0), tagged_process).
Proof.
  destruct (pagination_refused tagged_process) as (He & Hk & _).
  destruct (He None None None None "updated_at" "DESC" false _ eq_refl) as [H1 _].
  destruct (Hk None None None "updated_at" "DESC" _ eq_refl) as [_ H2].
  split.
  - apply H1. lia.
  - apply H2; [lia | discriminate].
Defined.

(** ** What the listings contain *)

Lemma order_by_In {A : Type} (le : A -> A -> bool) (l : list A) x :
  In x (Sql.order_by le l) <-> In x l.
Proof.
  pose proof (order_by_perm le l) as Hperm. split; intros H.
  - now apply (Permutation_in _ Hperm).
  - now apply (Permutation_in _ (Permutation_sym Hperm)).
Qed.

Lemma direction_total {A : Type} (column : A -> string) dir a b :
  Sql.direction dir (fun x y => String.leb (column x) (column y)) a b = true \/
  Sql.direction dir (fun x y => String.leb (column x) (column y)) b a = true.
Proof.
  unfold Sql.direction. destruct (dir =? "DESC"); apply String.leb_total.
Qed.

Lemma listing_sorted {A : Type} (column : A -> string) order_dir (l : list A) :
  Sorted (listed_before column order_dir)
    (Sql.order_by
       (Sql.direction (Py.upper order_dir)
          (fun x y => String.leb (column x) (column y))) l).
Proof.
  pose proof (order_by_sorted _ (direction_total column (Py.upper order_dir)) l) as H.
  assert (Himp : forall a b,
            Sql.direction (Py.upper order_dir)
              (fun x y => String.leb (column x) (column y)) a b = true ->
            listed_before column order_dir a b).
  { intros a b. unfold Sql.direction, listed_before.
    now destruct (Py.upper order_dir =? "DESC"). }
  induction H as [|a l' Hs IH Hhd]; constructor; [exact IH|].
  destruct Hhd; constructor. now apply Himp.
Qed.

Lemma where_eq_truthy {A : Type} (col : A -> string) (v : option string) (r : A) :
  Sql.where_eq col (if_truthy v) r = true <->
  (forall s, v = Some s -> s <> "" -> col r = s).
Proof.
  unfold if_truthy, Py.truthy_opt. destruct v as [s|]; simpl.
  - destruct (Py.truthy s) eqn:E; simpl.
    + rewrite String.eqb_eq. apply truthy_not_empty in E. split.
      * intros H s' Hs _. inversion Hs; subst. reflexivity.
      * intros H. now apply H.
    + split; [|reflexivity]. intros _ s' Hs Hne. inversion Hs; subst.
      apply truthy_not_empty in Hne. congruence.
  - split; [|reflexivity]. intros _ s' Hs. discriminate.
Qed.

Lemma list_links_rows p src_id dst_id rel order_by order_dir rows :
  fst (list_links src_id dst_id rel None None order_by order_dir p) = Ok rows ->
  rows =
  Sql.order_by
    (Sql.direction (Py.upper order_dir)
       (fun a b => String.leb (Sql.link_column order_by a) (Sql.link_column order_by b)))
    (filter
       (fun l =>
          Sql.where_eq ln_src_id (if_truthy src_id) l &&
          Sql.where_eq ln_dst_id (if_truthy dst_id) l &&
          Sql.where_eq ln_rel (if_truthy rel) l)
       (element_links (db (conn p)))).
Proof.
  unfold list_links, pagination, bind, lift, ret, raise, query. cbv zeta.
  destruct (negb (Py.mem order_by _)); [discriminate|].
  destruct (negb (Py.mem (Py.upper order_dir) _)); [discriminate|].
  destruct (if_truthy rel) as [r|]; [destruct (validate_rel r)|];
    cbv beta iota; try discriminate;
    intros H; inversion H; reflexivity.
Qed.

(** X16.  When [list_links] returns without pagination, the rows are
    exactly the links of the store that meet every filter given (a filter
    passed as the empty string is ignored), sorted on the chosen column in
    the chosen direction; in a reachable state no link is listed twice. *)
Theorem list_links_content (p : process) (src_id dst_id rel : option string)
    (order_by order_dir : string) (rows : list element_link) :
  fst (list_links src_id dst_id rel None None order_by order_dir p) = Ok rows ->
  (forall l, In l rows <->
             In l (element_links (db (conn p))) /\ link_matches src_id dst_id rel l) /\
  Sorted (listed_before (Sql.link_column order_by) order_dir) rows /\
  (reachable p -> NoDup rows).
Proof.
  intros H. apply list_links_rows in H. subst rows.
  split; [|split].
  - intros l. rewrite order_by_In, filter_In. cbv beta.
    rewrite !andb_true_iff, !where_eq_truthy. unfold link_matches. tauto.
  - apply listing_sorted.
  - intros Hp.
    apply (Permutation_NoDup (Permutation_sym (order_by_perm _ _))).
    apply NoDup_filter. apply (NoDup_map_inv ln_id).
    apply ok_links_pk. now apply reachable_db_ok.
Qed.

Lemma list_links_content_witness :
  (forall l, In l [ mk_element_link "L" "p" "t" "proves" "" "2" "2" ] <->
             In l (element_links (db (conn tagged_process))) /\
             link_matches (Some "p") (Some "") None l) /\
  Sorted (listed_before (Sql.link_column "rel") "desc")
    [ mk_element_link "L" "p" "t" "proves" "" "2" "2" ] /\
  (reachable tagged_process ->
   NoDup [ mk_element_link "L" "p" "t" "proves" "" "2" "2" ]).
Proof.
  apply (list_links_content tagged_process (Some "p") (Some "") None "rel" "desc").
  vm_compute. reflexivity.
Defined.

Lemma joined_In (d : database) (t : string) (e : element) :
  In e (flat_map
          (fun e0 =>
             map (fun _ => e0)
               (filter (fun r => (et_element_id r =? el_id e0) && (et_tag r =? t))
                  (element_tags d)))
          (elements d))
  <-> In e (elements d) /\ Sql.tag_exists d (el_id e) t = true.
Proof.
  rewrite in_flat_map. unfold Sql.tag_exists. rewrite existsb_exists. split.
  - intros (e0 & Hin & Hm). apply in_map_iff in Hm as (r & <- & Hr).
    apply filter_In in Hr as [Hr Hh]. split; [assumption | now exists r].
  - intros (Hin & r & Hr & Hh). exists e. split; [assumption|].
    apply in_map_iff. exists r. split; [reflexivity|]. apply filter_In. now split.
Qed.

Lemma joined_NoDup (d : database) (t : string) :
  NoDup (map el_id (elements d)) ->
  NoDup (map tag_key (element_tags d)) ->
  NoDup (flat_map
           (fun e0 =>
              map (fun _ => e0)
                (filter (fun r => (et_element_id r =? el_id e0) && (et_tag r =? t))
                   (element_tags d)))
           (elements d)).
Proof.
  intros Hid Hkey.
  assert (Hone : forall e0 : element,
            le
              (List.length
                 (filter (fun r => (et_element_id r =? el_id e0) && (et_tag r =? t))
                    (element_tags d))) 1).
  { intros e0. clear Hid. induction (element_tags d) as [|r rows IH]; simpl; [lia|].
    inversion Hkey as [|? ? Hn Hnd]; subst. specialize (IH Hnd).
    destruct ((et_element_id r =? el_id e0) && (et_tag r =? t)) eqn:E; [|exact IH].
    simpl. destruct (filter _ rows) as [|r' rest] eqn:F; [simpl; lia|].
    exfalso. apply Hn.
    assert (Hr' : In r' (filter (fun r0 => (et_element_id r0 =? el_id e0)
                                           && (et_tag r0 =? t)) rows))
      by (rewrite F; now left).
    apply filter_In in Hr' as [Hin Hh]. apply in_map_iff. exists r'.
    split; [|assumption].
    apply andb_true_iff in E as [E1 E2]. apply andb_true_iff in Hh as [H1 H2].
    apply String.eqb_eq in E1, E2, H1, H2. unfold tag_key. congruence. }
  apply NoDup_map_inv in Hid as Hel.
  induction (elements d) as [|e rows IH]; simpl; [constructor|].
  inversion Hel as [|? ? Hn Hnd]; subst.
  inversion Hid as [|? ? _ Hid']; subst.
  specialize (IH Hid' Hnd). specialize (Hone e).
  destruct (filter _ (element_tags d)) as [|r [|r' rest]]; simpl in *; try lia.
  - exact IH.
  - constructor; [|exact IH].
    intros Hin. apply in_flat_map in Hin as (e0 & He0 & Hm).
    apply in_map_iff in Hm as (x & <- & _). contradiction.
Qed.

Lemma list_elements_rows p type q tag format order_by order_dir include_tags rows :
  fst (list_elements type q tag format None None order_by order_dir include_tags p)
    = Ok rows ->
  (forall t, type = Some t -> Py.mem t ELEMENT_TYPES = true) /\
  (forall f, format = Some f -> Py.mem f FORMATS = true) /\
  Sql.select_elements (option_map Py.strip tag) (if_truthy type) (if_truthy format)
    (option_map (fun s => String.append "%" (String.append s "%")) (if_truthy q))
    order_by (Py.upper order_dir) Sql.NoLimit (db (conn p))
  = Ok (map row rows).
Proof.
  assert (Hrow : forall (b : bool) (l : list element),
            map row
              (map (fun r =>
                      mk_element_dict r
                        (if b then Some (Sql.select_tags (el_id r) (db (conn p)))
                         else None)) l) = l).
  { intros b l. rewrite map_map. cbn [row]. apply map_id. }
  unfold list_elements, pagination, bind, lift, ret, raise, fetch,
    validate_type, validate_format.
  destruct type as [t|]; [destruct (Py.mem t ELEMENT_TYPES) eqn:Et|];
    cbn [negb]; cbv beta iota; try discriminate;
    (destruct format as [f|]; [destruct (Py.mem f FORMATS) eqn:Ef|];
     cbn [negb]; cbv beta iota; try discriminate);
    (destruct (negb (Py.mem order_by _)); [discriminate|]);
    (destruct (negb (Py.mem (Py.upper order_dir) _)); [discriminate|]);
    (destruct tag as [tg|];
     [destruct (_normalize_tag tg) as [n|] eqn:En; cbv beta iota;
      [apply _normalize_tag_inv in En; destruct En as (-> & _) | discriminate]
     | cbv beta iota]);
    cbn [Sql.bind_limit option_map]; cbv beta iota;
    (destruct (Sql.select_elements _ _ _ _ _ _ _ _) as [sel|]; [|discriminate]);
    rewrite with_tags_eq; cbn [fst];
    (intros H; inversion H; subst; rewrite Hrow;
     repeat split; try reflexivity;
     intros x Hx; inversion Hx; subst; assumption).
Qed.

Lemma select_elements_Ok tag type format like_pat column dir d sel :
  Sql.select_elements tag type format like_pat column dir Sql.NoLimit d = Ok sel ->
  sel =
  Sql.order_by
    (Sql.direction dir
       (fun a b =>
          String.leb (Sql.element_column column a) (Sql.element_column column b)))
    (filter
       (fun e =>
          Sql.where_eq el_type type e && Sql.where_eq el_format format e &&
          match like_pat with
          | None => true
          | Some pat => Sql.like (el_title e) pat || Sql.like (el_body e) pat
          end)
       match tag with
       | None => elements d
       | Some t =>
           flat_map
             (fun e =>
                map (fun _ => e)
                  (filter (fun r => (et_element_id r =? el_id e) && (et_tag r =? t))
                     (element_tags d)))
             (elements d)
       end) /\
  (forall pat, like_pat = Some pat -> Sql.like_too_complex pat = true -> sel = []).
Proof.
  unfold Sql.select_elements. cbv zeta.
  destruct like_pat as [pat|].
  - destruct (Sql.like_too_complex pat) eqn:Ec; cbn [andb].
    + match goal with |- context [existsb ?f ?l] => destruct (existsb f l) eqn:Ex end;
        [discriminate|].
      intros H. inversion H as [Hsel]. cbn [Sql.apply_limit] in *.
      assert (Hnil : forall (g : element -> bool) l,
                existsb (fun e => Sql.where_eq el_type type e
                                  && Sql.where_eq el_format format e) l = false ->
                filter (fun e => Sql.where_eq el_type type e
                                 && Sql.where_eq el_format format e && g e) l = []).
      { intros g l. induction l as [|e l IH]; [reflexivity|]. cbn [existsb filter].
        intros Hl. apply orb_false_iff in Hl as [H1 H2]. rewrite H1. cbn [andb].
        now apply IH. }
      split; [reflexivity|]. intros _ _ _. now rewrite (Hnil _ _ Ex).
    + intros H. inversion H. cbn [Sql.apply_limit].
      split; [reflexivity|]. intros pat' Hp. inversion Hp; subst. congruence.
  - intros H. inversion H. cbn [Sql.apply_limit].
    split; [reflexivity | discriminate].
Qed.

Lemma like_pattern_truthy (q : option string) (e : element) :
  match option_map (fun s => String.append "%" (String.append s "%")) (if_truthy q) with
  | None => true
  | Some pat => Sql.like (el_title e) pat || Sql.like (el_body e) pat
  end = true <->
  (forall s, q = Some s -> s <> "" ->
     Sql.like (el_title e) (String.append "%" (String.append s "%")) = true \/
     Sql.like (el_body e) (String.append "%" (String.append s "%")) = true).
Proof.
  unfold if_truthy, Py.truthy_opt. destruct q as [s|]; simpl.
  - destruct (Py.truthy s) eqn:E; simpl.
    + rewrite orb_true_iff. apply truthy_not_empty in E. split.
      * intros H s' Hs _. now inversion Hs; subst.
      * intros H. now apply H.
    + split; [|reflexivity]. intros _ s' Hs Hne. inversion Hs; subst.
      apply truthy_not_empty in Hne. congruence.
  - split; [|reflexivity]. intros _ s' Hs. discriminate.
Qed.

Lemma where_eq_valid {A : Type} (col : A -> string) (v : option string)
    (allowed : list string) (r : A) :
  ~ In "" allowed ->
  (forall s, v = Some s -> Py.mem s allowed = true) ->
  (Sql.where_eq col (if_truthy v) r = true <-> (forall s, v = Some s -> col r = s)).
Proof.
  intros Hne Hv. rewrite where_eq_truthy. split.
  - intros H s Hs. apply H; [assumption|].
    intros ->. apply Hne. apply mem_In. now apply Hv.
  - intros H s Hs _. now apply H.
Qed.

(** X17.  When [list_elements] returns without pagination, the elements
    listed are exactly the elements of the store that meet every filter
    given; with a tag filter, those whose [list_tags] contains the
    normalized tag.  They come sorted on the chosen column in the chosen
    direction, and in a reachable state no element is listed twice.  The
    filter [q] is the engine's [LIKE] on title and body, which reads its
    operands up to their first character of code 0 and refuses a pattern
    of more than 50000 bytes: a call that returns with such a [q] lists
    nothing. *)
Theorem list_elements_content (p : process) (type q tag format : option string)
    (order_by order_dir : string) (include_tags : bool) (rows : list element_dict) :
  fst (list_elements type q tag format None None order_by order_dir include_tags p)
    = Ok rows ->
  (forall e, In e (map row rows) <->
             In e (elements (db (conn p))) /\
             element_matches (db (conn p)) type q tag format e) /\
  Sorted (listed_before (Sql.element_column order_by) order_dir) (map row rows) /\
  (reachable p -> NoDup (map row rows)) /\
  (forall s, q = Some s -> s <> "" ->
     (Sql.MAX_LIKE_PATTERN_LENGTH
      < Sql.utf8_length (String.append "%" (String.append s "%")))%Z ->
     rows = []).
Proof.
  intros H. apply list_elements_rows in H as (Htype & Hformat & H).
  apply select_elements_Ok in H as [Hrows Hlong]. rewrite Hrows. clear Hrows.
  split; [|split; [|split]].
  - intros e. rewrite order_by_In, filter_In. cbv beta.
    rewrite !andb_true_iff, like_pattern_truthy.
    rewrite (where_eq_valid el_type type ELEMENT_TYPES)
      by (try assumption; simpl; intuition discriminate).
    rewrite (where_eq_valid el_format format FORMATS)
      by (try assumption; simpl; intuition discriminate).
    unfold element_matches. destruct tag as [t|]; cbn [option_map].
    + rewrite joined_In, tag_exists_mem, mem_In, <- select_tags_In. split.
      * intros ((Hin & Htag) & (Ht & Hf) & Hq). repeat split; try assumption.
        intros t' Ht'. now inversion Ht'; subst.
      * intros (Hin & Ht & Hf & Hq & Htag). repeat split; try assumption.
        now apply Htag.
    + split.
      * intros (Hin & (Ht & Hf) & Hq). repeat split; try assumption. discriminate.
      * intros (Hin & Ht & Hf & Hq & _). now repeat split.
  - apply listing_sorted.
  - intros Hp.
    apply (Permutation_NoDup (Permutation_sym (order_by_perm _ _))).
    apply NoDup_filter.
    pose proof (ok_elements_pk _ (reachable_db_ok p Hp)) as Hid.
    destruct tag as [t|]; cbn [option_map].
    + apply joined_NoDup; [exact Hid|].
      apply ok_tags_pk. now apply reachable_refs_ok.
    + now apply (NoDup_map_inv el_id).
  - intros s -> Hs Hlen.
    assert (Hnil : map row rows = []).
    { apply (Hlong (String.append "%" (String.append s "%"))).
      - unfold if_truthy, Py.truthy_opt. apply truthy_not_empty in Hs.
        now rewrite Hs.
      - unfold Sql.like_too_complex. now apply Z.ltb_lt. }
    now destruct rows.
Qed.

Lemma list_elements_content_witness :
  let rows := [ mk_element_dict
                  (mk_element "t" "theorem" "plain" "T" "statement" "0" "0")
                  (Some [ "a"; "b" ]) ] in
  ((forall e, In e (map row rows) <->
              In e (elements (db (conn tagged_process))) /\
              element_matches (db (conn tagged_process)) (Some "theorem") (Some "STATE")
                (Some " b ") None e) /\
   Sorted (listed_before (Sql.element_column "title") "Asc") (map row rows) /\
   (reachable tagged_process -> NoDup (map row rows))) /\
  option_map (map (fun d => el_id (row d)))
    (match fst (list_elements None (Some (String Ascii.zero "zz")) None None None None
                  "title" "Asc" false tagged_process) with
     | Ok listed => Some listed
     | Raise _ => None
     end) = Some [ "p"; "t" ].
Proof.
  intros rows. split; [|vm_compute; reflexivity].
  assert (H : fst (list_elements (Some "theorem") (Some "STATE") (Some " b ") None
                     None None "title" "Asc" true tagged_process) = Ok rows)
    by (vm_compute; reflexivity).
  destruct (list_elements_content tagged_process (Some "theorem") (Some "STATE")
              (Some " b ") None "title" "Asc" true rows H) as (H1 & H2 & H3 & _).
  split; [exact H1 | split; [exact H2 | exact H3]].
Defined.

(** ** The listings by tag and by element *)

Lemma limit_tail_pagination limit : limit_tail limit = pagination limit None.
Proof. unfold limit_tail, pagination. destruct limit as [n|]; reflexivity. Qed.

(** X18.  [list_elements_by_tag] is [list_elements] with the tag as its only
    filter, the same limit, and the default order (updated_at, descending,
    no tags in the rows): the two calls agree on every input and state, in
    what they return and in what they raise. *)
Theorem list_elements_by_tag_is_list_elements (p : process) (tag : string)
    (limit : option Z) :
  list_elements_by_tag tag limit p =
  list_elements None None (Some tag) None limit None "updated_at" "DESC" false p.
Proof.
  unfold list_elements_by_tag, list_elements. rewrite limit_tail_pagination.
  unfold bind, lift, ret, raise, fetch, with_tags. cbn [Py.mem existsb negb].
  cbn [String.eqb Ascii.eqb Bool.eqb orb].
  change (Py.upper "DESC") with "DESC".
  cbn [Py.mem existsb negb String.eqb Ascii.eqb Bool.eqb orb].
  destruct (_normalize_tag tag); [|reflexivity].
  destruct (pagination limit None) as [lc|]; [|reflexivity].
  destruct (Sql.bind_limit lc); [|reflexivity].
  destruct (Sql.select_elements _ _ _ _ _ _ _ _); reflexivity.
Qed.

Lemma or_else_both direction :
  direction <> "" -> Py.or_else (Some direction) "both" = direction.
Proof.
  intros H. unfold Py.or_else. apply truthy_not_empty in H. now rewrite H.
Qed.

Lemma lower_not_empty direction w :
  Py.lower direction = w -> w <> "" -> direction <> "".
Proof. intros H Hw ->. simpl in H. congruence. Qed.

Lemma if_truthy_some id : id <> "" -> if_truthy (Some id) = Some id.
Proof.
  intros H. unfold if_truthy, Py.truthy_opt. apply truthy_not_empty in H.
  now rewrite H.
Qed.

Lemma rel_validation_agrees (rel : option string) p :
  rel <> Some "" ->
  match rel with
  | Some r => lift (validate_rel r)
  | None => ret ""
  end p =
  match if_truthy rel with
  | Some r => lift (validate_rel r)
  | None => ret ""
  end p.
Proof.
  intros H. destruct rel as [r|]; [|reflexivity].
  rewrite if_truthy_some; [reflexivity|]. congruence.
Qed.

(** The rows of [list_links_for_element] for a direction that is accepted. *)
Lemma list_links_for_element_eq p element_id direction rel limit :
  Py.mem (Py.lower (Py.or_else (Some direction) "both")) [ "out"; "in"; "both" ]
    = true ->
  rel <> Some "" ->
  list_links_for_element element_id direction rel limit p =
  (match (match if_truthy rel with
          | Some r => validate_rel r
          | None => Ok ""
          end), pagination limit None with
   | Raise e, _ => Raise e
   | Ok _, Raise e => Raise e
   | Ok _, Ok lc =>
       match Sql.bind_limit lc with
       | Raise e => Raise e
       | Ok _ =>
           Ok (Sql.select_links
                 (fun l =>
                    (let d := Py.lower (Py.or_else (Some direction) "both") in
                     if d =? "out" then ln_src_id l =? element_id
                     else if d =? "in" then ln_dst_id l =? element_id
                     else (ln_src_id l =? element_id) || (ln_dst_id l =? element_id))
                    && Sql.where_eq ln_rel (if_truthy rel) l)
                 "updated_at" "DESC" lc (db (conn p)))
       end
   end, p).
Proof.
  intros Hdir Hrel. unfold list_links_for_element. cbv zeta. rewrite Hdir.
  cbn [negb]. rewrite limit_tail_pagination.
  unfold bind. rewrite (rel_validation_agrees rel p Hrel).
  unfold lift, ret, query.
  destruct (if_truthy rel) as [r|]; [destruct (validate_rel r)|];
    destruct (pagination limit None) as [lc|]; try reflexivity;
    destruct (Sql.bind_limit lc); reflexivity.
Qed.

Lemma list_links_eq p src_id dst_id rel limit :
  list_links src_id dst_id rel limit None "updated_at" "DESC" p =
  (match (match if_truthy rel with
          | Some r => validate_rel r
          | None => Ok ""
          end), pagination limit None with
   | Raise e, _ => Raise e
   | Ok _, Raise e => Raise e
   | Ok _, Ok lc =>
       match Sql.bind_limit lc with
       | Raise e => Raise e
       | Ok _ =>
           Ok (Sql.select_links
                 (fun l =>
                    Sql.where_eq ln_src_id (if_truthy src_id) l &&
                    Sql.where_eq ln_dst_id (if_truthy dst_id) l &&
                    Sql.where_eq ln_rel (if_truthy rel) l)
                 "updated_at" "DESC" lc (db (conn p)))
       end
   end, p).
Proof.
  unfold list_links. cbv zeta.
  change (Py.upper "DESC") with "DESC".
  change (negb (Py.mem "updated_at" [ "updated_at"; "created_at"; "rel" ])) with false.
  change (negb (Py.mem "DESC" [ "ASC"; "DESC" ])) with false.
  cbv iota. unfold bind, lift, ret, query.
  destruct (if_truthy rel) as [r|]; [destruct (validate_rel r)|];
    destruct (pagination limit None) as [lc|]; try reflexivity;
    destruct (Sql.bind_limit lc); reflexivity.
Qed.

Lemma select_links_ext (f g : element_link -> bool) column dir lc d :
  (forall l, f l = g l) ->
  Sql.select_links f column dir lc d = Sql.select_links g column dir lc d.
Proof.
  intros H. unfold Sql.select_links. now rewrite (filter_ext f g H).
Qed.

(** X19.  [list_links_for_element] on a non-empty id (and a [rel] that is
    not the empty string): with the direction "out", in any letter case, it
    is [list_links] filtered on that source, with "in" it is [list_links]
    filtered on that destination, both in the default order and with the
    same limit; with "both", or no direction, its unlimited rows are exactly
    the links that have the element at either end and meet the [rel]
    filter.  A direction that is none of the three is refused. *)
Theorem list_links_for_element_directions (p : process) (element_id direction : string)
    (rel : option string) (limit : option Z) :
  element_id <> "" ->
  rel <> Some "" ->
  (Py.lower direction = "out" ->
   list_links_for_element element_id direction rel limit p =
   list_links (Some element_id) None rel limit None "updated_at" "DESC" p) /\
  (Py.lower direction = "in" ->
   list_links_for_element element_id direction rel limit p =
   list_links None (Some element_id) rel limit None "updated_at" "DESC" p) /\
  (Py.lower direction = "both" \/ direction = "" ->
   forall rows,
     fst (list_links_for_element element_id direction rel None p) = Ok rows ->
     forall l, In l rows <->
               In l (element_links (db (conn p))) /\
               (ln_src_id l = element_id \/ ln_dst_id l = element_id) /\
               (forall s, rel = Some s -> ln_rel l = s)) /\
  (Py.mem (Py.lower (Py.or_else (Some direction) "both")) [ "out"; "in"; "both" ]
     = false ->
   list_links_for_element element_id direction rel limit p =
   (Raise (ValueError direction_must_be_one_of), p)).
Proof.
  intros Hid Hrel. split; [|split; [|split]].
  - intros Hd.
    assert (Hdir : Py.lower (Py.or_else (Some direction) "both") = "out").
    { rewrite or_else_both; [exact Hd|].
      apply (lower_not_empty _ _ Hd). discriminate. }
    rewrite list_links_for_element_eq, list_links_eq; [|now rewrite Hdir|exact Hrel].
    destruct (match if_truthy rel with Some r => validate_rel r | None => Ok "" end);
      [|reflexivity].
    destruct (pagination limit None) as [lc|]; [|reflexivity].
    destruct (Sql.bind_limit lc); [|reflexivity].
    do 2 f_equal. apply select_links_ext. intros l. cbv zeta. rewrite Hdir.
    rewrite (if_truthy_some _ Hid). cbn [Sql.where_eq if_truthy Py.truthy_opt].
    cbn [String.eqb Ascii.eqb Bool.eqb andb]. now rewrite andb_true_r.
  - intros Hd.
    assert (Hdir : Py.lower (Py.or_else (Some direction) "both") = "in").
    { rewrite or_else_both; [exact Hd|].
      apply (lower_not_empty _ _ Hd). discriminate. }
    rewrite list_links_for_element_eq, list_links_eq; [|now rewrite Hdir|exact Hrel].
    destruct (match if_truthy rel with Some r => validate_rel r | None => Ok "" end);
      [|reflexivity].
    destruct (pagination limit None) as [lc|]; [|reflexivity].
    destruct (Sql.bind_limit lc); [|reflexivity].
    do 2 f_equal. apply select_links_ext. intros l. cbv zeta. rewrite Hdir.
    rewrite (if_truthy_some _ Hid). cbn [Sql.where_eq if_truthy Py.truthy_opt].
    cbn [String.eqb Ascii.eqb Bool.eqb andb]. reflexivity.
  - intros Hd.
    assert (Hdir : Py.lower (Py.or_else (Some direction) "both") = "both").
    { destruct Hd as [Hd| ->]; [|reflexivity].
      rewrite or_else_both; [exact Hd|].
      apply (lower_not_empty _ _ Hd). discriminate. }
    intros rows. rewrite list_links_for_element_eq; [|now rewrite Hdir|exact Hrel].
    cbn [fst pagination].
    pose proof (fun l => where_eq_truthy ln_rel rel l) as Hw.
    destruct (match if_truthy rel with Some r => validate_rel r | None => Ok "" end);
      [|discriminate].
    intros [= <-] l.
    unfold Sql.select_links. cbn [Sql.apply_limit].
    rewrite order_by_In, filter_In. cbv zeta beta.
    change (if Py.truthy direction then direction else "both")
      with (Py.or_else (Some direction) "both").
    rewrite Hdir.
    cbn [String.eqb Ascii.eqb Bool.eqb].
    rewrite andb_true_iff, orb_true_iff, !String.eqb_eq, Hw.
    split.
    + intros (Hin & Hside & Hr). repeat split; try assumption.
      intros s Hs. apply Hr; [assumption|]. congruence.
    + intros (Hin & Hside & Hr). repeat split; try assumption.
      intros s Hs _. now apply Hr.
  - intros Hd. unfold list_links_for_element. cbv zeta. now rewrite Hd.
Qed.

Lemma list_links_for_element_directions_witness :
  list_links_for_element "p" "OUT" (Some "proves") (Some 3%Z) tagged_process =
  list_links (Some "p") None (Some "proves") (Some 3%Z) None "updated_at" "DESC"
    tagged_process /\
  list_links_for_element "p" "sideways" None None tagged_process =
  (Raise (ValueError direction_must_be_one_of), tagged_process).
Proof.
  assert (Hid : "p" <> "") by discriminate.
  assert (H1 : Some "proves" <> Some "") by discriminate.
  assert (H2 : @None string <> Some "") by discriminate.
  split.
  - apply (proj1 (list_links_for_element_directions tagged_process "p" "OUT"
                    (Some "proves") (Some 3%Z) Hid H1)).
    reflexivity.
  - apply (proj2 (proj2 (proj2 (list_links_for_element_directions tagged_process
                                  "p" "sideways" None None Hid H2)))).
    reflexivity.
Defined.

(** ** What a call commits *)

Lemma commits_when_bind {A B : Type} (ok : B -> bool) (m : M A) (k : A -> M B) :
  (forall a, commits_when ok (k a)) -> commits_when ok (bind m k).
Proof.
  intros H p b p' E Hok. unfold bind in E.
  destruct (m p) as [[a|e] p1]; [|discriminate].
  exact (H a p1 b p' E Hok).
Qed.

Lemma commits_when_commit_ret {B : Type} (ok : B -> bool) (b : B) :
  commits_when ok (commit ;;; ret b).
Proof.
  intros p a p' E _. unfold bind, commit, ret in E.
  injection E as _ <-. reflexivity.
Qed.

Lemma commits_when_commit (ok : unit -> bool) : commits_when ok commit.
Proof. intros p a p' E _. unfold commit in E. injection E as _ <-. reflexivity. Qed.

Lemma commits_when_raise {B : Type} (ok : B -> bool) (e : exn) :
  commits_when ok (raise e).
Proof. intros p a p' E. discriminate. Qed.

Lemma commits_when_ret_false : commits_when (fun changed : bool => changed) (ret false).
Proof. intros p a p' E Hok. injection E as <- _. discriminate. Qed.

Ltac committing :=
  repeat (cbv beta;
          match goal with
          | |- commits_when _ (bind commit (fun _ => ret _)) =>
              apply commits_when_commit_ret
          | |- commits_when _ (bind _ _) => apply commits_when_bind; intros ?
          | |- commits_when _ (raise _) => apply commits_when_raise
          | |- commits_when _ commit => apply commits_when_commit
          | |- commits_when _ (ret false) => apply commits_when_ret_false
          | |- commits_when _ (match ?x with _ => _ end) => destruct x
          end).

(** X20.  Every writing call that returns has committed: after
    [create_element], [delete_element], [add_tags], [remove_tags],
    [clear_tags], [set_tags], [create_link] or [delete_link] returned, and
    after [update_element] or [update_link] returned [True], the committed
    tables are the tables of the connection, so nothing this call or an
    earlier, failed one wrote is left pending. *)
Theorem returned_writes_are_committed :
  (forall type title body format tags id,
     commits_when (fun _ => true) (create_element type title body format tags id)) /\
  (forall element_id type title body format tags,
     commits_when (fun changed => changed)
       (update_element element_id type title body format tags)) /\
  (forall element_id, commits_when (fun _ => true) (delete_element element_id)) /\
  (forall element_id tags, commits_when (fun _ => true) (add_tags element_id tags)) /\
  (forall element_id tags, commits_when (fun _ => true) (remove_tags element_id tags)) /\
  (forall element_id, commits_when (fun _ => true) (clear_tags element_id)) /\
  (forall element_id tags, commits_when (fun _ => true) (set_tags element_id tags)) /\
  (forall src_id dst_id rel note id,
     commits_when (fun _ => true) (create_link src_id dst_id rel note id)) /\
  (forall link_id rel note,
     commits_when (fun changed => changed) (update_link link_id rel note)) /\
  (forall link_id, commits_when (fun _ => true) (delete_link link_id)).
Proof.
  repeat split; intros.
  - unfold create_element. committing.
  - unfold update_element. committing.
  - unfold delete_element. committing.
  - unfold add_tags. committing.
  - unfold remove_tags. committing.
  - unfold clear_tags. committing.
  - unfold set_tags. committing.
  - unfold create_link. committing.
  - unfold update_link. committing.
  - unfold delete_link. committing.
Qed.

Lemma returned_writes_are_committed_witness :
  let failed := snd (create_element "lemma" "L" "text" "plain" (Some [ " " ])
                       (Some "l") example_process) in
  committed (conn failed) <> db (conn failed) /\
  let q := snd (add_tags "t" [ "x" ] failed) in
  committed (conn q) = db (conn q).
Proof.
  intros failed. split; [vm_compute; discriminate|].
  intros q.
  destruct returned_writes_are_committed as (_ & _ & _ & H & _).
  apply (H "t" [ "x" ] failed 1%Z q); reflexivity.
Defined.

(** ** What a call leaves alone *)

Lemma tags_of_kept other (keep : element_tag -> bool) d :
  (forall r, et_element_id r = other -> keep r = true) ->
  tags_of other
    (mk_database (elements d) (filter keep (element_tags d)) (element_links d))
  = tags_of other d.
Proof.
  intros H. unfold tags_of. cbn [element_tags]. rewrite filter_filter.
  f_equal. apply filter_ext. intros r.
  destruct (et_element_id r =? other) eqn:E; [|now rewrite andb_false_r].
  apply String.eqb_eq in E. now rewrite (H r E).
Qed.

Lemma tags_of_row_added other r d :
  et_element_id r <> other ->
  tags_of other
    (mk_database (elements d) (element_tags d ++ [r]) (element_links d))
  = tags_of other d.
Proof.
  intros H. unfold tags_of. cbn [element_tags]. rewrite filter_app.
  cbn [filter]. apply String.eqb_neq in H. rewrite H. now rewrite app_nil_r.
Qed.

Lemma find_app_some {A : Type} (f : A -> bool) (l l' : list A) x :
  find f l = Some x -> find f (l ++ l') = Some x.
Proof.
  induction l as [|a l IH]; [discriminate|]. cbn [find app].
  destruct (f a); auto.
Qed.

Lemma find_map_other {A : Type} (key : A -> string) (upd : A -> A) id other
    (rows : list A) :
  (forall r, key (upd r) = key r) ->
  other <> id ->
  find (fun r => key r =? other)
    (map (fun r => if key r =? id then upd r else r) rows)
  = find (fun r => key r =? other) rows.
Proof.
  intros Hk Hne. induction rows as [|r rows IH]; [reflexivity|].
  cbn [map find]. destruct (key r =? id) eqn:E.
  - rewrite Hk. apply String.eqb_eq in E. rewrite E.
    assert (H : (id =? other) = false) by (apply String.eqb_neq; congruence).
    now rewrite H.
  - now rewrite IH.
Qed.

Lemma preserves_execute_bind {B : Type} (I : database -> Prop) stmt (k : Z -> M B) :
  (forall d n d', I d -> stmt d = Ok (n, d') -> I d' /\ preserves I (k n)) ->
  preserves I (bind (execute stmt) k).
Proof.
  intros H p HI. unfold bind, execute.
  destruct (stmt (db (conn p))) as [[n d']|e] eqn:E; [|exact HI].
  destruct (H _ _ _ HI E) as [H1 H2]. apply H2. exact H1.
Qed.

Section TagFrame.

Variable I : database -> Prop.
Variables other element_id : string.
Hypothesis Hne : other <> element_id.
Hypothesis Hclosed :
  forall d d', I d -> elements d' = elements d ->
               element_links d' = element_links d ->
               tags_of other d' = tags_of other d -> I d'.

Lemma insert_element_tag_other t ts d n d' :
  I d -> Sql.insert_element_tag (mk_element_tag element_id t ts) d = Ok (n, d') ->
  I d'.
Proof.
  intros HI Hs. unfold Sql.insert_element_tag in Hs.
  destruct (Sql.tag_exists _ _ _); [discriminate|].
  destruct (negb _); [discriminate|]. injection Hs as _ <-.
  apply (Hclosed d); auto. apply tags_of_row_added. cbn. congruence.
Qed.

Lemma insert_or_ignore_element_tag_other t ts d n d' :
  I d ->
  Sql.insert_or_ignore_element_tag (mk_element_tag element_id t ts) d = Ok (n, d') ->
  I d'.
Proof.
  intros HI Hs. unfold Sql.insert_or_ignore_element_tag in Hs.
  destruct (Sql.tag_exists _ _ _); [now injection Hs as _ <-|].
  destruct (negb _); [discriminate|]. injection Hs as _ <-.
  apply (Hclosed d); auto. apply tags_of_row_added. cbn. congruence.
Qed.

Lemma delete_element_tags_other d n d' :
  I d -> Sql.delete_element_tags element_id d = Ok (n, d') -> I d'.
Proof.
  intros HI Hs. unfold Sql.delete_element_tags in Hs. injection Hs as _ <-.
  apply (Hclosed d); auto. apply tags_of_kept. intros r Hr.
  apply negb_true_iff, String.eqb_neq. congruence.
Qed.

Lemma delete_element_tag_other t d n d' :
  I d -> Sql.delete_element_tag element_id t d = Ok (n, d') -> I d'.
Proof.
  intros HI Hs. unfold Sql.delete_element_tag in Hs. injection Hs as _ <-.
  apply (Hclosed d); auto. apply tags_of_kept. intros r Hr.
  apply negb_true_iff, andb_false_iff. left. apply String.eqb_neq. congruence.
Qed.

Lemma add_tags_other tags : preserves I (add_tags element_id tags).
Proof.
  unfold add_tags. pres. apply preserves_for_sum. intros t.
  apply preserves_execute. intros d n d'. apply insert_or_ignore_element_tag_other.
Qed.

Lemma remove_tags_other tags : preserves I (remove_tags element_id tags).
Proof.
  unfold remove_tags. pres. apply preserves_for_sum. intros t.
  apply preserves_execute. intros d n d'. apply delete_element_tag_other.
Qed.

Lemma clear_tags_other : preserves I (clear_tags element_id).
Proof.
  unfold clear_tags. pres.
  apply preserves_execute. intros d n d'. apply delete_element_tags_other.
Qed.

Lemma set_tags_other tags : preserves I (set_tags element_id tags).
Proof.
  unfold set_tags. pres.
  - apply preserves_execute. intros d n d'. apply delete_element_tags_other.
  - apply preserves_for_each. intros t. pres.
    apply preserves_execute. intros d n d'. apply insert_element_tag_other.
Qed.

End TagFrame.

Lemma tag_frame_closed E L other T d d' :
  tag_frame E L other T d -> elements d' = elements d ->
  element_links d' = element_links d ->
  tags_of other d' = tags_of other d -> tag_frame E L other T d'.
Proof. unfold tag_frame. intros (H1 & H2 & H3) -> -> ->. auto. Qed.

Lemma element_frame_closed L other e T d d' :
  element_frame L other e T d -> elements d' = elements d ->
  element_links d' = element_links d ->
  tags_of other d' = tags_of other d -> element_frame L other e T d'.
Proof.
  unfold element_frame, Sql.select_element. intros (H1 & H2 & H3) -> -> ->. auto.
Qed.

Lemma list_tags_tags_of other q q' :
  tags_of other (db (conn q')) = tags_of other (db (conn q)) ->
  fst (list_tags other q') = fst (list_tags other q).
Proof.
  intros H. unfold list_tags, query. cbn [fst].
  now rewrite !select_tags_tags_of, H.
Qed.

(** X21.  A call on the tags of one element ([add_tags], [remove_tags],
    [clear_tags], [set_tags]) leaves the elements, the links and the tags
    every other element lists as they were, whether it returns or raises
    part of the way. *)
Theorem tag_calls_frame (p q : process) (element_id other : string)
    (tags : list string) :
  other <> element_id ->
  In q [ snd (add_tags element_id tags p); snd (remove_tags element_id tags p);
         snd (clear_tags element_id p); snd (set_tags element_id tags p) ] ->
  elements (db (conn q)) = elements (db (conn p)) /\
  element_links (db (conn q)) = element_links (db (conn p)) /\
  fst (list_tags other q) = fst (list_tags other p).
Proof.
  intros Hne Hq.
  set (I := tag_frame (elements (db (conn p))) (element_links (db (conn p))) other
              (tags_of other (db (conn p)))).
  assert (H0 : I (db (conn p))) by (repeat split).
  assert (Hc : forall d d', I d -> elements d' = elements d ->
                            element_links d' = element_links d ->
                            tags_of other d' = tags_of other d -> I d')
    by (intros d d'; apply tag_frame_closed).
  assert (H : I (db (conn q))).
  { destruct Hq as [<-|[<-|[<-|[<-|[]]]]].
    - now apply (add_tags_other I other element_id Hne Hc tags).
    - now apply (remove_tags_other I other element_id Hne Hc tags).
    - now apply (clear_tags_other I other element_id Hne Hc).
    - now apply (set_tags_other I other element_id Hne Hc tags). }
  destruct H as (H1 & H2 & H3). repeat split; try assumption.
  now apply list_tags_tags_of.
Qed.

Lemma tag_calls_frame_witness :
  let q := snd (set_tags "t" [ "c"; "c"; " " ] tagged_process) in
  fst (set_tags "t" [ "c"; "c"; " " ] tagged_process) = Raise (ValueError tag_is_empty) /\
  elements (db (conn q)) = elements (db (conn tagged_process)) /\
  element_links (db (conn q)) = element_links (db (conn tagged_process)) /\
  fst (list_tags "p" q) = fst (list_tags "p" tagged_process).
Proof.
  intros q. split; [reflexivity|].
  apply (tag_calls_frame tagged_process q "t" "p" [ "c"; "c"; " " ]).
  - discriminate.
  - cbn [In]. auto.
Defined.

Lemma select_element_exists_true d other e :
  Sql.select_element other d = Some e -> Sql.element_exists d other = true.
Proof. apply find_existsb. Qed.

Lemma create_element_other L other e T type title body format tags id :
  preserves (element_frame L other (Some e) T)
    (create_element type title body format tags id).
Proof.
  unfold create_element.
  apply preserves_bind; [apply preserves_lift | intros _].
  apply preserves_bind; [apply preserves_lift | intros _].
  destruct (negb (Py.truthy (Py.strip title))); [apply preserves_raise|].
  destruct (negb (Py.truthy (Py.strip body))); [apply preserves_raise|].
  apply preserves_bind; [destruct (Py.truthy_opt id); pres | intros element_id].
  apply preserves_bind; [pres | intros ts].
  apply preserves_execute_bind. intros d n d' (H1 & H2 & H3) Hs.
  unfold Sql.insert_element in Hs. cbn [el_type el_format el_id] in Hs.
  destruct (negb (Py.mem type ELEMENT_TYPES)); [discriminate|].
  destruct (negb (Py.mem format FORMATS)); [discriminate|].
  destruct (Sql.element_exists d element_id) eqn:Ex; [discriminate|].
  injection Hs as _ <-.
  assert (Hne : other <> element_id).
  { intros ->. apply select_element_exists_true in H2. congruence. }
  split.
  - repeat split; cbn; try assumption.
    unfold Sql.select_element in *. cbn [elements]. now apply find_app_some.
  - pres. destruct tags as [ts'|]; [|pres].
    apply (set_tags_other _ other element_id Hne).
    intros d0 d0'. apply element_frame_closed.
Qed.

Lemma update_element_other L other e T element_id type title body format tags :
  other <> element_id ->
  preserves (element_frame L other e T)
    (update_element element_id type title body format tags).
Proof.
  intros Hne. unfold update_element.
  apply preserves_bind; [pres | intros existing].
  destruct existing as [existing|]; [|pres].
  apply preserves_bind; [destruct type; pres | intros new_type].
  apply preserves_bind; [destruct format; pres | intros new_format].
  destruct (negb (Py.truthy (Py.strip _))); [apply preserves_raise|].
  destruct (negb (Py.truthy (Py.strip _))); [apply preserves_raise|].
  pres.
  - apply preserves_execute. intros d n d' (H1 & H2 & H3) Hs.
    unfold Sql.update_element in Hs. cbv zeta in Hs.
    destruct (negb (existsb _ _)); [now injection Hs as _ <-|].
    destruct (negb (Py.mem new_type ELEMENT_TYPES)); [discriminate|].
    destruct (negb (Py.mem new_format FORMATS)); [discriminate|].
    injection Hs as _ <-. repeat split; cbn; try assumption.
    unfold Sql.select_element in *. cbn [elements].
    rewrite find_map_other; [assumption|reflexivity|assumption].
  - destruct tags as [ts'|]; [|pres].
    apply (set_tags_other _ other element_id Hne).
    intros d0 d0'. apply element_frame_closed.
Qed.

Lemma get_element_frame other q q' :
  Sql.select_element other (db (conn q')) = Sql.select_element other (db (conn q)) ->
  tags_of other (db (conn q')) = tags_of other (db (conn q)) ->
  fst (get_element other true q') = fst (get_element other true q).
Proof.
  intros H1 H2. rewrite !get_element_eq. cbn [fst].
  now rewrite !select_tags_tags_of, H1, H2.
Qed.

(** X22.  [create_element] never disturbs what is stored: the links stay
    as they were and every element that was in the store reads as before,
    row and tags, also when the call raises and also when it was given the
    id of that element.  [update_element] leaves the links and every other
    element, row and tags, as they were, however it ends. *)
Theorem element_calls_frame (p : process) (other : string) :
  (forall type title body format tags id,
     Sql.element_exists (db (conn p)) other = true ->
     let q := snd (create_element type title body format tags id p) in
     element_links (db (conn q)) = element_links (db (conn p)) /\
     fst (get_element other true q) = fst (get_element other true p)) /\
  (forall element_id type title body format tags,
     other <> element_id ->
     let q := snd (update_element element_id type title body format tags p) in
     element_links (db (conn q)) = element_links (db (conn p)) /\
     fst (get_element other true q) = fst (get_element other true p)).
Proof.
  split.
  - intros type title body format tags id Hex q.
    destruct (Sql.select_element other (db (conn p))) as [e|] eqn:He.
    + destruct (create_element_other (element_links (db (conn p))) other e
                  (tags_of other (db (conn p))) type title body format tags id p)
        as (H1 & H2 & H3); [repeat split; assumption|].
      split; [exact H1|]. apply get_element_frame; [|exact H3].
      fold q in H2. now rewrite H2.
    + unfold Sql.element_exists in Hex. unfold Sql.select_element in He.
      apply existsb_exists in Hex. destruct Hex as (x & Hx & Hfx).
      now rewrite (find_none _ _ He x Hx) in Hfx.
  - intros element_id type title body format tags Hne q.
    destruct (update_element_other (element_links (db (conn p))) other
                (Sql.select_element other (db (conn p)))
                (tags_of other (db (conn p))) element_id type title body format
                tags Hne p)
      as (H1 & H2 & H3); [repeat split|].
    split; [exact H1|]. now apply get_element_frame.
Qed.

Lemma element_calls_frame_witness :
  (let r := create_element "lemma" "L" "text" "plain" (Some [ "x" ]) (Some "t")
              tagged_process in
   fst r = Raise (IntegrityError PK_elements) /\
   element_links (db (conn (snd r))) = element_links (db (conn tagged_process)) /\
   fst (get_element "t" true (snd r)) = fst (get_element "t" true tagged_process)) /\
  (let q := snd (update_element "t" None (Some "T2") None None (Some [ "x"; "" ])
                   tagged_process) in
   element_links (db (conn q)) = element_links (db (conn tagged_process)) /\
   fst (get_element "p" true q) = fst (get_element "p" true tagged_process)).
Proof.
  split.
  - intros r. split; [reflexivity|].
    apply (proj1 (element_calls_frame tagged_process "t")). reflexivity.
  - apply (proj2 (element_calls_frame tagged_process "p")). discriminate.
Defined.

Lemma create_link_other E T other l src_id dst_id rel note id :
  preserves (link_frame E T other (Some l)) (create_link src_id dst_id rel note id).
Proof.
  unfold create_link.
  apply preserves_bind; [apply preserves_lift | intros _].
  apply preserves_bind; [apply validate_link_semantics_preserves | intros _].
  apply preserves_bind; [destruct (Py.truthy_opt id); pres | intros link_id].
  pres. apply preserves_execute. intros d n d' (H1 & H2 & H3) Hs.
  unfold Sql.insert_element_link in Hs.
  destruct (negb (Py.mem _ _)); [discriminate|].
  destruct (existsb _ _); [discriminate|].
  destruct (Sql.link_exists _ _); [discriminate|].
  destruct (negb (_ && _)); [discriminate|].
  injection Hs as _ <-. repeat split; cbn; try assumption.
  unfold Sql.select_link in *. cbn [element_links]. now apply find_app_some.
Qed.

Lemma update_link_other E T other l link_id rel note :
  other <> link_id ->
  preserves (link_frame E T other l) (update_link link_id rel note).
Proof.
  intros Hne. unfold update_link.
  apply preserves_bind; [pres | intros existing].
  destruct existing as [existing|]; [|pres].
  apply preserves_bind; [destruct rel; pres | intros new_rel].
  apply preserves_bind;
    [destruct rel; [apply validate_link_semantics_preserves | pres] | intros _].
  pres. apply preserves_execute. intros d n d' (H1 & H2 & H3) Hs.
  unfold Sql.update_element_link in Hs. cbv zeta in Hs.
  destruct (negb (existsb _ _)); [now injection Hs as _ <-|].
  destruct (negb (Py.mem new_rel LINK_RELATIONS)); [discriminate|].
  destruct (existsb _ _); [discriminate|].
  injection Hs as _ <-. repeat split; cbn; try assumption.
  unfold Sql.select_link in *. cbn [element_links].
  rewrite find_map_other; [assumption|reflexivity|assumption].
Qed.

(** X23.  The link calls leave elements and tags alone, however they end:
    after [create_link] every link that was stored still reads the same,
    and after [update_link] every other link does. *)
Theorem link_calls_frame (p : process) (other : string) :
  (forall src_id dst_id rel note id l,
     fst (get_link other p) = Ok (Some l) ->
     let q := snd (create_link src_id dst_id rel note id p) in
     elements (db (conn q)) = elements (db (conn p)) /\
     element_tags (db (conn q)) = element_tags (db (conn p)) /\
     fst (get_link other q) = Ok (Some l)) /\
  (forall link_id rel note,
     other <> link_id ->
     let q := snd (update_link link_id rel note p) in
     elements (db (conn q)) = elements (db (conn p)) /\
     element_tags (db (conn q)) = element_tags (db (conn p)) /\
     fst (get_link other q) = fst (get_link other p)).
Proof.
  split.
  - intros src_id dst_id rel note id l Hl q.
    unfold get_link, query in Hl. cbn [fst] in Hl. injection Hl as Hl.
    destruct (create_link_other (elements (db (conn p))) (element_tags (db (conn p)))
                other l src_id dst_id rel note id p)
      as (H1 & H2 & H3); [repeat split; assumption|].
    repeat split; try assumption. unfold get_link, query. cbn [fst].
    fold q in H3. now rewrite H3.
  - intros link_id rel note Hne q.
    destruct (update_link_other (elements (db (conn p))) (element_tags (db (conn p)))
                other (Sql.select_link other (db (conn p))) link_id rel note Hne p)
      as (H1 & H2 & H3); [repeat split|].
    repeat split; try assumption. unfold get_link, query. cbn [fst].
    fold q in H3. now rewrite H3.
Qed.

Lemma link_calls_frame_witness :
  (let q := snd (create_link "p" "t" "proves" "again" (Some "M") tagged_process) in
   elements (db (conn q)) = elements (db (conn tagged_process)) /\
   element_tags (db (conn q)) = element_tags (db (conn tagged_process)) /\
   fst (get_link "L" q) = fst (get_link "L" tagged_process)) /\
  (let q := snd (update_link "M" (Some "uses") None tagged_process) in
   elements (db (conn q)) = elements (db (conn tagged_process)) /\
   element_tags (db (conn q)) = element_tags (db (conn tagged_process)) /\
   fst (get_link "L" q) = fst (get_link "L" tagged_process)).
Proof.
  split.
  - destruct (Sql.select_link "L" (db (conn tagged_process))) as [l|] eqn:E;
      [|vm_compute in E; discriminate].
    intros q.
    replace (fst (get_link "L" tagged_process)) with (Ok (Some l))
      by (unfold get_link, query; cbn [fst]; now rewrite E).
    apply (proj1 (link_calls_frame tagged_process "L")).
    unfold get_link, query. cbn [fst]. now rewrite E.
  - apply (proj2 (link_calls_frame tagged_process "L")). discriminate.
Defined.

(** ** The calls that only read *)

Lemma readonly_bind {A B : Type} (m : M A) (k : A -> M B) :
  readonly m -> (forall a, readonly (k a)) -> readonly (bind m k).
Proof.
  intros Hm Hk p. unfold bind. specialize (Hm p).
  destruct (m p) as [[a|e] p']; cbn [snd] in *; subst p'; [apply Hk|reflexivity].
Qed.

Lemma readonly_ret {A : Type} (a : A) : readonly (ret a).
Proof. intros p. reflexivity. Qed.

Lemma readonly_raise {A : Type} (e : exn) : readonly (@raise A e).
Proof. intros p. reflexivity. Qed.

Lemma readonly_lift {A : Type} (r : result A) : readonly (lift r).
Proof. intros p. reflexivity. Qed.

Lemma readonly_query {A : Type} (f : database -> A) : readonly (query f).
Proof. intros p. reflexivity. Qed.

Lemma readonly_fetch {A : Type} (f : database -> result A) : readonly (fetch f).
Proof. intros p. reflexivity. Qed.

Ltac reading :=
  repeat (cbv beta zeta;
          match goal with
          | |- readonly (bind _ _) => apply readonly_bind; [|intros ?]
          | |- readonly (ret _) => apply readonly_ret
          | |- readonly (raise _) => apply readonly_raise
          | |- readonly (lift _) => apply readonly_lift
          | |- readonly (query _) => apply readonly_query
          | |- readonly (fetch _) => apply readonly_fetch
          | |- readonly (list_tags _) => unfold list_tags
          | |- readonly (match ?x with _ => _ end) => destruct x
          end).

Lemma with_tags_readonly include_tags rows : readonly (with_tags include_tags rows).
Proof.
  unfold with_tags. destruct include_tags; [|apply readonly_ret].
  induction rows as [|r rows IH]; [apply readonly_ret|].
  apply readonly_bind; [apply readonly_query | intros ts].
  apply readonly_bind; [exact IH | intros ds]. apply readonly_ret.
Qed.

(** X24.  The reading calls ([get_element], [list_elements], [list_tags],
    [list_elements_by_tag], [get_link], [list_links],
    [list_links_for_element]) leave the process as they found it, whether
    they return or raise: no table changes, nothing is committed, and the
    clock and the random source are not consumed. *)
Theorem reading_calls_change_nothing :
  (forall element_id include_tags, readonly (get_element element_id include_tags)) /\
  (forall type q tag format limit offset order_by order_dir include_tags,
     readonly (list_elements type q tag format limit offset order_by order_dir
                 include_tags)) /\
  (forall element_id, readonly (list_tags element_id)) /\
  (forall tag limit, readonly (list_elements_by_tag tag limit)) /\
  (forall link_id, readonly (get_link link_id)) /\
  (forall src_id dst_id rel limit offset order_by order_dir,
     readonly (list_links src_id dst_id rel limit offset order_by order_dir)) /\
  (forall element_id direction rel limit,
     readonly (list_links_for_element element_id direction rel limit)).
Proof.
  split; [|split; [|split; [|split; [|split; [|split]]]]]; intros.
  - unfold get_element. reading.
  - unfold list_elements. reading; apply with_tags_readonly.
  - unfold list_tags. reading.
  - unfold list_elements_by_tag. reading.
  - unfold get_link. reading.
  - unfold list_links. reading.
  - unfold list_links_for_element. reading.
Qed.

(** ** What every stored row satisfies *)

(** X25.  Whatever calls were made, with whatever arguments and whether
    they returned or raised, every stored element has a type of
    [ELEMENT_TYPES], a format of [FORMATS] and a title and a body that are
    not blank, every stored link has a relation of [LINK_RELATIONS], and no
    two elements and no two links share an id. *)
Theorem stored_rows_valid (p : process) :
  reachable p ->
  (forall e, In e (elements (db (conn p))) ->
     In (el_type e) ELEMENT_TYPES /\ In (el_format e) FORMATS /\
     nonblank (el_title e) /\ nonblank (el_body e)) /\
  NoDup (map el_id (elements (db (conn p)))) /\
  (forall l, In l (element_links (db (conn p))) -> In (ln_rel l) LINK_RELATIONS) /\
  NoDup (map ln_id (element_links (db (conn p)))).
Proof.
  intros Hr. destruct (reachable_db_ok p Hr) as [Hpk Hel Hlpk Hl _].
  rewrite Forall_forall in Hel, Hl. split; [|split; [|split]].
  - intros e He. destruct (Hel e He) as (Ht & Hf & Hti & Hb).
    rewrite mem_In in Ht, Hf. auto.
  - exact Hpk.
  - intros l Hin. apply mem_In. exact (Hl l Hin).
  - exact Hlpk.
Qed.

Lemma stored_rows_valid_witness :
  let q := snd (run (Update_element "t" (Some "note") (Some " ") None None None)
                  (snd (run (Update_element "p" (Some "remark") None None None None)
                          tagged_process))) in
  option_map el_type (Sql.select_element "p" (db (conn q))) = Some "remark" /\
  forall e, In e (elements (db (conn q))) ->
    In (el_type e) ELEMENT_TYPES /\ In (el_format e) FORMATS /\
    nonblank (el_title e) /\ nonblank (el_body e).
Proof.
  intros q. split; [reflexivity|].
  apply (stored_rows_valid q).
  unfold q. do 2 apply reachable_run. apply tagged_process_reachable.
Defined.
